(** * ICPW template processing (thematic_report_2023/utils.py)

    A shallow embedding of the template-processing pipeline

      read_data_template -> map_method_ids -> map_station_ids -> wide_to_long
        -> extract_lod_flags -> remove_duplicates -> upload_samples
        -> upload_chemistry

    Data frames are lists of rows (row labels are never read by the code
    and are left out) and a missing cell (NaN / None / NaT) is [None].  A
    number of the column "value" is written as a rational, which stands
    for the binary64 number nearest to it; the arithmetic of the "mean"
    aggregation is that of binary64, with its rounding.  A text is a
    string of bytes, and its digits are those of ASCII.  A Python
    exception is a value of [Exc], threaded through [Result]; the database
    is a record of tables, passed in and returned by the two functions
    that write to it, and what it does with an INSERT is a parameter of
    these functions. *)

From stdpp Require Import base list strings sorting.
From Stdlib Require Import Ascii ZArith QArith Qround Qpower Lia Lqa.

Local Open Scope string_scope.
Local Open Scope list_scope.
Local Open Scope Z_scope.

(** ** Exceptions *)

(** [DatabaseError] is an error raised on the side of the database; its
    class and its text depend on the driver and are left out. *)
Inductive Exc : Type :=
  | AssertionError (msg : string)
  | ValueError (msg : string)
  | DatabaseError.

Inductive Result (A : Type) : Type :=
  | Ok (a : A)
  | Raise (e : Exc).
Arguments Ok {A} a.
Arguments Raise {A} e.

Definition bind {A B} (m : Result A) (f : A -> Result B) : Result B :=
  match m with
  | Ok a => f a
  | Raise e => Raise e
  end.

Notation "'try' x <- m ; k" := (bind m (fun x => k))
  (at level 10, x name, m at level 100, k at level 200).

(** [mapM f l]: run [f] over [l] from left to right, stopping at the first
    exception. *)
Fixpoint mapM {A B} (f : A -> Result B) (l : list A) : Result (list B) :=
  match l with
  | [] => Ok []
  | a :: l' => try b <- f a; try bs <- mapM f l'; Ok (b :: bs)
  end.

(** ** Text *)

(** [needle in hay], for Python strings. *)
Fixpoint str_in (needle hay : string) : bool :=
  if String.prefix needle hay then true
  else match hay with
       | EmptyString => false
       | String _ hay' => str_in needle hay'
       end.

(** A decimal digit of an ASCII text.  (On a text beyond ASCII, [\d],
    [int] and [float] of Python take the decimal digits of other scripts
    too; such texts are outside this model.) *)
Definition is_digit (c : ascii) : bool :=
  let n := Ascii.nat_of_ascii c in (48 <=? n)%nat && (n <=? 57)%nat.

Definition digit_val (c : ascii) : Z := Z.of_nat (Ascii.nat_of_ascii c) - 48.

Definition is_space (c : ascii) : bool :=
  let n := Ascii.nat_of_ascii c in
  ((9 <=? n)%nat && (n <=? 13)%nat) || (n =? 32)%nat.

(** ** Regular expressions, with the search of Python's [re]

    Ordered alternation and greedy repetition, both with backtracking:
    [rmatch r s k] matches [r] at the head of [s] and hands the rest of the
    text to the continuation [k]; a [None] from [k] makes the matcher try
    its next choice. *)

Inductive regex : Type :=
  | Eps
  | Chr (p : ascii -> bool)
  | Seq (a b : regex)
  | Alt (a b : regex)
  | Star (a : regex).

Definition Opt (a : regex) : regex := Alt a Eps.
Definition Plus (a : regex) : regex := Seq a (Star a).

(** Greedy repetition of a matcher [m]: one more round first, the
    continuation next.  A round that consumes nothing is refused, and [n]
    bounds the rounds by the length of the text. *)
Definition star_loop {A} (m : string -> (string -> option A) -> option A)
  (k : string -> option A) : nat -> string -> option A :=
  fix loop (n : nat) (s : string) : option A :=
    match n with
    | O => k s
    | S n' =>
        match m s (fun s' =>
                if (String.length s' <? String.length s)%nat
                then loop n' s' else None) with
        | Some x => Some x
        | None => k s
        end
    end.

Fixpoint rmatch {A} (r : regex) (s : string) (k : string -> option A)
  : option A :=
  match r with
  | Eps => k s
  | Chr p =>
      match s with
      | String c s' => if p c then k s' else None
      | EmptyString => None
      end
  | Seq a b => rmatch a s (fun s' => rmatch b s' k)
  | Alt a b =>
      match rmatch a s k with
      | Some x => Some x
      | None => rmatch b s k
      end
  | Star a => star_loop (rmatch a) k (String.length s) s
  end.

(** [re.search]: the leftmost position at which the pattern matches; the
    result is the matched text. *)
Fixpoint re_search (r : regex) (s : string) : option string :=
  match rmatch r s Some with
  | Some rest =>
      Some (String.substring 0 (String.length s - String.length rest) s)
  | None =>
      match s with
      | EmptyString => None
      | String _ s' => re_search r s'
      end
  end.

Definition chr_in (set : string) (c : ascii) : bool :=
  str_in (String c EmptyString) set.

(** The pattern of [extract_lod_flags]: [([-+]?\d*\.\d+|\d+)], on an
    ASCII text. *)
Definition number_pattern : regex :=
  Alt (Seq (Opt (Chr (chr_in "-+")))
        (Seq (Star (Chr is_digit))
          (Seq (Chr (chr_in ".")) (Plus (Chr is_digit)))))
      (Plus (Chr is_digit)).

(** ** Conversions of text to numbers *)

Fixpoint read_digits (acc : Z) (n : nat) (s : string) : Z * nat * string :=
  match s with
  | String c s' =>
      if is_digit c then read_digits (acc * 10 + digit_val c) (S n) s'
      else (acc, n, s)
  | EmptyString => (acc, n, s)
  end.

Definition read_sign (s : string) : bool * string :=
  match s with
  | String "-" s' => (true, s')
  | String "+" s' => (false, s')
  | _ => (false, s)
  end.

Definition signed (neg : bool) (q : Q) : Q := if neg then Qopp q else q.

(** [float(s)] on the decimal literals the pattern above can produce: a
    sign, digits and a fraction, with at least one digit.  [None] stands
    for the [ValueError] of a text that is no such literal.  The result is
    the number the literal writes; the binary64 number that [float] gives
    is the one nearest to it ([round], below). *)
Definition float_of_string (s : string) : option Q :=
  let '(neg, s1) := read_sign s in
  let '(ip, ni, s2) := read_digits 0 0 s1 in
  match s2 with
  | EmptyString =>
      if (0 <? ni)%nat then Some (Qred (signed neg (inject_Z ip))) else None
  | String "." s3 =>
      let '(fp, nf, s4) := read_digits 0 0 s3 in
      match s4 with
      | EmptyString =>
          if (0 <? ni + nf)%nat
          then Some (Qred (signed neg
                 (Qmake (ip * 10 ^ Z.of_nat nf + fp)
                        (Z.to_pos (10 ^ Z.of_nat nf)))))
          else None
      | _ => None
      end
  | _ => None
  end.

(** Python's [int(s)] on an ASCII text: surrounding white space, a sign,
    and digits that single underscores may separate. *)
Fixpoint lstrip (s : string) : string :=
  match s with
  | String c s' => if is_space c then lstrip s' else s
  | EmptyString => s
  end.

Fixpoint read_int_body (acc : Z) (after_digit : bool) (s : string)
  : option Z :=
  match s with
  | EmptyString => if after_digit then Some acc else None
  | String c s' =>
      if is_digit c then read_int_body (acc * 10 + digit_val c) true s'
      else if Ascii.eqb c "_" then
        (if after_digit then
           match s' with
           | String d _ =>
               if is_digit d then read_int_body acc false s' else None
           | EmptyString => None
           end
         else None)
      else if is_space c then
        (if after_digit then
           match lstrip s' with
           | EmptyString => Some acc
           | _ => None
           end
         else None)
      else None
  end.

Definition int_of_string (s : string) : option Z :=
  let '(neg, s1) := read_sign (lstrip s) in
  match read_int_body 0 false s1 with
  | Some z => Some (if neg then - z else z)
  | None => None
  end.

(** ** Data model *)

(** A cell of the template: empty (NaN), or a value, of which the code reads
    only the text [str(value)]. *)
Definition Cell : Type := option string.

Definition py_str (c : Cell) : string :=
  match c with
  | Some s => s
  | None => "nan"
  end.

(** A column label: the template's header text, or a RESA2 method id. *)
Inductive Label : Type :=
  | LInt (z : Z)
  | LStr (s : string).

(** The wide frame.  Its two identifying columns are the fields [w_id]
    ("Code", later "station_id") and [w_date] ("Date"); the parameter
    columns are [w_params], and the cells of a row are in their order. *)
Record WideRow (I : Type) : Type := mkWideRow {
  w_id : I;
  w_date : option Z;
  w_cells : list Cell
}.
Arguments mkWideRow {I}.
Arguments w_id {I}.
Arguments w_date {I}.
Arguments w_cells {I}.

Record Wide (I : Type) : Type := mkWide {
  w_params : list Label;
  w_rows : list (WideRow I)
}.
Arguments mkWide {I}.
Arguments w_params {I}.
Arguments w_rows {I}.

(** A row of the melted frame; [M] is the type of the "method_id" column,
    labels before [astype(int)] and integers after it. *)
Record Melted (M : Type) : Type := mkMelted {
  m_station_id : option Z;
  m_date : option Z;
  m_method_id : M;
  m_value : Cell
}.
Arguments mkMelted {M}.
Arguments m_station_id {M}.
Arguments m_date {M}.
Arguments m_method_id {M}.
Arguments m_value {M}.

(** The LOD flag: the text "<" or ">". *)
Inductive Flag : Type := below_LOD | above_LOD.

Definition flag_text (f : Flag) : string :=
  match f with below_LOD => "<" | above_LOD => ">" end.

(** A long observation.  Every column of a frame is nullable. *)
Record LongObs : Type := mkLongObs {
  station_id : option Z;
  date : option Z;
  method_id : option Z;
  value : option Q;
  flag1 : option Flag
}.

#[global] Instance Flag_eq_dec : EqDecision Flag.
Proof. solve_decision. Defined.

(** ** merge_multi_header *)

Fixpoint str_replace_underscore_dash (s : string) : string :=
  match s with
  | String "_" (String "-" s') => str_replace_underscore_dash s'
  | String c s' => String c (str_replace_underscore_dash s')
  | EmptyString => EmptyString
  end.

(** The header of a column from its two levels (parameter, unit). *)
Definition merge_multi_header (h : string * string) : string :=
  str_replace_underscore_dash (h.1 ++ "_" ++ h.2)%string.

(** ** map_method_ids *)

Definition meth_map : list (string * Label) :=
  [ ("Code", LStr "code"); ("Date", LStr "date");
    ("pH", LInt 10268); ("Cond25_mS/m at 25C", LInt 10260);
    ("NH4-N_µgN/L", LInt 10264); ("Ca_mg/L", LInt 10251);
    ("Mg_mg/L", LInt 10261); ("Na_mg/L", LInt 10263);
    ("K_mg/L", LInt 10258); ("Alk_µeq/L", LInt 10298);
    ("SO4_mg/L", LInt 10271); ("NO3-N_µgN/L", LInt 10265);
    ("Cl_mg/L", LInt 10253); ("F_µg/L", LInt 11121);
    ("TOTP_µgP/L", LInt 10275); ("TOTN_µgN/L", LInt 10274);
    ("ORTP_µgP/L", LInt 10279); ("OKS_mgO/L", LInt 10277);
    ("SiO2_mgSiO2/L", LInt 10270); ("DOC_mgC/L", LInt 10294);
    ("TOC_mgC/L", LInt 10273); ("PERM_mgO/L", LInt 10267);
    ("TAl_µg/L", LInt 10249); ("RAl_µg/L", LInt 10269);
    ("ILAl_µg/L", LInt 10257); ("LAl_µg/L", LInt 10292);
    ("Fe_Total_µg/L", LInt 10256); ("Mn_Total_µg/L", LInt 10262);
    ("Cd_Total_µg/L", LInt 10252); ("Zn_Total_µg/L", LInt 10276);
    ("Cu_Total_µg/L", LInt 10254); ("Ni_Total_µg/L", LInt 10281);
    ("Pb_Total_µg/L", LInt 10266); ("Cr_Total_µg/L", LInt 10285);
    ("As_Total_µg/L", LInt 10293); ("Hg_Total_ng/L", LInt 10921);
    ("Fe_Filt_µg/L", LInt 11122); ("Mn_Filt_µg/L", LInt 11123);
    ("Cd_Filt_µg/L", LInt 11124); ("Zn_Filt_µg/L", LInt 11125);
    ("Cu_Filt_µg/L", LInt 11126); ("Ni_Filt_µg/L", LInt 11127);
    ("Pb_Filt_µg/L", LInt 11128); ("Cr_Filt_µg/L", LInt 11129);
    ("As_Filt_µg/L", LInt 11130); ("Hg_Filt_ng/L", LInt 11131);
    ("COLOUR_mgPt/L", LInt 10278); ("TURB_FTU", LInt 10284);
    ("TEMP_C", LInt 10272); ("RUNOFF_m3/s", LInt 10288) ].

Fixpoint dict_get {V} (d : list (string * V)) (k : string) : option V :=
  match d with
  | [] => None
  | (k', v) :: d' => if String.eqb k' k then Some v else dict_get d' k
  end.

(** [rename] with a dict: a label that is a key of the dict is replaced,
    any other label is kept. *)
Definition rename_label (d : list (string * Label)) (l : Label) : Label :=
  match l with
  | LStr s => match dict_get d s with Some l' => l' | None => l end
  | LInt _ => l
  end.

Definition map_method_ids {I} (df : Wide I) : Wide I :=
  mkWide (map (rename_label meth_map) (w_params df)) (w_rows df).

(** ** map_station_ids *)

(** The reference table [resa2.stations], as the query reads it: pairs
    (station_code, station_id), the key of the table and its code, neither
    of them null. *)
Definition Stations : Type := list (string * Z).

Definition code_matches (c : option string) (st : string * Z) : bool :=
  match c with
  | Some s => String.eqb s st.1
  | None => false
  end.

(** [pd.merge(df, stn_df, how="left", on="code")] for one row of the left
    frame: one row per matching station in the order of the reference
    table, or a single row with a null station_id. *)
Definition merge_station (stn_df : Stations) (r : WideRow (option string))
  : list (WideRow (option Z)) :=
  match filter (fun st => code_matches (w_id r) st = true) stn_df with
  | [] => [mkWideRow None (w_date r) (w_cells r)]
  | ms => map (fun st => mkWideRow (Some st.2) (w_date r) (w_cells r)) ms
  end.

Definition isna {A} (c : option A) : bool :=
  match c with None => true | Some _ => false end.

Definition count_na {A R} (col : R -> option A) (df : list R) : nat :=
  length (filter (fun r => isna (col r) = true) df).

Definition unmatched_msg : string :=
  "Some station codes cannot be matched to IDs.".

Definition map_station_ids (df : Wide (option string)) (stn_df : Stations)
  : Result (Wide (option Z)) :=
  let rows := flat_map (merge_station stn_df) (w_rows df) in
  if (count_na w_id rows =? 0)%nat
  then Ok (mkWide (w_params df) rows)
  else Raise (AssertionError unmatched_msg).

(** ** wide_to_long *)

(** [pd.melt]: the columns one after the other, each over all rows. *)
Definition melt (df : Wide (option Z)) : list (Melted Label) :=
  flat_map
    (fun jl : nat * Label =>
       map (fun r => mkMelted (w_id r) (w_date r) jl.2
                       (nth jl.1 (w_cells r) None))
           (w_rows df))
    (imap (fun j l => (j, l)) (w_params df)).

Definition int_error (s : string) : Exc :=
  ValueError ("invalid literal for int() with base 10: '" ++ s ++ "'")%string.

(** [int(x)] for a column label. *)
Definition int_of_label (l : Label) : Result Z :=
  match l with
  | LInt z => Ok z
  | LStr s =>
      match int_of_string s with
      | Some z => Ok z
      | None => Raise (int_error s)
      end
  end.

Definition astype_int (r : Melted Label) : Result (Melted Z) :=
  try z <- int_of_label (m_method_id r);
  Ok (mkMelted (m_station_id r) (m_date r) z (m_value r)).

Definition wide_to_long (df : Wide (option Z)) : Result (list (Melted Z)) :=
  let df1 := melt df in
  let df2 := filter (fun r => isna (m_value r) = false) df1 in
  mapM astype_int df2.

(** ** extract_lod_flags *)

(** The function [f] applied to every row. *)
Definition lod_flag (c : Cell) : option Flag :=
  if str_in "<" (py_str c) then Some below_LOD
  else if str_in ">" (py_str c) then Some above_LOD
  else None.

Definition float_error (s : string) : Exc :=
  ValueError ("could not convert string to float: '" ++ s ++ "'")%string.

(** [astype(str).str.extract(pattern)] and [astype(float)] for one cell: a
    cell without a match is NaN. *)
Definition extract_value (c : Cell) : Result (option Q) :=
  match re_search number_pattern (py_str c) with
  | None => Ok None
  | Some txt =>
      match float_of_string txt with
      | Some q => Ok (Some q)
      | None => Raise (float_error txt)
      end
  end.

Definition extract_row (r : Melted Z) : Result LongObs :=
  try v <- extract_value (m_value r);
  Ok (mkLongObs (m_station_id r) (m_date r) (Some (m_method_id r)) v
        (lod_flag (m_value r))).

Definition extract_lod_flags (df : list (Melted Z)) : Result (list LongObs) :=
  mapM extract_row df.

(** ** Binary64 numbers

    The numbers of a float64 column: the finite ones, written as the
    rationals they are, the two infinities and NaN.  The sign of a zero is
    not kept. *)

Inductive f64 : Type :=
  | Fin (q : Q)
  | Inf (neg : bool)
  | NaN.

Definition pow2 (e : Z) : Q := Qpower 2 e.

(** The exponent of the binade of a positive rational:
    [pow2 (ilog2 x) <= x < pow2 (ilog2 x + 1)]. *)
Definition ilog2 (x : Q) : Z :=
  let e := Z.log2 (Qnum x) - Z.log2 (Zpos (Qden x)) in
  if Qle_bool (pow2 e) x then e else e - 1.

(** The nearest integer, the even one of two that are equally near. *)
Definition rnd_even (x : Q) : Z :=
  let f := Qfloor x in
  match Qcompare (x - inject_Z f) (1 # 2) with
  | Lt => f
  | Gt => f + 1
  | Eq => if Z.even f then f else f + 1
  end.

(** A positive rational rounded to a mantissa of 53 bits, at an exponent
    of -1074 at least (the subnormal numbers). *)
Definition fl_pos (x : Q) : Q :=
  let e := Z.max (ilog2 x - 52) (-1074) in
  (inject_Z (rnd_even (x / pow2 e)) * pow2 e)%Q.

Definition round_pos (neg : bool) (x : Q) : f64 :=
  let y := fl_pos x in
  if Qle_bool (pow2 1024) y then Inf neg
  else Fin (Qred (if neg then - y else y)).

(** The binary64 number nearest to a rational (round to nearest, ties to
    even): what [float] makes of a decimal literal, and what an operation
    makes of its exact result. *)
Definition round (x : Q) : f64 :=
  match Qcompare x 0 with
  | Eq => Fin 0
  | Gt => round_pos false x
  | Lt => round_pos true (- x)
  end.

Definition fopp (a : f64) : f64 :=
  match a with
  | Fin x => Fin (- x)
  | Inf s => Inf (negb s)
  | NaN => NaN
  end.

Definition fadd (a b : f64) : f64 :=
  match a, b with
  | Fin x, Fin y => round (x + y)
  | Fin _, Inf s => Inf s
  | Inf s, Fin _ => Inf s
  | Inf s, Inf t => if Bool.eqb s t then Inf s else NaN
  | _, _ => NaN
  end.

Definition fsub (a b : f64) : f64 := fadd a (fopp b).

(** [a / count], for the count of a group: a positive integer, converted
    to binary64 for the division. *)
Definition fdiv_count (a : f64) (count : nat) : f64 :=
  match a, round (inject_Z (Z.of_nat count)) with
  | Fin x, Fin c => round (x / c)
  | Inf s, Fin _ => Inf s
  | _, _ => NaN
  end.

(** A number of the column "value", as it is written in a row: an
    infinity is written as a rational that rounds to it. *)
Definition of_f64 (a : f64) : option Q :=
  match a with
  | Fin x => Some x
  | Inf s => Some (if s then - pow2 1024 else pow2 1024)%Q
  | NaN => None
  end.

(** ** remove_duplicates *)

(** The subset of columns that identifies an observation. *)
Definition Key : Type := option Z * option Z * option Z.

Definition key_of (r : LongObs) : Key := (station_id r, date r, method_id r).

(** [drop_duplicates(subset=..., keep="first")], the subset of columns
    being [key]: a row is kept when no earlier row has its key; two missing
    entries count as equal. *)
Fixpoint drop_duplicates_from {R K} `{EqDecision K} (key : R -> K)
  (seen : list K) (df : list R) : list R :=
  match df with
  | [] => []
  | r :: df' =>
      if decide (key r ∈ seen) then drop_duplicates_from key seen df'
      else r :: drop_duplicates_from key (key r :: seen) df'
  end.

Definition drop_duplicates {R K} `{EqDecision K} (key : R -> K)
  (df : list R) : list R :=
  drop_duplicates_from key [] df.

(** [groupby] (with its defaults [sort=True], [dropna=True]): a row with a
    missing key entry belongs to no group, and the groups come in the
    increasing order of their keys. *)
Definition GroupKey : Type := Z * Z * Z.

Definition group_key (r : LongObs) : option GroupKey :=
  match station_id r, date r, method_id r with
  | Some s, Some d, Some m => Some (s, d, m)
  | _, _, _ => None
  end.

Definition key_leb (a b : GroupKey) : bool :=
  let '(s1, d1, m1) := a in
  let '(s2, d2, m2) := b in
  (s1 <? s2) || ((s1 =? s2) && ((d1 <? d2) || ((d1 =? d2) && (m1 <=? m2)))).

Definition key_le (a b : GroupKey) : Prop := key_leb a b = true.

#[global] Instance key_le_dec : RelDecision key_le.
Proof. intros a b. unfold key_le. apply _. Defined.

Definition group_keys (df : list LongObs) : list GroupKey :=
  merge_sort key_le (remove_dups (omap group_key df)).

Definition group (df : list LongObs) (k : GroupKey) : list LongObs :=
  filter (fun r => group_key r = Some k) df.

(** The aggregation "mean", as pandas computes it for a float64 column
    (group_mean): the values of the group that are not missing are added
    up in their order by Kahan's compensated summation,

      y = val - compensation;  t = sumx + y;
      compensation = t - sumx - y  (0 if this is NaN);  sumx = t

    and the sum is divided by their count.  A group without any value has
    the mean NaN. *)
Definition kahan_step (st : f64 * f64) (val : f64) : f64 * f64 :=
  let '(sumx, compensation) := st in
  let y := fsub val compensation in
  let t := fadd sumx y in
  let c := fsub (fsub t sumx) y in
  (t, match c with NaN => Fin 0 | _ => c end).

Definition kahan_sum (vals : list f64) : f64 :=
  (fold_left kahan_step vals (Fin 0, Fin 0)).1.

Definition mean (col : list (option Q)) : option Q :=
  match omap id col with
  | [] => None
  | vs => of_f64 (fdiv_count (kahan_sum (map round vs)) (length vs))
  end.

(** The aggregation "first": the first entry that is not missing. *)
Definition first {A} (col : list (option A)) : option A :=
  head (omap id col).

Definition aggregate (df : list LongObs) (k : GroupKey) : LongObs :=
  let g := group df k in
  let '(s, d, m) := k in
  mkLongObs (Some s) (Some d) (Some m) (mean (map value g))
    (first (map flag1 g)).

Definition how_msg : string := "'how' must be either 'mean' or 'drop'.".

Definition remove_duplicates (df : list LongObs) (how : string)
  : Result (list LongObs) :=
  if negb (String.eqb how "mean" || String.eqb how "drop")
  then Raise (AssertionError how_msg)
  else if String.eqb how "mean"
       then Ok (map (aggregate df) (group_keys df))
       else Ok (drop_duplicates key_of df).

(** ** The stages before the database

    The frame read from the template, without its "Name" column, goes
    through [map_method_ids], [map_station_ids] and [wide_to_long] ... *)
Definition reshape (df : Wide (option string)) (stn_df : Stations)
  : Result (list (Melted Z)) :=
  let df := map_method_ids df in
  try df <- map_station_ids df stn_df;
  wide_to_long df.

(** ... and then through [extract_lod_flags] and [remove_duplicates]. *)
Definition transform (df : Wide (option string)) (stn_df : Stations)
  (dups : string) : Result (list LongObs) :=
  try df <- reshape df stn_df;
  try df <- extract_lod_flags df;
  remove_duplicates df dups.

(** ** The database *)

(** A row of [resa2.water_samples], with the columns the code names
    when it reads the table (water_sample_id, station_id, sample_date) and
    the two depths. *)
Record SampleRow : Type := mkSampleRow {
  ws_water_sample_id : option Z;
  ws_station_id : option Z;
  ws_sample_date : option Z;
  ws_depth1 : Z;
  ws_depth2 : Z
}.

(** A row of [resa2.water_chemistry_values2]. *)
Record ChemRow : Type := mkChemRow {
  c_method_id : option Z;
  c_value : option Q;
  c_flag1 : option Flag;
  c_water_sample_id : option Z
}.

Record DB : Type := mkDB {
  stations : Stations;
  water_samples : list SampleRow;
  water_chemistry_values2 : list ChemRow
}.

(** An observation with the sample identifier joined onto it. *)
Record SampledObs : Type := mkSampledObs {
  s_obs : LongObs;
  water_sample_id : option Z
}.

Definition sample_key (r : LongObs) : option Z * option Z :=
  (station_id r, date r).

Section Persistence.

(** The database's side of the INSERT into [water_samples].  The frame
    that [to_sql] sends has the columns station_id, date, depth1 and
    depth2: the INSERT names a column "date", which the query below does
    not read (it reads "sample_date"), and it leaves water_sample_id and
    sample_date to the database.  Whether the table has a column "date",
    and what the database stores in the two columns that are left to it,
    is a matter of its schema, outside this code.
    [insert_sample tbl (station_id, date)] is the error the database
    raises for such a row, or the water_sample_id and the sample_date it
    stores with the row, [tbl] being the rows the table holds then. *)
Variable insert_sample :
  list SampleRow -> option Z * option Z -> Result (option Z * option Z).

(** [ws_df.to_sql(name="water_samples", if_exists="append")]: the rows of
    the frame, with depth1 = depth2 = 0, go to the table one after the
    other in one transaction, so that an error leaves the table as it was;
    a frame without rows sends nothing. *)
Fixpoint to_sql_samples (ws_df : list (option Z * option Z))
  (tbl : list SampleRow) : Result (list SampleRow) :=
  match ws_df with
  | [] => Ok tbl
  | p :: ws_df' =>
      try x <- insert_sample tbl p;
      to_sql_samples ws_df' (tbl ++ [mkSampleRow x.1 p.1 x.2 0 0])
  end.

(** The query on [water_samples].  Its text is made from the station ids
    of the frame: "WHERE station_id = <id>" for a single id, and
    "WHERE station_id IN <tuple of the ids>" otherwise.  For a frame
    without rows the text ends in "IN ()", and a missing station_id is
    written "nan": the database refuses both.  Otherwise the query gives
    the rows of these stations (a null station_id of the table satisfies
    no comparison). *)
Definition read_sql_samples (stn_ids : list (option Z))
  (tbl : list SampleRow) : Result (list SampleRow) :=
  if decide (stn_ids = [] \/ None ∈ stn_ids) then Raise DatabaseError
  else Ok (filter
             (fun w => is_Some (ws_station_id w)
                       ∧ ws_station_id w ∈ stn_ids)
             tbl).

(** [pd.merge(df, ws_df, how="left", on=["station_id", "date"])] for one
    row of [df]. *)
Definition merge_sample (ws_df : list SampleRow) (r : LongObs)
  : list SampledObs :=
  match filter (fun w => (ws_station_id w, ws_sample_date w) = sample_key r)
          ws_df with
  | [] => [mkSampledObs r None]
  | ms => map (fun w => mkSampledObs r (ws_water_sample_id w)) ms
  end.

Definition sample_cols (r : SampledObs)
  : option Z * option Z * option Z :=
  (water_sample_id r, station_id (s_obs r), date (s_obs r)).

Definition upload_samples (df : list LongObs) (db : DB) (dry_run : bool)
  : DB * Result (list (option Z * option Z * option Z) * list SampledObs) :=
  let ws_df := drop_duplicates id (map sample_key df) in
  match
    (if dry_run then Ok db
     else try tbl <- to_sql_samples ws_df (water_samples db);
          Ok (mkDB (stations db) tbl (water_chemistry_values2 db)))
  with
  | Raise e => (db, Raise e)
  | Ok db1 =>
      let stn_ids := drop_duplicates id (map fst ws_df) in
      match read_sql_samples stn_ids (water_samples db1) with
      | Raise e => (db1, Raise e)
      | Ok ws_db =>
          let df1 := flat_map (merge_sample ws_db) df in
          let ws_out := drop_duplicates id (map sample_cols df1) in
          if negb dry_run && negb (count_na water_sample_id df1 =? 0)%nat
          then (db1, Raise (AssertionError ""))
          else (db1, Ok (ws_out, df1))
      end
  end.

(** [del df["station_id"], df["date"]] *)
Definition chem_row (r : SampledObs) : ChemRow :=
  mkChemRow (method_id (s_obs r)) (value (s_obs r)) (flag1 (s_obs r))
    (water_sample_id r).

(** The column types handed to [to_sql] change nothing in the rows and
    are left out. *)
Definition upload_chemistry (df : list SampledObs) (db : DB)
  (dry_run : bool) : DB * Result (list ChemRow) :=
  if negb dry_run &&
     negb ((count_na (fun r => method_id (s_obs r)) df =? 0)%nat
           && (count_na water_sample_id df =? 0)%nat
           && (count_na (fun r => value (s_obs r)) df =? 0)%nat)
  then (db, Raise (AssertionError ""))
  else
    let rows := map chem_row df in
    let db1 :=
      if dry_run then db
      else mkDB (stations db) (water_samples db)
             (water_chemistry_values2 db ++ rows) in
    (db1, Ok rows).

(** ** process_template *)
Definition process_template (df : Wide (option string)) (db : DB)
  (dups : string) (dry_run : bool)
  : DB * Result (list (option Z * option Z * option Z) * list ChemRow) :=
  match transform df (stations db) dups with
  | Raise e => (db, Raise e)
  | Ok df =>
      match upload_samples df db dry_run with
      | (db1, Raise e) => (db1, Raise e)
      | (db1, Ok (ws_df, df)) =>
          match upload_chemistry df db1 dry_run with
          | (db2, Raise e) => (db2, Raise e)
          | (db2, Ok df) => (db2, Ok (ws_df, df))
          end
      end
  end.

End Persistence.

(** ** Vocabulary of the properties *)

(** [needle] occurs in [txt]. *)
Definition contains (txt needle : string) : Prop :=
  exists pre post, txt = (pre ++ needle ++ post)%string.

(** A text of decimal digits only. *)
Fixpoint all_digits (s : string) : bool :=
  match s with
  | EmptyString => true
  | String c s' => is_digit c && all_digits s'
  end.

(** What the greedy loop tries, in its order: the continuation after all
    the digits first, then after one digit less, and so on. *)
Fixpoint try_suffixes {A} (k : string -> option A) (s : string) : option A :=
  match s with
  | EmptyString => k s
  | String c s' =>
      match try_suffixes k s' with
      | Some x => Some x
      | None => k s
      end
  end.

(** The three identifying columns of a row of a group. *)
Definition lift_key (k : GroupKey) : Key :=
  let '(s, d, m) := k in (Some s, Some d, Some m).

(** The keys of a table of long observations: a station, a date and a
    method, none of them missing. *)
Definition long_observations (df : list LongObs) : Prop :=
  Forall (fun r => is_Some (station_id r) /\ is_Some (date r)
                   /\ is_Some (method_id r)) df.

(** A station code has a match when the reference table has a row with
    this code. *)
Definition has_match (stn_df : Stations) (c : option string) : Prop :=
  exists code id, c = Some code /\ (code, id) ∈ stn_df.

(** The text an exception carries (that of a database error is left
    out). *)
Definition exc_msg (e : Exc) : string :=
  match e with
  | AssertionError msg => msg
  | ValueError msg => msg
  | DatabaseError => ""
  end.

(** The station ids that [upload_samples] puts into its query. *)
Definition station_ids (df : list LongObs) : list (option Z) :=
  drop_duplicates id (map fst (drop_duplicates id (map sample_key df))).

(** The rows of water_samples with one of these station ids. *)
Definition samples_of (stn_ids : list (option Z)) (tbl : list SampleRow)
  : list SampleRow :=
  filter (fun w => is_Some (ws_station_id w) ∧ ws_station_id w ∈ stn_ids)
    tbl.

(** The observations joined with the rows of their stations. *)
Definition joined (df : list LongObs) (tbl : list SampleRow)
  : list SampledObs :=
  flat_map (merge_sample (samples_of (station_ids df) tbl)) df.

(** The frame that [upload_samples] sends to water_samples. *)
Definition new_samples (df : list LongObs) : list (option Z * option Z) :=
  drop_duplicates id (map sample_key df).

(** A row that [upload_chemistry] accepts outside a dry run. *)
Definition complete (r : SampledObs) : Prop :=
  is_Some (method_id (s_obs r)) /\ is_Some (water_sample_id r)
  /\ is_Some (value (s_obs r)).

(** ** Sample data *)

Definition cell_row (txt : string) : Melted Z :=
  mkMelted (Some 1) (Some 18262) 10268 (Some txt).

Definition obs_pH (v : Q) (f : option Flag) : LongObs :=
  mkLongObs (Some 1) (Some 18262) (Some 10268) (Some v) f.

Definition obs_Ca (v : Q) (f : option Flag) : LongObs :=
  mkLongObs (Some 1) (Some 18262) (Some 10251) (Some v) f.

Definition template_1 (code : string) : Wide (option string) :=
  mkWide [LStr "pH"] [mkWideRow (Some code) (Some 18262) [Some "7.1"]].

Definition template_2 (header : string) (c1 c2 : Cell)
  : Wide (option string) :=
  mkWide [LStr "pH"; LStr header]
    [mkWideRow (Some "NO01") (Some 18262) [Some "7.1"; c1];
     mkWideRow (Some "NO01") (Some 18263) [Some "7.3"; c2]].

Definition sampled (mid wsid : option Z) (v : option Q) : SampledObs :=
  mkSampledObs (mkLongObs (Some 1) (Some 18262) mid v None) wsid.

Definition samples_1 : list SampleRow :=
  [mkSampleRow (Some 7) (Some 1) (Some 18262) 0 0].

Definition db_1 : DB := mkDB [("NO01", 1)] samples_1 [].

(** A database that numbers the samples in the order of their arrival ... *)
Definition serial_id (tbl : list SampleRow) : option Z :=
  Some (Z.of_nat (length tbl) + 1).

(** ... and whose table has a column "date" and keeps sample_date equal
    to it. *)
Definition serial_insert (tbl : list SampleRow) (p : option Z * option Z)
  : Result (option Z * option Z) :=
  Ok (serial_id tbl, p.2).

(** A table with the columns of [SampleRow] and no other: the INSERT,
    which names a column "date", is refused. *)
Definition no_date_column (tbl : list SampleRow) (p : option Z * option Z)
  : Result (option Z * option Z) :=
  Raise DatabaseError.

(** A table with a column "date" too, on a database that fills in nothing
    of its own: the rows arrive without water_sample_id and sample_date. *)
Definition plain_insert (tbl : list SampleRow) (p : option Z * option Z)
  : Result (option Z * option Z) :=
  Ok (None, None).

(** ** Vocabulary of the further properties *)

(** The leading digits of a text, and what follows them. *)
Fixpoint take_digits (s : string) : string :=
  match s with
  | String c s' => if is_digit c then String c (take_digits s') else ""
  | EmptyString => ""
  end.

Fixpoint skip_digits (s : string) : string :=
  match s with
  | String c s' => if is_digit c then skip_digits s' else s
  | EmptyString => ""
  end.

Fixpoint has_digit (s : string) : bool :=
  match s with
  | String c s' => is_digit c || has_digit s'
  | EmptyString => false
  end.

(** The number pattern at the head of a text, read off its two
    alternatives: what is left of the text after the match. *)
Definition match_digits (s : string) : option string :=
  match s with
  | String c s' => if is_digit c then Some (skip_digits s') else None
  | EmptyString => None
  end.

Definition match_dot_digits (s : string) : option string :=
  match s with
  | String c s' => if chr_in "." c then match_digits s' else None
  | EmptyString => None
  end.

Definition match_fraction (s : string) : option string :=
  match_dot_digits (skip_digits s).

Definition match_signed_fraction (s : string) : option string :=
  match
    match s with
    | String c s' => if chr_in "-+" c then match_fraction s' else None
    | EmptyString => None
    end
  with
  | Some rest => Some rest
  | None => match_fraction s
  end.

Definition match_number (s : string) : option string :=
  match match_signed_fraction s with
  | Some rest => Some rest
  | None => match_digits s
  end.

(** [float_of_string] after its sign. *)
Definition float_body (neg : bool) (s1 : string) : option Q :=
  let '(ip, ni, s2) := read_digits 0 0 s1 in
  match s2 with
  | EmptyString =>
      if (0 <? ni)%nat then Some (Qred (signed neg (inject_Z ip))) else None
  | String "." s3 =>
      let '(fp, nf, s4) := read_digits 0 0 s3 in
      match s4 with
      | EmptyString =>
          if (0 <? ni + nf)%nat
          then Some (Qred (signed neg
                 (Qmake (ip * 10 ^ Z.of_nat nf + fp)
                        (Z.to_pos (10 ^ Z.of_nat nf)))))
          else None
      | _ => None
      end
  | _ => None
  end.

#[global] Instance Label_eq_dec : EqDecision Label.
Proof. solve_decision. Defined.

(** Two values of a column are the same binary64 number, or are both
    missing. *)
Definition same_value (a b : option Q) : Prop :=
  match a, b with
  | Some x, Some y => round x = round y
  | None, None => True
  | _, _ => False
  end.

(** [x] lies in the binade of exponent [e]. *)
Definition binade (x : Q) (e : Z) : Prop :=
  (pow2 e <= x /\ x < pow2 (e + 1))%Q.

(** The numbers that [fl_pos] gives: a mantissa of at most 53 bits at an
    exponent of -1074 or more, normalised unless the exponent is -1074. *)
Definition representable (m e : Z) : Prop :=
  (0 <= m <= 2 ^ 53) /\ (-1074 <= e) /\ ((2 ^ 52 <= m) \/ e = -1074).

(** A binary64 number: a finite one is its own rounding. *)
Definition is_f64 (a : f64) : Prop :=
  match a with
  | Fin x => round x = Fin x
  | Inf _ => True
  | NaN => False
  end.

(** An ASCII text. *)
Fixpoint ascii_text (s : string) : bool :=
  match s with
  | String c s' => (Ascii.nat_of_ascii c <? 128)%nat && ascii_text s'
  | EmptyString => true
  end.

(** * Properties *)

(** A dry run of the whole of [process_template]: one sheet row of a
    sample the database holds, and one of a sample it does not hold. *)
Example process_template_dry_run :
  process_template serial_insert (template_2 "Ca_mg/L" (Some "<3") None)
    db_1 "drop" true
  = (db_1,
     Ok ([(Some 7, Some 1, Some 18262); (None, Some 1, Some 18263)],
         [mkChemRow (Some 10268) (Some (71 # 10)) None (Some 7);
          mkChemRow (Some 10268) (Some (73 # 10)) None None;
          mkChemRow (Some 10251) (Some (3 # 1)) (Some below_LOD) (Some 7)])).
Proof. reflexivity. Qed.

(** A sheet of one row outside a dry run, on two tables.  A table without a
    column "date" refuses the INSERT: nothing is written.  A table with
    such a column, on a database that fills in nothing of its own, takes
    the rows, which the join on sample_date then does not find: the
    assertion of [upload_samples] fails, and the rows stay. *)
Example process_template_refused :
  process_template no_date_column (template_1 "NO01")
    (mkDB [("NO01", 1)] [] []) "drop" false
  = (mkDB [("NO01", 1)] [] [], Raise DatabaseError).
Proof. reflexivity. Qed.

Example process_template_sample_date_unset :
  process_template plain_insert (template_1 "NO01")
    (mkDB [("NO01", 1)] [] []) "drop" false
  = (mkDB [("NO01", 1)] [mkSampleRow None (Some 1) None 0 0] [],
     Raise (AssertionError "")).
Proof. reflexivity. Qed.

(** ** Text *)

Lemma prefix_spec (n h : string) :
  String.prefix n h = true <-> exists post, h = (n ++ post)%string.
Proof.
  revert h. induction n as [|c n IH]; intros h.
  - destruct h; simpl; (split; [intros _; eauto | reflexivity]).
  - destruct h as [|d h]; simpl.
    + split; [discriminate | intros [post H]; discriminate].
    + destruct (Ascii.ascii_dec c d) as [->|Hne].
      * rewrite IH. split; intros [post H]; exists post.
        -- now rewrite H.
        -- now inversion H.
      * split; [discriminate | intros [post H]; inversion H; congruence].
Qed.

Lemma str_in_unfold (n h : string) :
  str_in n h =
  if String.prefix n h then true
  else match h with
       | EmptyString => false
       | String _ h' => str_in n h'
       end.
Proof. destruct h; reflexivity. Qed.

Lemma str_in_spec (n h : string) :
  str_in n h = true <-> exists pre post, h = (pre ++ n ++ post)%string.
Proof.
  induction h as [|d h IH]; rewrite str_in_unfold.
  - destruct (String.prefix n "") eqn:E.
    + apply prefix_spec in E as [post E]. split; [|reflexivity].
      intros _. exists "", post. exact E.
    + split; [discriminate|]. intros [pre [post H]].
      destruct pre; [|discriminate]. simpl in H.
      assert (String.prefix n "" = true) by (apply prefix_spec; eauto).
      congruence.
  - destruct (String.prefix n (String d h)) eqn:E.
    + apply prefix_spec in E as [post E]. split; [|reflexivity].
      intros _. exists "", post. exact E.
    + rewrite IH. split.
      * intros [pre [post H]]. exists (String d pre), post. now rewrite H.
      * intros [pre [post H]]. destruct pre as [|c pre].
        -- simpl in H.
           assert (String.prefix n (String d h) = true)
             by (apply prefix_spec; eauto).
           congruence.
        -- inversion H. eauto.
Qed.

(** ** extract_lod_flags *)

(** C3: for every value cell, read as text, the flag is "<" (below LOD)
    when the text contains "<", else ">" (above LOD) when it contains ">",
    else missing; and the cells "<0.5", ">10", "5.2" give (below LOD, 0.5),
    (above LOD, 10.0), (no flag, 5.2). *)
Theorem lod_flag_spec (c : Cell) :
  (contains (py_str c) "<" -> lod_flag c = Some below_LOD) /\
  (~ contains (py_str c) "<" -> contains (py_str c) ">" ->
     lod_flag c = Some above_LOD) /\
  (~ contains (py_str c) "<" -> ~ contains (py_str c) ">" ->
     lod_flag c = None) /\
  extract_lod_flags [cell_row "<0.5"; cell_row ">10"; cell_row "5.2"]
  = Ok [obs_pH (1 # 2) (Some below_LOD);
        obs_pH (10 # 1) (Some above_LOD);
        obs_pH (26 # 5) None].
Proof.
  unfold contains, lod_flag.
  repeat split.
  - intros H. apply str_in_spec in H. now rewrite H.
  - intros H1 H2. rewrite <- str_in_spec in H1, H2.
    apply not_true_is_false in H1. now rewrite H1, H2.
  - intros H1 H2. rewrite <- str_in_spec in H1, H2.
    apply not_true_is_false in H1, H2. now rewrite H1, H2.
Qed.

Lemma lod_flag_spec_witness :
  lod_flag (Some "<0.5") = Some below_LOD /\
  lod_flag (Some ">10") = Some above_LOD /\
  lod_flag (Some "5.2") = None.
Proof.
  split; [|split].
  - apply (lod_flag_spec (Some "<0.5")). exists "", "0.5". reflexivity.
  - apply (lod_flag_spec (Some ">10")).
    + intros H. apply str_in_spec in H. vm_compute in H. discriminate.
    + exists "", "10". reflexivity.
  - apply (lod_flag_spec (Some "5.2")).
    + intros H. apply str_in_spec in H. vm_compute in H. discriminate.
    + intros H. apply str_in_spec in H. vm_compute in H. discriminate.
Defined.

(** *** The search on a signed number without a fraction *)

Lemma digit_not_sign_or_dot (c : ascii) :
  is_digit c = true -> chr_in "-+" c = false /\ chr_in "." c = false.
Proof.
  destruct c as [[] [] [] [] [] [] [] []]; vm_compute; intros H;
    (discriminate H || (split; reflexivity)).
Qed.

Lemma star_digits {A} (k : string -> option A) (ds : string) :
  all_digits ds = true ->
  rmatch (Star (Chr is_digit)) ds k = try_suffixes k ds.
Proof.
  simpl. induction ds as [|c ds IH]; intros Hd; [reflexivity|].
  simpl in Hd. apply andb_prop in Hd as [Hc Hd].
  simpl. rewrite Hc.
  replace (_ <? _)%nat with true
    by (symmetry; apply Nat.ltb_lt; lia).
  now rewrite IH.
Qed.

Lemma try_suffixes_None {A} (k : string -> option A) (ds : string) :
  all_digits ds = true ->
  (forall s, all_digits s = true -> k s = None) ->
  try_suffixes k ds = None.
Proof.
  intros Hd Hk. induction ds as [|c ds IH]; simpl; [now apply Hk|].
  pose proof Hd as Hd'. simpl in Hd'. apply andb_prop in Hd' as [_ Hd'].
  rewrite (IH Hd'). now apply Hk.
Qed.

Lemma try_suffixes_Some (ds : string) : try_suffixes Some ds = Some "".
Proof. induction ds as [|c ds IH]; simpl; [reflexivity | now rewrite IH]. Qed.

Lemma dot_fails_on_digits (s : string) :
  all_digits s = true ->
  rmatch (Seq (Chr (chr_in ".")) (Plus (Chr is_digit))) s Some = None.
Proof.
  destruct s as [|c s]; [reflexivity|]. simpl. intros H.
  apply andb_prop in H as [Hc _].
  now rewrite (proj2 (digit_not_sign_or_dot c Hc)).
Qed.

Lemma fraction_fails_on_digits (ds : string) :
  all_digits ds = true ->
  rmatch (Seq (Star (Chr is_digit))
            (Seq (Chr (chr_in ".")) (Plus (Chr is_digit)))) ds Some = None.
Proof.
  intros Hd.
  change (rmatch (Star (Chr is_digit)) ds
            (fun s' => rmatch (Seq (Chr (chr_in ".")) (Plus (Chr is_digit)))
                         s' Some) = None).
  rewrite star_digits by exact Hd.
  apply try_suffixes_None; [exact Hd | apply dot_fails_on_digits].
Qed.

Lemma substring_all (s : string) :
  String.substring 0 (String.length s) s = s.
Proof. induction s as [|c s IH]; simpl; [reflexivity | now rewrite IH]. Qed.

Lemma re_search_digits (ds : string) :
  ds <> "" -> all_digits ds = true ->
  re_search number_pattern ds = Some ds.
Proof.
  intros Hne Hd. destruct ds as [|c ds]; [contradiction|].
  pose proof Hd as Hd'. simpl in Hd'. apply andb_prop in Hd' as [Hc Hds].
  pose proof (fraction_fails_on_digits _ Hd) as Hfrac.
  assert (Hm : rmatch number_pattern (String c ds) Some = Some "").
  { change (match
               match rmatch (Chr (chr_in "-+")) (String c ds)
                       (fun s' => rmatch (Seq (Star (Chr is_digit))
                                    (Seq (Chr (chr_in "."))
                                       (Plus (Chr is_digit)))) s' Some) with
               | Some x => Some x
               | None => rmatch (Seq (Star (Chr is_digit))
                           (Seq (Chr (chr_in ".")) (Plus (Chr is_digit))))
                           (String c ds) Some
               end with
             | Some x => Some x
             | None => rmatch (Plus (Chr is_digit)) (String c ds) Some
             end = Some "").
    rewrite Hfrac.
    change (rmatch (Chr (chr_in "-+")) (String c ds) _)
      with (if chr_in "-+" c
            then rmatch (Seq (Star (Chr is_digit))
                   (Seq (Chr (chr_in ".")) (Plus (Chr is_digit)))) ds Some
            else None).
    rewrite (proj1 (digit_not_sign_or_dot c Hc)).
    change (rmatch (Plus (Chr is_digit)) (String c ds) Some)
      with (if is_digit c then rmatch (Star (Chr is_digit)) ds Some
            else None).
    rewrite Hc, star_digits by exact Hds. apply try_suffixes_Some. }
  unfold re_search. rewrite Hm.
  change (String.length "") with O. rewrite Nat.sub_0_r.
  now rewrite substring_all.
Qed.

Lemma re_search_signed_digits (sign : ascii) (ds : string) :
  chr_in "-+" sign = true -> ds <> "" -> all_digits ds = true ->
  re_search number_pattern (String sign ds) = Some ds.
Proof.
  intros Hs Hne Hd.
  assert (Hnd : is_digit sign = false).
  { destruct (is_digit sign) eqn:E; [|reflexivity].
    apply digit_not_sign_or_dot in E as [E _]. congruence. }
  assert (Hdot : chr_in "." sign = false).
  { revert Hs. destruct sign as [[] [] [] [] [] [] [] []]; vm_compute;
      intros H; (discriminate H || reflexivity). }
  pose proof (fraction_fails_on_digits _ Hd) as Hfrac.
  assert (Hm : rmatch number_pattern (String sign ds) Some = None).
  { change (match
               match rmatch (Chr (chr_in "-+")) (String sign ds)
                       (fun s' => rmatch (Seq (Star (Chr is_digit))
                                    (Seq (Chr (chr_in "."))
                                       (Plus (Chr is_digit)))) s' Some) with
               | Some x => Some x
               | None => rmatch (Seq (Star (Chr is_digit))
                           (Seq (Chr (chr_in ".")) (Plus (Chr is_digit))))
                           (String sign ds) Some
               end with
             | Some x => Some x
             | None => rmatch (Plus (Chr is_digit)) (String sign ds) Some
             end = None).
    change (rmatch (Chr (chr_in "-+")) (String sign ds) _)
      with (if chr_in "-+" sign
            then rmatch (Seq (Star (Chr is_digit))
                   (Seq (Chr (chr_in ".")) (Plus (Chr is_digit)))) ds Some
            else None).
    rewrite Hs, Hfrac.
    change (rmatch (Plus (Chr is_digit)) (String sign ds) Some)
      with (if is_digit sign then rmatch (Star (Chr is_digit)) ds Some
            else None).
    rewrite Hnd.
    change (rmatch (Seq (Star (Chr is_digit))
              (Seq (Chr (chr_in ".")) (Plus (Chr is_digit))))
              (String sign ds) Some)
      with (star_loop (rmatch (Chr is_digit))
              (fun s' => rmatch (Seq (Chr (chr_in "."))
                           (Plus (Chr is_digit))) s' Some)
              (S (String.length ds)) (String sign ds)).
    simpl. now rewrite Hnd, Hdot. }
  change (re_search number_pattern (String sign ds))
    with (match rmatch number_pattern (String sign ds) Some with
          | Some rest =>
              Some (String.substring 0
                      (String.length (String sign ds) - String.length rest)
                      (String sign ds))
          | None => re_search number_pattern ds
          end).
  rewrite Hm. now apply re_search_digits.
Qed.

(** C4: the pattern carries its sign only in the alternative with a
    fraction.  On a signed number without a fraction the search matches
    the digits alone, by the second alternative, and the value extracted
    is that of the unsigned number: 5, not -5, for "-5".  With a fraction
    ("-5.0") the sign is kept. *)
Theorem extract_value_loses_sign :
  (forall ds, ds <> "" -> all_digits ds = true ->
     re_search number_pattern (String "-" ds) = Some ds /\
     extract_value (Some (String "-" ds)) = extract_value (Some ds)) /\
  extract_value (Some "-5") = Ok (Some (inject_Z 5)) /\
  extract_value (Some "-5") <> Ok (Some (inject_Z (-5))) /\
  extract_value (Some "-5.0") = Ok (Some (inject_Z (-5))).
Proof.
  split; [|repeat split; vm_compute; discriminate].
  intros ds Hne Hd. split.
  - now apply re_search_signed_digits.
  - unfold extract_value, py_str.
    rewrite re_search_signed_digits by (reflexivity || assumption).
    now rewrite re_search_digits.
Qed.

Lemma extract_value_loses_sign_witness :
  re_search number_pattern "-120" = Some "120" /\
  extract_value (Some "-120") = extract_value (Some "120").
Proof.
  apply (proj1 extract_value_loses_sign "120");
    [discriminate | reflexivity].
Defined.

(** ** remove_duplicates *)

Lemma map_fmap {A B} (f : A -> B) (l : list A) : map f l = f <$> l.
Proof. reflexivity. Qed.

Section DropDuplicates.
Context {R K : Type} `{EqDecision K} (key : R -> K).

Lemma drop_duplicates_from_keys (seen : list K) (df : list R) (k : K) :
  k ∈ map key (drop_duplicates_from key seen df)
  <-> k ∈ map key df /\ k ∉ seen.
Proof.
  revert seen. induction df as [|r df IH]; intros seen; simpl.
  - split; [intros H; inversion H | intros [H _]; inversion H].
  - destruct (decide (key r ∈ seen)) as [Hin|Hnin]; simpl.
    + rewrite IH, elem_of_cons. split; [tauto|].
      intros [[->|H] Hk]; tauto.
    + rewrite !elem_of_cons, IH, elem_of_cons.
      destruct (decide (k = key r)) as [->|Hne]; tauto.
Qed.

Lemma drop_duplicates_from_NoDup (seen : list K) (df : list R) :
  NoDup (map key (drop_duplicates_from key seen df)).
Proof.
  revert seen. induction df as [|r df IH]; intros seen; simpl.
  - constructor.
  - destruct (decide (key r ∈ seen)); simpl; [apply IH|].
    constructor; [|apply IH].
    rewrite drop_duplicates_from_keys, elem_of_cons. tauto.
Qed.

Lemma drop_duplicates_from_sublist (seen : list K) (df : list R) (r : R) :
  r ∈ drop_duplicates_from key seen df -> r ∈ df.
Proof.
  revert seen. induction df as [|r' df IH]; intros seen; simpl; [easy|].
  destruct (decide (key r' ∈ seen)); rewrite ?elem_of_cons; eauto.
  intros [->|H]; eauto.
Qed.

Lemma drop_duplicates_from_id (seen : list K) (df : list R) :
  NoDup (map key df) -> (forall k, k ∈ map key df -> k ∉ seen) ->
  drop_duplicates_from key seen df = df.
Proof.
  revert seen. induction df as [|r df IH]; intros seen Hnd Hs; simpl.
  - reflexivity.
  - simpl in Hnd. apply NoDup_cons in Hnd as [Hr Hnd].
    destruct (decide (key r ∈ seen)) as [Hin|_].
    + exfalso. apply (Hs (key r)); [left | exact Hin].
    + f_equal. apply IH; [exact Hnd|].
      intros k Hk. rewrite elem_of_cons. intros [->|Hin]; [tauto|].
      apply (Hs k); [right; exact Hk | exact Hin].
Qed.

Lemma drop_duplicates_keys (df : list R) (k : K) :
  k ∈ map key (drop_duplicates key df) <-> k ∈ map key df.
Proof.
  unfold drop_duplicates. rewrite drop_duplicates_from_keys.
  split; [tauto|]. intros H. split; [exact H | apply not_elem_of_nil].
Qed.

Lemma drop_duplicates_NoDup (df : list R) :
  NoDup (map key (drop_duplicates key df)).
Proof. apply drop_duplicates_from_NoDup. Qed.

Lemma drop_duplicates_id (df : list R) :
  NoDup (map key df) -> drop_duplicates key df = df.
Proof.
  intros H. apply drop_duplicates_from_id; [exact H|].
  intros k _. apply not_elem_of_nil.
Qed.
End DropDuplicates.

#[global] Instance lift_key_inj : Inj (=) (=) lift_key.
Proof. intros [[s d] m] [[s' d'] m'] H. simpl in H. congruence. Qed.

Lemma group_key_lift (r : LongObs) (k : GroupKey) :
  group_key r = Some k <-> key_of r = lift_key k.
Proof.
  destruct r as [s d m v f], k as [[s' d'] m'].
  unfold group_key, key_of, lift_key; simpl.
  destruct s, d, m; split; intros H; by simplify_eq.
Qed.

Lemma aggregate_key (df : list LongObs) (k : GroupKey) :
  key_of (aggregate df k) = lift_key k.
Proof. destruct k as [[s d] m]. reflexivity. Qed.

Lemma group_keys_NoDup (df : list LongObs) : NoDup (group_keys df).
Proof.
  unfold group_keys. rewrite merge_sort_Permutation. apply NoDup_remove_dups.
Qed.

Lemma group_keys_elem (df : list LongObs) (k : GroupKey) :
  k ∈ group_keys df <-> exists r, r ∈ df /\ group_key r = Some k.
Proof.
  unfold group_keys.
  rewrite merge_sort_Permutation, elem_of_remove_dups, list_elem_of_omap.
  reflexivity.
Qed.

Lemma group_keys_sorted (df : list LongObs) : Sorted key_le (group_keys df).
Proof.
  apply Sorted_merge_sort. intros [[s1 d1] m1] [[s2 d2] m2].
  unfold key_le, key_leb.
  destruct (Z.ltb_spec s1 s2), (Z.ltb_spec s2 s1), (Z.eqb_spec s1 s2),
    (Z.eqb_spec s2 s1), (Z.ltb_spec d1 d2), (Z.ltb_spec d2 d1),
    (Z.eqb_spec d1 d2), (Z.eqb_spec d2 d1), (Z.leb_spec m1 m2),
    (Z.leb_spec m2 m1); simpl; auto; lia.
Qed.

Lemma mean_keys (df : list LongObs) :
  map key_of (map (aggregate df) (group_keys df))
  = map lift_key (group_keys df).
Proof.
  rewrite map_map. apply map_ext. intros k. apply aggregate_key.
Qed.

Lemma mean_NoDup (df : list LongObs) :
  NoDup (map key_of (map (aggregate df) (group_keys df))).
Proof.
  rewrite mean_keys, map_fmap. apply (NoDup_fmap_2 _), group_keys_NoDup.
Qed.

Lemma mean_key_set (df : list LongObs) (k : Key) :
  k ∈ map key_of (map (aggregate df) (group_keys df))
  <-> exists r, r ∈ df /\ is_Some (group_key r) /\ key_of r = k.
Proof.
  rewrite mean_keys, map_fmap, list_elem_of_fmap. split.
  - intros [gk [-> Hgk]]. apply group_keys_elem in Hgk as [r [Hr Hk]].
    exists r. rewrite Hk. split; [exact Hr|]. split; [eauto|].
    now apply group_key_lift.
  - intros [r [Hr [[gk Hgk] <-]]]. exists gk. split.
    + now apply group_key_lift.
    + apply group_keys_elem. eauto.
Qed.

Lemma long_observation_group_key (r : LongObs) :
  is_Some (station_id r) /\ is_Some (date r) /\ is_Some (method_id r) ->
  is_Some (group_key r).
Proof.
  intros [[s Hs] [[d Hd] [m Hm]]]. unfold group_key.
  rewrite Hs, Hd, Hm. eauto.
Qed.

(** C1: for every table of long observations and for both policies,
    "mean" and "drop", the output of the deduplicator has exactly one row
    for each (station_id, date, method_id) of the input: its keys are
    pairwise distinct and they are the keys of the input. *)
Theorem remove_duplicates_one_row_per_key (df : list LongObs)
  (how : string) :
  how = "mean" \/ how = "drop" ->
  long_observations df ->
  exists out,
    remove_duplicates df how = Ok out /\
    NoDup (map key_of out) /\
    forall k, k ∈ map key_of out <-> k ∈ map key_of df.
Proof.
  intros [->| ->] Hdf.
  - exists (map (aggregate df) (group_keys df)).
    split; [reflexivity|]. split; [apply mean_NoDup|].
    intros k. rewrite mean_key_set, (map_fmap key_of df), list_elem_of_fmap.
    split.
    + intros [r [Hr [_ <-]]]. eauto.
    + intros [r [-> Hr]]. exists r. split; [exact Hr|]. split; [|reflexivity].
      apply long_observation_group_key.
      unfold long_observations in Hdf. rewrite Forall_forall in Hdf. auto.
  - exists (drop_duplicates key_of df).
    split; [reflexivity|]. split; [apply drop_duplicates_NoDup|].
    intros k. apply drop_duplicates_keys.
Qed.

Lemma remove_duplicates_one_row_per_key_witness :
  exists out,
    remove_duplicates
      [obs_pH (71 # 10) None; obs_Ca 3 None; obs_pH (73 # 10) None] "mean"
    = Ok out /\
    NoDup (map key_of out) /\
    forall k, k ∈ map key_of out <->
      k ∈ map key_of
            [obs_pH (71 # 10) None; obs_Ca 3 None; obs_pH (73 # 10) None].
Proof.
  apply remove_duplicates_one_row_per_key.
  - left. reflexivity.
  - repeat constructor; simpl; eauto.
Defined.

(** C5: with the "drop" policy, a table that has one row per
    (station_id, date, method_id) comes back as it is; so the output of
    either policy is left as it is by a second run with "drop". *)
Theorem remove_duplicates_drop_idempotent (df : list LongObs) :
  (NoDup (map key_of df) -> remove_duplicates df "drop" = Ok df) /\
  (forall how out, remove_duplicates df how = Ok out ->
     remove_duplicates out "drop" = Ok out).
Proof.
  assert (Hid : forall t, NoDup (map key_of t) ->
                          remove_duplicates t "drop" = Ok t).
  { intros t Ht. unfold remove_duplicates. simpl.
    now rewrite drop_duplicates_id. }
  split; [apply Hid|].
  intros how out H. apply Hid.
  unfold remove_duplicates in H.
  destruct (negb _); [discriminate|].
  destruct (String.eqb how "mean"); inversion H; subst.
  - apply mean_NoDup.
  - apply drop_duplicates_NoDup.
Qed.

Lemma remove_duplicates_drop_idempotent_witness :
  remove_duplicates [obs_pH (71 # 10) None; obs_Ca 3 None] "drop"
  = Ok [obs_pH (71 # 10) None; obs_Ca 3 None].
Proof.
  apply (remove_duplicates_drop_idempotent
           [obs_pH (71 # 10) None; obs_Ca 3 None]).
  apply (bool_decide_unpack _). vm_compute. exact I.
Defined.

(** ** Binary64 numbers *)

Section Binary64.
Local Open Scope Q_scope.

Lemma pow2_pos (e : Z) : 0 < pow2 e.
Proof. apply Qpower_0_lt. reflexivity. Qed.

Lemma pow2_plus (a b : Z) : pow2 (a + b) == pow2 a * pow2 b.
Proof. apply Qpower_plus. discriminate. Qed.

Lemma pow2_le (a b : Z) : (a <= b)%Z -> pow2 a <= pow2 b.
Proof. intros H. apply Qpower_le_compat_l; [exact H | discriminate]. Qed.

Lemma pow2_lt (a b : Z) : (a < b)%Z -> pow2 a < pow2 b.
Proof. intros H. apply Qpower_lt_compat_l; [exact H | reflexivity]. Qed.

Lemma pow2_Z (n : Z) : (0 <= n)%Z -> pow2 n == inject_Z (2 ^ n).
Proof. intros H. unfold pow2. now rewrite Zpower_Qpower. Qed.

Lemma binade_unique (x : Q) (a b : Z) : binade x a -> binade x b -> a = b.
Proof.
  intros [Ha1 Ha2] [Hb1 Hb2].
  destruct (Z.lt_trichotomy a b) as [H|[H|H]]; [|exact H|]; exfalso.
  - assert (pow2 (a + 1) <= pow2 b) by (apply pow2_le; lia). lra.
  - assert (pow2 (b + 1) <= pow2 a) by (apply pow2_le; lia). lra.
Qed.

Lemma ilog2_spec (x : Q) : 0 < x -> binade x (ilog2 x).
Proof.
  intros Hx. destruct x as [n d].
  assert (Hn : (0 < n)%Z).
  { unfold Qlt in Hx. simpl in Hx. lia. }
  unfold ilog2. cbn [Qnum Qden].
  set (ln := Z.log2 n). set (ld := Z.log2 (Z.pos d)).
  pose proof (Z.log2_spec n Hn) as [Hn1 Hn2].
  pose proof (Z.log2_spec (Z.pos d) eq_refl) as [Hd1 Hd2].
  fold ln in Hn1, Hn2. fold ld in Hd1, Hd2.
  assert (Hln : (0 <= ln)%Z) by apply Z.log2_nonneg.
  assert (Hld : (0 <= ld)%Z) by apply Z.log2_nonneg.
  rewrite Zle_Qle, <- pow2_Z in Hn1, Hd1 by lia.
  rewrite Zlt_Qlt, <- pow2_Z in Hn2, Hd2 by lia.
  assert (Hxd : (n # d) * inject_Z (Z.pos d) == inject_Z n).
  { rewrite Qmake_Qdiv. field. discriminate. }
  assert (Hdpos : 0 < inject_Z (Z.pos d)) by reflexivity.
  pose proof (pow2_pos (ln - ld)) as Hp0.
  pose proof (pow2_pos (ln - ld - 1)) as Hp1.
  pose proof (pow2_pos (ln - ld + 1)) as Hp2.
  pose proof (pow2_pos ld) as Hp3.
  assert (Hup : n # d < pow2 (ln - ld + 1)).
  { assert (E : pow2 (Z.succ ln) == pow2 (ln - ld + 1) * pow2 ld).
    { rewrite <- pow2_plus.
      now replace (ln - ld + 1 + ld)%Z with (Z.succ ln) by lia. }
    apply Qnot_le_lt. intros Hc.
    assert (pow2 (ln - ld + 1) * pow2 ld <= (n # d) * inject_Z (Z.pos d)).
    { apply Qmult_le_compat_nonneg; split; lra. }
    lra. }
  assert (Hlo : pow2 (ln - ld - 1) < n # d).
  { assert (E : pow2 ln == pow2 (ln - ld - 1) * pow2 (Z.succ ld)).
    { rewrite <- pow2_plus.
      now replace (ln - ld - 1 + Z.succ ld)%Z with ln by lia. }
    apply Qnot_le_lt. intros Hc.
    assert ((n # d) * inject_Z (Z.pos d)
            <= pow2 (ln - ld - 1) * inject_Z (Z.pos d)).
    { apply Qmult_le_compat_r; lra. }
    assert (pow2 (ln - ld - 1) * inject_Z (Z.pos d)
            < pow2 (ln - ld - 1) * pow2 (Z.succ ld)).
    { apply Qmult_lt_l; lra. }
    lra. }
  destruct (Qle_bool (pow2 (ln - ld)) (n # d)) eqn:E.
  - apply Qle_bool_iff in E. split; [exact E | exact Hup].
  - assert (Hlt : n # d < pow2 (ln - ld)).
    { apply Qnot_le_lt. intros Hc. apply Qle_bool_iff in Hc. congruence. }
    split; [lra|]. now replace (ln - ld - 1 + 1)%Z with (ln - ld)%Z by lia.
Qed.

Lemma binade_proper (x y : Q) (e : Z) : x == y -> binade x e -> binade y e.
Proof. intros E [H1 H2]. split; lra. Qed.

Lemma ilog2_proper (x y : Q) : 0 < x -> x == y -> ilog2 x = ilog2 y.
Proof.
  intros Hx E. apply (binade_unique y).
  - apply (binade_proper x); [exact E | now apply ilog2_spec].
  - apply ilog2_spec. lra.
Qed.

Lemma binade_scale (x : Q) (e k : Z) :
  binade x e -> binade (x * pow2 k) (e + k).
Proof.
  intros [H1 H2]. pose proof (pow2_pos k) as Hk. split.
  - rewrite pow2_plus. apply Qmult_le_compat_r; lra.
  - replace (e + k + 1)%Z with (e + 1 + k)%Z by lia. rewrite pow2_plus.
    apply Qmult_lt_compat_r; lra.
Qed.

Lemma binade_Z (m : Z) : (0 < m)%Z -> binade (inject_Z m) (Z.log2 m).
Proof.
  intros Hm. pose proof (Z.log2_spec m Hm) as [H1 H2].
  pose proof (Z.log2_nonneg m) as H0.
  rewrite Zle_Qle, <- pow2_Z in H1 by lia.
  rewrite Zlt_Qlt, <- pow2_Z in H2 by lia.
  split; [exact H1|].
  now replace (Z.log2 m + 1)%Z with (Z.succ (Z.log2 m)) by lia.
Qed.

Lemma rnd_even_proper (x y : Q) : x == y -> rnd_even x = rnd_even y.
Proof.
  intros E. unfold rnd_even. rewrite (Qfloor_comp x y E).
  assert (E2 : x - inject_Z (Qfloor y) == y - inject_Z (Qfloor y)) by lra.
  now rewrite (Qcompare_comp _ _ E2 (1 # 2) (1 # 2) (Qeq_refl _)).
Qed.

Lemma rnd_even_Z (z : Z) : rnd_even (inject_Z z) = z.
Proof.
  unfold rnd_even. rewrite Qfloor_Z.
  assert (E : inject_Z z - inject_Z z == 0) by lra.
  now rewrite (Qcompare_comp _ _ E (1 # 2) (1 # 2) (Qeq_refl _)).
Qed.

Lemma rnd_even_ge (x : Q) (a : Z) : inject_Z a <= x -> (a <= rnd_even x)%Z.
Proof.
  intros H. apply Qfloor_resp_le in H. rewrite Qfloor_Z in H.
  unfold rnd_even. destruct (_ ?= _); [destruct (Z.even _)| |]; lia.
Qed.

Lemma rnd_even_le (x : Q) (b : Z) : x <= inject_Z b -> (rnd_even x <= b)%Z.
Proof.
  intros H. pose proof (Qfloor_resp_le _ _ H) as Hf. rewrite Qfloor_Z in Hf.
  pose proof (Qfloor_le x) as Hl.
  unfold rnd_even.
  destruct (Z.eq_dec (Qfloor x) b) as [E|E].
  - assert (Hx : x - inject_Z (Qfloor x) == 0) by (rewrite E in *; lra).
    rewrite (Qcompare_comp _ _ Hx (1 # 2) (1 # 2) (Qeq_refl _)). simpl. lia.
  - destruct (_ ?= _); [destruct (Z.even _)| |]; lia.
Qed.

Lemma fl_pos_representable (x : Q) :
  0 < x ->
  exists m e, representable m e /\ fl_pos x = inject_Z m * pow2 e.
Proof.
  intros Hx. unfold fl_pos.
  set (e := Z.max (ilog2 x - 52) (-1074)).
  exists (rnd_even (x / pow2 e)), e. split; [|reflexivity].
  pose proof (ilog2_spec x Hx) as [H1 H2].
  pose proof (pow2_pos e) as He.
  assert (Hx0 : inject_Z 0 <= x / pow2 e).
  { apply Qle_shift_div_l; [exact He|]. change (inject_Z 0) with 0. lra. }
  assert (Hup : x / pow2 e <= inject_Z (2 ^ 53)).
  { apply Qle_shift_div_r; [exact He|]. rewrite <- pow2_Z, <- pow2_plus by lia.
    assert (pow2 (ilog2 x + 1) <= pow2 (53 + e)) by (apply pow2_le; lia). lra. }
  split; [|split; [lia|]].
  - split; [now apply rnd_even_ge | now apply rnd_even_le].
  - destruct (Z.max_spec (ilog2 x - 52) (-1074)) as [[Hlt Hmax]|[Hle Hmax]];
      fold e in Hmax; [now right | left].
    apply rnd_even_ge. apply Qle_shift_div_l; [exact He|].
    rewrite <- pow2_Z, <- pow2_plus by lia.
    now replace (52 + e)%Z with (ilog2 x) by lia.
Qed.

Lemma fl_pos_fixed (m e : Z) :
  representable m e -> (0 < m)%Z ->
  fl_pos (inject_Z m * pow2 e) == inject_Z m * pow2 e.
Proof.
  intros [[_ Hm] [He Hn]] Hpos.
  assert (Hlog : ilog2 (inject_Z m * pow2 e) = (Z.log2 m + e)%Z).
  { apply (binade_unique (inject_Z m * pow2 e)).
    - apply ilog2_spec. pose proof (pow2_pos e).
      apply Qmult_lt_0_compat; [|assumption].
      change 0 with (inject_Z 0). rewrite <- Zlt_Qlt. lia.
    - apply binade_scale, binade_Z, Hpos. }
  unfold fl_pos. rewrite Hlog.
  pose proof (pow2_pos e) as Hpe.
  destruct (Z.eq_dec m (2 ^ 53)) as [->|Hne].
  - change (Z.log2 (2 ^ 53)) with 53%Z.
    replace (Z.max (53 + e - 52) (-1074)) with (e + 1)%Z by lia.
    pose proof (pow2_pos (e + 1)) as Hpe1.
    assert (E : inject_Z (2 ^ 53) * pow2 e / pow2 (e + 1) == inject_Z (2 ^ 52)).
    { rewrite pow2_plus. change (pow2 1) with 2.
      change (inject_Z (2 ^ 53)) with (inject_Z (2 ^ 52) * 2).
      field. lra. }
    rewrite (rnd_even_proper _ _ E), rnd_even_Z, pow2_plus.
    change (pow2 1) with 2.
    change (inject_Z (2 ^ 53)) with (inject_Z (2 ^ 52) * 2). ring.
  - assert (Hl : (Z.log2 m <= 52)%Z).
    { apply Z.lt_succ_r. apply Z.log2_lt_pow2; lia. }
    assert (Hmax : Z.max (Z.log2 m + e - 52) (-1074) = e).
    { destruct Hn as [Hn| ->].
      - assert (52 <= Z.log2 m)%Z by (apply Z.log2_le_pow2; lia). lia.
      - lia. }
    rewrite Hmax.
    assert (E : inject_Z m * pow2 e / pow2 e == inject_Z m)
      by (field; lra).
    now rewrite (rnd_even_proper _ _ E), rnd_even_Z.
Qed.

Lemma fl_pos_proper (x y : Q) : 0 < x -> x == y -> fl_pos x == fl_pos y.
Proof.
  intros Hx E. unfold fl_pos. rewrite <- (ilog2_proper x y Hx E).
  set (e := Z.max _ _).
  assert (E2 : x / pow2 e == y / pow2 e) by now rewrite E.
  now rewrite (rnd_even_proper _ _ E2).
Qed.

Lemma fl_pos_nonneg (x : Q) : 0 < x -> 0 <= fl_pos x.
Proof.
  intros Hx. destruct (fl_pos_representable x Hx) as [m [e [[[Hm _] _] ->]]].
  pose proof (pow2_pos e). apply Qmult_le_0_compat; [|lra].
  change 0 with (inject_Z 0). rewrite <- Zle_Qle. lia.
Qed.

Lemma fl_pos_idem (x : Q) :
  0 < x -> 0 < fl_pos x -> fl_pos (fl_pos x) == fl_pos x.
Proof.
  intros Hx Hy. destruct (fl_pos_representable x Hx) as [m [e [Hr E]]].
  rewrite E in *. apply fl_pos_fixed; [exact Hr|].
  destruct Hr as [[Hm _] _].
  destruct (Z.eq_dec m 0) as [->|]; [|lia].
  exfalso. change (inject_Z 0) with 0 in Hy. lra.
Qed.

Lemma round_pos_proper (s : bool) (x y : Q) :
  0 < x -> x == y -> round_pos s x = round_pos s y.
Proof.
  intros Hx E. unfold round_pos.
  pose proof (fl_pos_proper x y Hx E) as Ef.
  rewrite (Qleb_comp _ _ (Qeq_refl (pow2 1024)) _ _ Ef).
  destruct (Qle_bool _ _); [reflexivity|]. f_equal.
  apply Qred_complete. destruct s; now rewrite Ef.
Qed.

Lemma round_proper (x y : Q) : x == y -> round x = round y.
Proof.
  intros E. unfold round.
  rewrite (Qcompare_comp _ _ E 0 0 (Qeq_refl 0)).
  destruct (Qcompare_spec y 0) as [H|H|H]; [reflexivity| |].
  - apply round_pos_proper; lra.
  - apply round_pos_proper; lra.
Qed.

Lemma round_0 : round 0 = Fin 0.
Proof. reflexivity. Qed.

Lemma round_pos_idem (s : bool) (x a : Q) :
  0 < x -> round_pos s x = Fin a -> round a = Fin a.
Proof.
  intros Hx. unfold round_pos.
  destruct (Qle_bool (pow2 1024) (fl_pos x)) eqn:Ho; [discriminate|].
  intros H. injection H as <-.
  pose proof (fl_pos_nonneg x Hx) as Hn.
  set (y := fl_pos x) in *.
  destruct (Qeq_dec y 0) as [Hz|Hz].
  - assert (E : (if s then - y else y) == 0) by (destruct s; lra).
    rewrite (Qred_complete _ _ E). reflexivity.
  - assert (Hy : 0 < y) by lra.
    pose proof (fl_pos_idem x Hx Hy) as Hi. fold y in Hi.
    assert (Er : Qred (if s then - y else y) == (if s then - y else y))
      by apply Qred_correct.
    unfold round. destruct s.
    + destruct (Qcompare_spec (Qred (- y)) 0) as [H|H|H];
        [exfalso; lra | | exfalso; lra].
      assert (E : - Qred (- y) == y) by lra.
      rewrite (round_pos_proper true _ y); [|lra|exact E].
      unfold round_pos.
      rewrite (Qleb_comp _ _ (Qeq_refl (pow2 1024)) _ _ Hi). fold y. rewrite Ho.
      f_equal. apply Qred_complete. now rewrite Hi.
    + destruct (Qcompare_spec (Qred y) 0) as [H|H|H];
        [exfalso; lra | exfalso; lra |].
      rewrite (round_pos_proper false _ y); [|lra|exact Er].
      unfold round_pos.
      rewrite (Qleb_comp _ _ (Qeq_refl (pow2 1024)) _ _ Hi). fold y. rewrite Ho.
      f_equal. apply Qred_complete. exact Hi.
Qed.

Lemma round_idem (x a : Q) : round x = Fin a -> round a = Fin a.
Proof.
  unfold round at 1. destruct (Qcompare_spec x 0) as [H|H|H].
  - intros E. injection E as <-. reflexivity.
  - apply round_pos_idem. lra.
  - apply round_pos_idem. exact H.
Qed.

Lemma round_is_f64 (x : Q) : is_f64 (round x).
Proof.
  destruct (round x) as [a|s|] eqn:E; simpl.
  - exact (round_idem x a E).
  - exact I.
  - unfold round, round_pos in E.
    destruct (x ?= 0); [discriminate| |];
      destruct (Qle_bool _ _); discriminate.
Qed.

Lemma fadd_0_l (a : f64) : is_f64 a -> fadd (Fin 0) a = a.
Proof.
  destruct a as [x|s|]; cbn [is_f64 fadd]; [|reflexivity|intros []].
  intros H. rewrite <- H. apply round_proper. ring.
Qed.

Lemma fsub_0_r (a : f64) : is_f64 a -> fsub a (Fin 0) = a.
Proof.
  destruct a as [x|s|]; unfold fsub; cbn [is_f64 fadd fopp];
    [|reflexivity|intros []].
  intros H. rewrite <- H. apply round_proper. ring.
Qed.

Lemma fsub_diag (a : f64) :
  is_f64 a ->
  match fsub a a with Fin _ | Inf _ => fsub a a | NaN => Fin 0 end = Fin 0.
Proof.
  destruct a as [x|s|]; unfold fsub; cbn [is_f64 fadd fopp];
    [|now destruct s|intros []].
  intros _. rewrite (round_proper (x + - x) 0) by ring. reflexivity.
Qed.

Lemma kahan_step_first (a : f64) :
  is_f64 a -> kahan_step (Fin 0, Fin 0) a = (a, Fin 0).
Proof.
  intros H. unfold kahan_step.
  rewrite (fsub_0_r a H), (fadd_0_l a H), (fsub_0_r a H).
  now rewrite (fsub_diag a H).
Qed.

Lemma kahan_step_second (a b : f64) :
  is_f64 b -> (kahan_step (a, Fin 0) b).1 = fadd a b.
Proof. intros H. unfold kahan_step. now rewrite (fsub_0_r b H). Qed.

Lemma fdiv_count_1 (a : f64) : is_f64 a -> fdiv_count a 1 = a.
Proof.
  unfold fdiv_count.
  change (round (inject_Z (Z.of_nat 1))) with (Fin 1).
  destruct a as [x|s|]; cbn [is_f64]; [|reflexivity|intros []].
  intros H. rewrite <- H. apply round_proper. field.
Qed.

Lemma mean_one (v : Q) : mean [Some v] = of_f64 (round v).
Proof.
  unfold mean, kahan_sum.
  change (omap id [Some v]) with [v]. cbn [map fold_left length].
  rewrite (kahan_step_first _ (round_is_f64 v)). cbn [fst].
  now rewrite (fdiv_count_1 _ (round_is_f64 v)).
Qed.

Lemma mean_two (a b : Q) :
  mean [Some a; Some b] = of_f64 (fdiv_count (fadd (round a) (round b)) 2).
Proof.
  unfold mean, kahan_sum.
  change (omap id [Some a; Some b]) with [a; b]. cbn [map fold_left length].
  rewrite (kahan_step_first _ (round_is_f64 a)).
  now rewrite (kahan_step_second _ _ (round_is_f64 b)).
Qed.

Lemma round_of_f64 (a : f64) : is_f64 a ->
  match of_f64 a with Some x => round x = a | None => False end.
Proof.
  destruct a as [x|s|]; simpl; [auto | | auto].
  intros _. destruct s; vm_compute; reflexivity.
Qed.

Lemma mean_single (v : option Q) : same_value (mean [v]) v.
Proof.
  destruct v as [q|]; [|exact I]. rewrite mean_one.
  pose proof (round_of_f64 (round q) (round_is_f64 q)) as H.
  unfold same_value. destruct (of_f64 (round q)); [exact H | destruct H].
Qed.

End Binary64.

(** *** The "mean" policy *)

Lemma omap_id_map {A B} (f : A -> option B) (l : list A) :
  omap id (map f l) = omap f l.
Proof.
  induction l as [|a l IH]; [reflexivity|].
  change (omap id (map f (a :: l)))
    with (match f a with
          | Some y => y :: omap id (map f l)
          | None => omap id (map f l)
          end).
  rewrite IH. reflexivity.
Qed.

Lemma filter_key_aggregate_nil (df : list LongObs) (ks : list GroupKey)
  (k : GroupKey) :
  k ∉ ks ->
  filter (fun o => key_of o = lift_key k) (map (aggregate df) ks) = [].
Proof.
  induction ks as [|k' ks IH]; intros Hk; [reflexivity|]. simpl.
  rewrite not_elem_of_cons in Hk. destruct Hk as [Hne Hk].
  rewrite filter_cons_False; [now apply IH|].
  rewrite aggregate_key. intros H. apply (inj lift_key) in H. congruence.
Qed.

Lemma filter_key_aggregate (df : list LongObs) (ks : list GroupKey)
  (k : GroupKey) :
  NoDup ks -> k ∈ ks ->
  filter (fun o => key_of o = lift_key k) (map (aggregate df) ks)
  = [aggregate df k].
Proof.
  intros Hnd. induction Hnd as [|k' ks Hk' Hnd IH]; intros Hin.
  - inversion Hin.
  - simpl. destruct (decide (k' = k)) as [->|Hne].
    + rewrite filter_cons_True by apply aggregate_key. f_equal.
      now apply filter_key_aggregate_nil.
    + rewrite filter_cons_False.
      * apply IH. apply elem_of_cons in Hin as [->|Hin]; [congruence|easy].
      * rewrite aggregate_key. intros H. apply (inj lift_key) in H.
        congruence.
Qed.

(** C2, as the code has it: under the "mean" policy every group of rows
    with one (station_id, date, method_id) gives a single row.  Its value
    is the binary64 mean of the values of the group that are not missing:
    their compensated sum, in the order of the rows, divided by their
    count, every operation rounded to binary64 (and it is missing when
    all are); for two values [a] and [b] this is [(a + b) / 2], rounded
    after the sum and after the division.  Its flag is the first flag of
    the group, in the order of the input, that is not missing.  Two rows
    with the values 7.1 and 7.3 give one row with the value
    7.199999999999999, which is not the binary64 number 7.2. *)
Theorem mean_policy_group :
  (forall (df : list LongObs) (k : GroupKey),
     (exists r, r ∈ df /\ group_key r = Some k) ->
     exists out row,
       remove_duplicates df "mean" = Ok out /\
       filter (fun o => key_of o = lift_key k) out = [row] /\
       match omap value (group df k) with
       | [] => value row = None
       | vs =>
           value row
           = of_f64 (fdiv_count (kahan_sum (map round vs)) (length vs))
       end /\
       flag1 row = head (omap flag1 (group df k))) /\
  (forall a b : Q,
     mean [Some a; Some b]
     = of_f64 (fdiv_count (fadd (round a) (round b)) 2)) /\
  remove_duplicates [obs_pH (71 # 10) None; obs_pH (73 # 10) None] "mean"
  = Ok [obs_pH (2026619832316723 # 281474976710656) None] /\
  (7199999999999999 # 1000000000000000
   <= 2026619832316723 # 281474976710656 < 36 # 5)%Q /\
  ~ same_value (Some (2026619832316723 # 281474976710656)) (Some (36 # 5)).
Proof.
  split; [|split; [exact mean_two|split; [vm_compute; reflexivity|split]]].
  - intros df k Hk.
    exists (map (aggregate df) (group_keys df)), (aggregate df k).
    split; [reflexivity|]. split.
    + apply filter_key_aggregate; [apply group_keys_NoDup|].
      now apply group_keys_elem.
    + destruct k as [[s d] m]. unfold aggregate. simpl value. simpl flag1.
      split.
      * unfold mean. rewrite omap_id_map.
        now destruct (omap value (group df (s, d, m))).
      * unfold first. now rewrite omap_id_map.
  - split; [discriminate | reflexivity].
  - unfold same_value. intros H. vm_compute in H. discriminate.
Qed.

Lemma mean_policy_group_witness :
  exists out row,
    remove_duplicates
      [obs_pH (71 # 10) None; obs_pH (73 # 10) (Some below_LOD)] "mean"
    = Ok out /\
    filter (fun o => key_of o = lift_key (1, 18262, 10268)) out = [row] /\
    value row = Some (2026619832316723 # 281474976710656) /\
    flag1 row = Some below_LOD.
Proof.
  destruct (proj1 mean_policy_group
              [obs_pH (71 # 10) None; obs_pH (73 # 10) (Some below_LOD)]
              (1, 18262, 10268)) as [out [row [H1 [H2 [_ H4]]]]].
  - exists (obs_pH (71 # 10) None). split; [left | reflexivity].
  - exists out, row. split; [exact H1|]. split; [exact H2|].
    vm_compute in H1. inversion H1; subst out; clear H1.
    vm_compute in H2. inversion H2; subst row. split; reflexivity.
Defined.

(** C2, as it is stated, fails.  The values 7.1 and 7.3 give the value
    7.199999999999999, which is below 7.2 and is not the binary64 number
    7.2; and when the first row of a group has no flag and a later one
    has, the row of the group carries the later flag. *)
Lemma mean_policy_value_and_flag :
  let first_row := obs_pH (71 # 10) None in
  let df := [first_row; obs_pH (73 # 10) (Some below_LOD)] in
  exists row,
    remove_duplicates df "mean" = Ok [row] /\
    group df (1, 18262, 10268) = df /\
    value row = Some (2026619832316723 # 281474976710656) /\
    (2026619832316723 # 281474976710656 < 36 # 5)%Q /\
    ~ same_value (value row) (Some (36 # 5)) /\
    flag1 first_row = None /\
    flag1 row = Some below_LOD /\
    flag1 row <> flag1 first_row.
Proof.
  eexists. split; [vm_compute; reflexivity|].
  split; [reflexivity|]. split; [reflexivity|]. split; [reflexivity|].
  split; [|repeat split; discriminate].
  unfold same_value. simpl value. intros H. vm_compute in H. discriminate.
Qed.

(** ** map_station_ids *)

Lemma count_na_app {A R} (col : R -> option A) (l1 l2 : list R) :
  count_na col (l1 ++ l2) = (count_na col l1 + count_na col l2)%nat.
Proof. unfold count_na. now rewrite filter_app, length_app. Qed.

Lemma count_na_zero {A R} (col : R -> option A) (df : list R) :
  count_na col df = O <-> forall r, r ∈ df -> is_Some (col r).
Proof.
  unfold count_na. induction df as [|r df IH].
  - split; [intros _ r H; inversion H | reflexivity].
  - destruct (col r) as [a|] eqn:E.
    + rewrite filter_cons_False by (rewrite E; discriminate).
      rewrite IH. split.
      * intros H r' Hr'. apply elem_of_cons in Hr' as [->|Hr']; eauto.
      * intros H r' Hr'. apply H. now right.
    + rewrite filter_cons_True by (now rewrite E). split; [discriminate|].
      intros H. destruct (H r) as [a Ha]; [left|]. congruence.
Qed.

Lemma code_matches_spec (c : option string) (st : string * Z) :
  code_matches c st = true <-> c = Some st.1.
Proof.
  destruct c as [s|]; simpl; [|easy].
  rewrite String.eqb_eq. split; congruence.
Qed.

Lemma filter_matches_nil (stn_df : Stations) (c : option string) :
  filter (fun st => code_matches c st = true) stn_df = []
  <-> ~ has_match stn_df c.
Proof.
  split.
  - intros H [code [id [-> Hin]]].
    eapply (filter_nil_not_elem_of _ _ (code, id)) in H; [contradiction|].
    simpl. apply String.eqb_refl.
  - intros H. destruct (filter _ stn_df) as [|st l] eqn:E; [reflexivity|].
    exfalso. apply H.
    assert (Hst : st ∈ filter (fun st => code_matches c st = true) stn_df)
      by (rewrite E; left).
    apply list_elem_of_filter in Hst as [Hm Hin].
    apply code_matches_spec in Hm. destruct st as [code id].
    exists code, id. eauto.
Qed.

Lemma merge_station_unmatched (stn_df : Stations)
  (r : WideRow (option string)) :
  ~ has_match stn_df (w_id r) ->
  merge_station stn_df r = [mkWideRow None (w_date r) (w_cells r)].
Proof.
  intros H. apply filter_matches_nil in H. unfold merge_station.
  now rewrite H.
Qed.

Lemma merge_station_matched (stn_df : Stations)
  (r : WideRow (option string)) :
  has_match stn_df (w_id r) ->
  merge_station stn_df r <> [] /\
  forall r', r' ∈ merge_station stn_df r ->
    is_Some (w_id r') /\ w_date r' = w_date r /\ w_cells r' = w_cells r.
Proof.
  intros H. unfold merge_station.
  destruct (filter _ stn_df) as [|st l] eqn:E.
  - apply filter_matches_nil in E. contradiction.
  - split; [discriminate|]. intros r' Hr'.
    rewrite map_fmap in Hr'. apply list_elem_of_fmap in Hr' as [st' [-> _]].
    simpl. eauto.
Qed.

Lemma merge_station_cells (stn_df : Stations)
  (r : WideRow (option string)) :
  exists r', r' ∈ merge_station stn_df r /\ w_date r' = w_date r
             /\ w_cells r' = w_cells r.
Proof.
  unfold merge_station. destruct (filter _ stn_df) as [|st l].
  - eexists. split; [left|]. simpl. eauto.
  - eexists. split; [left|]. simpl. eauto.
Qed.

Lemma flat_map_elem {A B} (f : A -> list B) (l : list A) (b : B) :
  b ∈ flat_map f l <-> exists a, a ∈ l /\ b ∈ f a.
Proof.
  rewrite list_elem_of_In, in_flat_map. split.
  - intros [a [Ha Hb]]. exists a. now rewrite !list_elem_of_In.
  - intros [a [Ha Hb]]. exists a. now rewrite <- !list_elem_of_In.
Qed.

(** C6, as the code has it: when some station code has no match in the
    reference table the mapping fails with an [AssertionError] whose
    message is the fixed text "Some station codes cannot be matched to
    IDs.", whatever the codes are; when every code has a match the mapping
    succeeds, and every row has a station_id. *)
Theorem map_station_ids_spec (df : Wide (option string))
  (stn_df : Stations) :
  ((exists r, r ∈ w_rows df /\ ~ has_match stn_df (w_id r)) ->
   map_station_ids df stn_df = Raise (AssertionError unmatched_msg)) /\
  ((forall r, r ∈ w_rows df -> has_match stn_df (w_id r)) ->
   exists out,
     map_station_ids df stn_df = Ok out /\
     w_params out = w_params df /\
     forall r, r ∈ w_rows out -> is_Some (w_id r)).
Proof.
  unfold map_station_ids. split.
  - intros [r [Hr Hm]].
    destruct (Nat.eqb_spec
                (count_na w_id (flat_map (merge_station stn_df) (w_rows df)))
                0) as [E|_]; [|reflexivity].
    exfalso. rewrite count_na_zero in E.
    destruct (E (mkWideRow None (w_date r) (w_cells r))) as [x Hx];
      [|discriminate].
    apply flat_map_elem. exists r. split; [exact Hr|].
    rewrite merge_station_unmatched by exact Hm. left.
  - intros H.
    assert (E : forall r, r ∈ flat_map (merge_station stn_df) (w_rows df) ->
                          is_Some (w_id r)).
    { intros r' Hr'. apply flat_map_elem in Hr' as [r [Hr Hr']].
      now apply (merge_station_matched stn_df r (H r Hr)). }
    pose proof E as E'. apply count_na_zero in E'. rewrite E'. simpl.
    eexists. split; [reflexivity|]. split; [reflexivity|exact E].
Qed.

Lemma map_station_ids_spec_witness :
  map_station_ids (template_1 "XX99") [("NO01", 1)]
  = Raise (AssertionError unmatched_msg) /\
  exists out,
    map_station_ids (template_1 "NO01") [("NO01", 1)] = Ok out /\
    w_params out = w_params (template_1 "NO01") /\
    forall r, r ∈ w_rows out -> is_Some (w_id r).
Proof.
  split.
  - apply (map_station_ids_spec (template_1 "XX99") [("NO01", 1)]).
    eexists. split; [left|]. simpl.
    intros [code [id [H1 H2]]]. inversion H1; subst code.
    apply list_elem_of_singleton in H2. discriminate.
  - apply (map_station_ids_spec (template_1 "NO01") [("NO01", 1)]).
    intros r Hr. apply list_elem_of_singleton in Hr. subst r.
    exists "NO01", 1. split; [reflexivity | left].
Defined.

(** C6, as it is stated, fails: the error of an unmatched station code
    does not name the code, and it is the same for any other code. *)
Lemma map_station_ids_error_names_no_code :
  exists e,
    map_station_ids (template_1 "XX99") [("NO01", 1)] = Raise e /\
    ~ has_match [("NO01", 1)] (Some "XX99") /\
    str_in "XX99" (exc_msg e) = false /\
    map_station_ids (template_1 "ZZ00") [("NO01", 1)] = Raise e.
Proof.
  eexists. split; [reflexivity|]. split; [|split; reflexivity].
  intros [code [id [H1 H2]]]. inversion H1; subst code.
  apply list_elem_of_singleton in H2. discriminate.
Qed.

(** ** map_method_ids and wide_to_long *)

Section MapM.
Context {A B : Type} (f : A -> Result B).

Lemma mapM_Raise (l : list A) (e : Exc) :
  mapM f l = Raise e -> exists a, a ∈ l /\ f a = Raise e.
Proof.
  induction l as [|a l IH]; simpl; [discriminate|].
  destruct (f a) as [b|e'] eqn:E; simpl.
  - destruct (mapM f l) as [bs|e'']; simpl; [discriminate|].
    intros H. destruct (IH H) as [a' [Ha' Hf]].
    exists a'. split; [now right | exact Hf].
  - intros H. exists a. split; [left | congruence].
Qed.

Lemma mapM_elem_Raise (l : list A) (a : A) (e : Exc) :
  a ∈ l -> f a = Raise e -> exists e', mapM f l = Raise e'.
Proof.
  induction l as [|a' l IH]; intros Ha Hf; [inversion Ha|]. simpl.
  destruct (f a') as [b|e'] eqn:E; simpl; [|eauto].
  apply elem_of_cons in Ha as [->|Ha]; [congruence|].
  destruct (IH Ha Hf) as [e' ->]. simpl. eauto.
Qed.

Lemma mapM_Ok (l : list A) (bs : list B) :
  mapM f l = Ok bs -> Forall2 (fun a b => f a = Ok b) l bs.
Proof.
  revert bs. induction l as [|a l IH]; simpl; intros bs H.
  - inversion H. constructor.
  - destruct (f a) as [b|e] eqn:E; simpl in H; [|discriminate].
    destruct (mapM f l) as [bs'|e]; simpl in H; [|discriminate].
    inversion H. constructor; auto.
Qed.
End MapM.

Lemma melt_elem (df : Wide (option Z)) (x : Melted Label) :
  x ∈ melt df <->
  exists j l r,
    w_params df !! j = Some l /\ r ∈ w_rows df /\
    x = mkMelted (w_id r) (w_date r) l (nth j (w_cells r) None).
Proof.
  unfold melt. rewrite flat_map_elem. split.
  - intros [[j l] [Hjl Hx]].
    apply elem_of_lookup_imap in Hjl as [j' [l' [Heq Hl]]].
    inversion Heq; subst j' l'.
    rewrite map_fmap in Hx. apply list_elem_of_fmap in Hx as [r [-> Hr]].
    exists j, l, r. eauto.
  - intros [j [l [r [Hl [Hr ->]]]]]. exists (j, l). split.
    + apply elem_of_lookup_imap. eauto.
    + rewrite map_fmap. apply list_elem_of_fmap. exists r. eauto.
Qed.

Lemma astype_int_Raise (x : Melted Label) (e : Exc) :
  astype_int x = Raise e ->
  exists s, m_method_id x = LStr s /\ int_of_string s = None
            /\ e = int_error s.
Proof.
  unfold astype_int, int_of_label.
  destruct (m_method_id x) as [z|s]; simpl; [discriminate|].
  destruct (int_of_string s) eqn:E; simpl; [discriminate|].
  intros H. inversion H. eauto.
Qed.

Lemma rename_label_unmapped (s : string) :
  dict_get meth_map s = None -> rename_label meth_map (LStr s) = LStr s.
Proof. intros H. unfold rename_label. now rewrite H. Qed.

(** C9, as the code has it: a parameter column whose header is no key of
    the method map keeps its header through the renaming.  When that
    header is not the text of an integer and the column has a cell that is
    not empty, the reshaper fails with a [ValueError] at the coercion of
    method_id to integer. *)
Theorem unmapped_column_raises (df : Wide (option string))
  (stn_df : Stations) (j : nat) (s : string) :
  w_params df !! j = Some (LStr s) ->
  dict_get meth_map s = None ->
  w_params (map_method_ids df) !! j = Some (LStr s) /\
  (int_of_string s = None ->
   (exists r, r ∈ w_rows df /\ is_Some (nth j (w_cells r) None)) ->
   forall df1, map_station_ids (map_method_ids df) stn_df = Ok df1 ->
     exists msg, wide_to_long df1 = Raise (ValueError msg)).
Proof.
  intros Hj Hs.
  assert (Hj' : w_params (map_method_ids df) !! j = Some (LStr s)).
  { change (w_params (map_method_ids df))
      with (rename_label meth_map <$> w_params df).
    rewrite list_lookup_fmap, Hj.
    change (Some (rename_label meth_map (LStr s)) = Some (LStr s)).
    now rewrite rename_label_unmapped. }
  split; [exact Hj'|].
  intros Hint [r [Hr [c Hc]]] df1 Hdf1.
  unfold map_station_ids in Hdf1.
  destruct (_ =? _)%nat; [|discriminate]. inversion Hdf1; subst df1; clear Hdf1.
  destruct (merge_station_cells stn_df r) as [r' [Hr' [_ Hcells]]].
  set (df1 := mkWide _ _).
  set (x := mkMelted (w_id r') (w_date r') (LStr s) (Some c)).
  assert (Hx : x ∈ filter (fun r => isna (m_value r) = false) (melt df1)).
  { apply list_elem_of_filter. split; [reflexivity|].
    apply melt_elem. exists j, (LStr s), r'. split; [exact Hj'|]. split.
    - simpl. apply flat_map_elem. eauto.
    - unfold x. now rewrite Hcells, Hc. }
  assert (Hfx : astype_int x = Raise (int_error s)).
  { unfold astype_int, x. simpl. now rewrite Hint. }
  unfold wide_to_long.
  destruct (mapM_elem_Raise astype_int _ x _ Hx Hfx) as [e He].
  rewrite He. apply mapM_Raise in He as [y [_ Hy]].
  apply astype_int_Raise in Hy as [s' [_ [_ ->]]].
  unfold int_error. eauto.
Qed.

Lemma unmapped_column_raises_witness :
  exists msg,
    reshape (template_2 "Foo_mg/L" None (Some "3")) [("NO01", 1)]
    = Raise (ValueError msg).
Proof.
  destruct (unmapped_column_raises
              (template_2 "Foo_mg/L" None (Some "3")) [("NO01", 1)]
              1%nat "Foo_mg/L") as [_ H]; [reflexivity | reflexivity |].
  destruct (H eq_refl) with
    (df1 := mkWide [LInt 10268; LStr "Foo_mg/L"]
              [mkWideRow (Some 1) (Some 18262) [Some "7.1"; None];
               mkWideRow (Some 1) (Some 18263) [Some "7.3"; Some "3"]])
    as [msg Hmsg].
  - eexists. split; [right; left|]. simpl. eauto.
  - reflexivity.
  - exists msg. unfold reshape.
    change (map_station_ids _ _) with
      (Ok (mkWide [LInt 10268; LStr "Foo_mg/L"]
             [mkWideRow (Some 1) (Some 18262) [Some "7.1"; None];
              mkWideRow (Some 1) (Some 18263) [Some "7.3"; Some "3"]])).
    exact Hmsg.
Defined.

(** C9, as it is stated, fails.  An unmapped column whose cells are all
    empty loses its rows before the coercion, and no error is raised; an
    unmapped column whose header is the text of an integer is coerced, and
    its observations go on under that integer as their method_id. *)
Lemma unmapped_column_without_error :
  dict_get meth_map "Foo_mg/L" = None /\
  reshape (template_2 "Foo_mg/L" None None) [("NO01", 1)]
  = Ok [mkMelted (Some 1) (Some 18262) 10268 (Some "7.1");
        mkMelted (Some 1) (Some 18263) 10268 (Some "7.3")] /\
  dict_get meth_map "123" = None /\
  reshape (template_2 "123" (Some "4") None) [("NO01", 1)]
  = Ok [mkMelted (Some 1) (Some 18262) 10268 (Some "7.1");
        mkMelted (Some 1) (Some 18263) 10268 (Some "7.3");
        mkMelted (Some 1) (Some 18262) 123 (Some "4")].
Proof. repeat split. Qed.

(** ** upload_samples and upload_chemistry *)

Lemma drop_duplicates_id_elem {K} `{EqDecision K} (l : list K) (k : K) :
  k ∈ drop_duplicates id l <-> k ∈ l.
Proof.
  pose proof (drop_duplicates_keys id l k) as H.
  now rewrite !map_id in H.
Qed.

Lemma drop_duplicates_id_NoDup {K} `{EqDecision K} (l : list K) :
  NoDup (drop_duplicates id l).
Proof.
  pose proof (drop_duplicates_NoDup id l) as H. now rewrite map_id in H.
Qed.

Section PersistenceProperties.
Variable insert_sample :
  list SampleRow -> option Z * option Z -> Result (option Z * option Z).

Lemma to_sql_samples_rows (ws_df : list (option Z * option Z))
  (tbl tbl' : list SampleRow) :
  to_sql_samples insert_sample ws_df tbl = Ok tbl' ->
  exists news,
    tbl' = tbl ++ news /\
    Forall2 (fun p w => exists t x, insert_sample t p = Ok x /\
                          w = mkSampleRow x.1 p.1 x.2 0 0) ws_df news.
Proof.
  revert tbl. induction ws_df as [|p ws IH]; intros tbl; simpl.
  - intros H. injection H as <-. exists []. rewrite app_nil_r.
    split; [reflexivity | constructor].
  - destruct (insert_sample tbl p) as [x|e] eqn:E; simpl; [|discriminate].
    intros H. destruct (IH _ H) as [news [-> HF]].
    exists (mkSampleRow x.1 p.1 x.2 0 0 :: news).
    split; [now rewrite <- app_assoc|].
    constructor; [eauto | exact HF].
Qed.

Lemma inserted_rows (ws_df : list (option Z * option Z))
  (news : list SampleRow) :
  Forall2 (fun p w => exists t x, insert_sample t p = Ok x /\
                        w = mkSampleRow x.1 p.1 x.2 0 0) ws_df news ->
  map ws_station_id news = map fst ws_df /\
  Forall (fun w => ws_depth1 w = 0 /\ ws_depth2 w = 0) news.
Proof.
  induction 1 as [|p w ws news [t [x [_ ->]]] HF [IH1 IH2]].
  - split; [reflexivity | constructor].
  - split; [simpl; f_equal; exact IH1 | constructor; auto].
Qed.

Lemma to_sql_samples_length (ws_df : list (option Z * option Z))
  (tbl tbl' : list SampleRow) :
  to_sql_samples insert_sample ws_df tbl = Ok tbl' ->
  length tbl' = (length tbl + length ws_df)%nat.
Proof.
  intros H. apply to_sql_samples_rows in H as [news [-> HF]].
  rewrite length_app. now rewrite (Forall2_length _ _ _ HF).
Qed.

Lemma station_ids_elem (df : list LongObs) (s : option Z) :
  s ∈ station_ids df <-> exists r, r ∈ df /\ station_id r = s.
Proof.
  unfold station_ids. rewrite drop_duplicates_id_elem, map_fmap.
  rewrite list_elem_of_fmap. split.
  - intros [p [-> Hp]]. rewrite drop_duplicates_id_elem, map_fmap in Hp.
    apply list_elem_of_fmap in Hp as [r [-> Hr]]. eauto.
  - intros [r [Hr <-]]. exists (sample_key r). split; [reflexivity|].
    apply drop_duplicates_id_elem. rewrite map_fmap.
    now apply list_elem_of_fmap_2.
Qed.

Lemma read_sql_samples_Ok (df : list LongObs) (tbl : list SampleRow) :
  df <> [] -> (forall r, r ∈ df -> is_Some (station_id r)) ->
  read_sql_samples (station_ids df) tbl
  = Ok (samples_of (station_ids df) tbl).
Proof.
  intros Hne Hst. unfold read_sql_samples.
  destruct (decide _) as [[H|H]|_]; [exfalso..|reflexivity].
  - destruct df as [|r df]; [congruence|].
    assert (Hr : station_id r ∈ station_ids (r :: df))
      by (apply station_ids_elem; exists r; split; [left | reflexivity]).
    rewrite H in Hr. inversion Hr.
  - apply station_ids_elem in H as [r [Hr Hn]].
    destruct (Hst r Hr) as [z Hz]. congruence.
Qed.

Lemma read_sql_samples_Ok_inv (stn_ids : list (option Z))
  (tbl ws_db : list SampleRow) :
  read_sql_samples stn_ids tbl = Ok ws_db -> ws_db = samples_of stn_ids tbl.
Proof.
  unfold read_sql_samples. destruct (decide _); [discriminate|].
  intros H. now injection H as <-.
Qed.

Lemma samples_of_elem (stn_ids : list (option Z))
  (tbl : list SampleRow) (w : SampleRow) :
  w ∈ samples_of stn_ids tbl
  <-> (is_Some (ws_station_id w) /\ ws_station_id w ∈ stn_ids) /\ w ∈ tbl.
Proof. unfold samples_of. now rewrite list_elem_of_filter. Qed.

Lemma upload_samples_unfold (df : list LongObs) (db : DB)
  (dry_run : bool) :
  upload_samples insert_sample df db dry_run
  = match
      (if dry_run then Ok db
       else try tbl <- to_sql_samples insert_sample (new_samples df)
                         (water_samples db);
            Ok (mkDB (stations db) tbl (water_chemistry_values2 db)))
    with
    | Raise e => (db, Raise e)
    | Ok db1 =>
        match read_sql_samples (station_ids df) (water_samples db1) with
        | Raise e => (db1, Raise e)
        | Ok ws_db =>
            let df1 := flat_map (merge_sample ws_db) df in
            if negb dry_run && negb (count_na water_sample_id df1 =? 0)%nat
            then (db1, Raise (AssertionError ""))
            else (db1, Ok (drop_duplicates id (map sample_cols df1), df1))
        end
    end.
Proof. reflexivity. Qed.

Lemma upload_samples_dry_run_db (df : list LongObs) (db : DB) :
  (upload_samples insert_sample df db true).1 = db.
Proof.
  rewrite upload_samples_unfold.
  destruct (read_sql_samples _ _); reflexivity.
Qed.

Lemma upload_samples_dry_run (df : list LongObs) (db : DB) :
  df <> [] -> (forall r, r ∈ df -> is_Some (station_id r)) ->
  upload_samples insert_sample df db true
  = (db, Ok (drop_duplicates id
               (map sample_cols (joined df (water_samples db))),
             joined df (water_samples db))).
Proof.
  intros Hne Hst. rewrite upload_samples_unfold.
  now rewrite (read_sql_samples_Ok df _ Hne Hst).
Qed.

Lemma upload_samples_refused (df : list LongObs) (db : DB) (e : Exc) :
  to_sql_samples insert_sample (new_samples df) (water_samples db)
  = Raise e ->
  upload_samples insert_sample df db false = (db, Raise e).
Proof. intros H. rewrite upload_samples_unfold, H. reflexivity. Qed.

Lemma upload_samples_accepted_db (df : list LongObs) (db : DB)
  (tbl : list SampleRow) :
  to_sql_samples insert_sample (new_samples df) (water_samples db)
  = Ok tbl ->
  (upload_samples insert_sample df db false).1
  = mkDB (stations db) tbl (water_chemistry_values2 db).
Proof.
  intros H. rewrite upload_samples_unfold, H. simpl.
  destruct (read_sql_samples _ _); [|reflexivity].
  now destruct (negb _).
Qed.

Lemma upload_samples_accepted (df : list LongObs) (db : DB)
  (tbl : list SampleRow) :
  df <> [] -> (forall r, r ∈ df -> is_Some (station_id r)) ->
  to_sql_samples insert_sample (new_samples df) (water_samples db)
  = Ok tbl ->
  upload_samples insert_sample df db false
  = (mkDB (stations db) tbl (water_chemistry_values2 db),
     if (count_na water_sample_id (joined df tbl) =? 0)%nat
     then Ok (drop_duplicates id (map sample_cols (joined df tbl)),
              joined df tbl)
     else Raise (AssertionError "")).
Proof.
  intros Hne Hst H. rewrite upload_samples_unfold, H. simpl.
  rewrite (read_sql_samples_Ok df _ Hne Hst). fold (joined df tbl).
  now destruct (_ =? _)%nat.
Qed.

Lemma upload_samples_Ok_inv (df : list LongObs) (db db1 : DB)
  (ws : list (option Z * option Z * option Z)) (out : list SampledObs) :
  upload_samples insert_sample df db false = (db1, Ok (ws, out)) ->
  exists tbl,
    to_sql_samples insert_sample (new_samples df) (water_samples db)
    = Ok tbl /\
    db1 = mkDB (stations db) tbl (water_chemistry_values2 db) /\
    out = joined df tbl /\
    forall o, o ∈ out -> is_Some (water_sample_id o).
Proof.
  rewrite upload_samples_unfold.
  destruct (to_sql_samples _ _ _) as [tbl|e]; simpl; [|discriminate].
  destruct (read_sql_samples _ _) as [ws_db|e] eqn:E; [|discriminate].
  apply read_sql_samples_Ok_inv in E. subst ws_db. fold (joined df tbl).
  destruct (Nat.eqb_spec (count_na water_sample_id (joined df tbl)) 0)
    as [Hz|Hz]; simpl; [|discriminate].
  intros H. injection H as <- <- <-. exists tbl.
  split; [reflexivity|]. split; [reflexivity|]. split; [reflexivity|].
  now apply count_na_zero.
Qed.

Lemma complete_counts (df : list SampledObs) :
  (forall r, r ∈ df -> complete r) <->
  count_na (fun r => method_id (s_obs r)) df = O /\
  count_na water_sample_id df = O /\
  count_na (fun r => value (s_obs r)) df = O.
Proof.
  rewrite !count_na_zero. unfold complete. split.
  - intros H. repeat split; intros r Hr; now apply (H r Hr).
  - intros [H1 [H2 H3]] r Hr. repeat split; auto.
Qed.

Lemma upload_chemistry_write (df : list SampledObs) (db : DB) :
  (forall r, r ∈ df -> complete r) ->
  upload_chemistry df db false
  = (mkDB (stations db) (water_samples db)
       (water_chemistry_values2 db ++ map chem_row df),
     Ok (map chem_row df)).
Proof.
  intros H. apply complete_counts in H as [H1 [H2 H3]].
  unfold upload_chemistry. now rewrite H1, H2, H3.
Qed.

Lemma upload_chemistry_fail (df : list SampledObs) (db : DB) :
  (exists r, r ∈ df /\ ~ complete r) ->
  upload_chemistry df db false = (db, Raise (AssertionError "")).
Proof.
  intros [r [Hr Hc]]. unfold upload_chemistry.
  destruct (_ && _ && _) eqn:E; [|reflexivity].
  exfalso. apply Hc.
  apply andb_prop in E as [E E3]. apply andb_prop in E as [E1 E2].
  apply Nat.eqb_eq in E1, E2, E3.
  now apply (proj2 (complete_counts df)).
Qed.

(** C7: with dry_run set, the two persistence operations (and the whole
    of [process_template]) leave the database as it is, so the two
    tables keep their rows.  With dry_run unset, [upload_samples] sends
    one row for each distinct (station_id, date) of the observations:
    when the database refuses the INSERT, the function fails with the
    error of the database and no row is added; when it accepts it, one
    row is added for each of them.  A table without a column "date"
    refuses it, for any observation.  [upload_chemistry], when its rows
    are complete, appends one row to water_chemistry_values2 for each of
    them. *)
Theorem dry_run_writes_nothing (df : list LongObs)
  (sdf : list SampledObs) (db : DB) :
  (upload_samples insert_sample df db true).1 = db /\
  (upload_chemistry sdf db true).1 = db /\
  (forall tpl dups, (process_template insert_sample tpl db dups true).1 = db)
  /\
  (exists new,
     NoDup new /\ (forall p, p ∈ new <-> p ∈ map sample_key df) /\
     (forall e,
        to_sql_samples insert_sample new (water_samples db) = Raise e ->
        upload_samples insert_sample df db false = (db, Raise e)) /\
     (forall tbl,
        to_sql_samples insert_sample new (water_samples db) = Ok tbl ->
        let db1 := (upload_samples insert_sample df db false).1 in
        water_samples db1 = tbl /\
        length (water_samples db1)
        = (length (water_samples db) + length new)%nat /\
        water_chemistry_values2 db1 = water_chemistry_values2 db)) /\
  ((forall tbl p, insert_sample tbl p = Raise DatabaseError) ->
   df <> [] ->
   upload_samples insert_sample df db false = (db, Raise DatabaseError)) /\
  ((forall r, r ∈ sdf -> complete r) ->
   exists db1 rows,
     upload_chemistry sdf db false = (db1, Ok rows) /\
     length (water_chemistry_values2 db1)
     = (length (water_chemistry_values2 db) + length sdf)%nat /\
     water_samples db1 = water_samples db).
Proof.
  split; [apply upload_samples_dry_run_db|]. split; [reflexivity|].
  split; [|split; [|split]].
  - intros tpl dups. unfold process_template.
    destruct (transform tpl (stations db) dups) as [df'|e]; [|reflexivity].
    pose proof (upload_samples_dry_run_db df' db) as H.
    destruct (upload_samples insert_sample df' db true) as [db1 [[ws o]|e]];
      simpl in H; subst db1; reflexivity.
  - exists (new_samples df).
    split; [apply drop_duplicates_id_NoDup|].
    split; [intros p; apply drop_duplicates_id_elem|].
    split; [intros e; apply upload_samples_refused|].
    intros tbl H. rewrite (upload_samples_accepted_db df db tbl H). simpl.
    split; [reflexivity|]. split; [|reflexivity].
    now apply to_sql_samples_length.
  - intros Hno Hne. apply upload_samples_refused.
    unfold new_samples. destruct df as [|r df]; [congruence|].
    simpl. unfold drop_duplicates. simpl. now rewrite Hno.
  - intros H. rewrite (upload_chemistry_write sdf db H).
    eexists _, _. split; [reflexivity|]. simpl.
    rewrite length_app, length_map. auto.
Qed.

(** C8: with dry_run unset, [upload_chemistry] fails, with the database
    as it was, when a row has a missing method_id, water_sample_id or
    value, and appends the rows when none has; with dry_run set it makes
    no check: the rows go through, missing entries included, without an
    error. *)
Theorem upload_chemistry_null_check (df : list SampledObs) (db : DB) :
  ((exists r, r ∈ df /\
      (method_id (s_obs r) = None \/ water_sample_id r = None
       \/ value (s_obs r) = None)) ->
   upload_chemistry df db false = (db, Raise (AssertionError ""))) /\
  ((forall r, r ∈ df ->
      is_Some (method_id (s_obs r)) /\ is_Some (water_sample_id r)
      /\ is_Some (value (s_obs r))) ->
   upload_chemistry df db false
   = (mkDB (stations db) (water_samples db)
        (water_chemistry_values2 db ++ map chem_row df),
      Ok (map chem_row df))) /\
  upload_chemistry df db true = (db, Ok (map chem_row df)).
Proof.
  split; [|split; [apply upload_chemistry_write | reflexivity]].
  intros [r [Hr Hn]]. apply upload_chemistry_fail. exists r.
  split; [exact Hr|]. intros [[m Hm] [[w Hw] [v Hv]]].
  destruct Hn as [H|[H|H]]; congruence.
Qed.

Lemma merge_sample_unmatched (ws_df : list SampleRow) (r : LongObs) :
  (forall w, w ∈ ws_df ->
     (ws_station_id w, ws_sample_date w) <> sample_key r) ->
  merge_sample ws_df r = [mkSampledObs r None].
Proof.
  intros H. unfold merge_sample.
  rewrite (elem_of_nil_inv (filter _ ws_df)); [reflexivity|].
  intros w Hw. apply list_elem_of_filter in Hw as [Hk Hw].
  exact (H w Hw Hk).
Qed.

Lemma merge_sample_matched (ws_df : list SampleRow) (r : LongObs)
  (w : SampleRow) :
  w ∈ ws_df -> (ws_station_id w, ws_sample_date w) = sample_key r ->
  mkSampledObs r (ws_water_sample_id w) ∈ merge_sample ws_df r.
Proof.
  intros Hw Hk. unfold merge_sample.
  assert (Hf : w ∈ filter
                 (fun w => (ws_station_id w, ws_sample_date w)
                           = sample_key r) ws_df)
    by (apply list_elem_of_filter; auto).
  destruct (filter _ ws_df) as [|w0 ms]; [inversion Hf|].
  rewrite map_fmap. apply list_elem_of_fmap. eauto.
Qed.

Lemma merge_sample_obs (ws_df : list SampleRow) (r : LongObs)
  (o : SampledObs) :
  o ∈ merge_sample ws_df r -> s_obs o = r.
Proof.
  unfold merge_sample. destruct (filter _ ws_df) as [|w0 ms].
  - intros H. apply list_elem_of_singleton in H. now subst o.
  - rewrite map_fmap. intros H.
    apply list_elem_of_fmap in H as [w [-> _]]. reflexivity.
Qed.

(** C10: with dry_run set, on observations (at least one) that have a
    station_id, [upload_samples] raises no error and leaves the database
    as it is; it reads water_samples and joins the sample identifiers
    onto the observations by (station_id, date): an observation of a
    station and date that the table holds gets the water_sample_id of
    that row, and an observation whose (station_id, date) the table does
    not hold gets a missing water_sample_id. *)
Theorem upload_samples_dry_run_join (df : list LongObs) (db : DB) :
  df <> [] ->
  (forall r, r ∈ df -> is_Some (station_id r)) ->
  exists ws_df out,
    upload_samples insert_sample df db true = (db, Ok (ws_df, out)) /\
    (forall r, r ∈ df ->
       (forall w, w ∈ water_samples db ->
          (ws_station_id w, ws_sample_date w) <> (station_id r, date r)) ->
       mkSampledObs r None ∈ out /\
       forall o, o ∈ out -> s_obs o = r -> water_sample_id o = None) /\
    (forall r w, r ∈ df -> w ∈ water_samples db ->
       (ws_station_id w, ws_sample_date w) = (station_id r, date r) ->
       mkSampledObs r (ws_water_sample_id w) ∈ out).
Proof.
  intros Hne Hst.
  rewrite (upload_samples_dry_run df db Hne Hst). eexists _, _.
  split; [reflexivity|]. unfold joined. split.
  - intros r Hr Hno.
    set (ws_db := samples_of _ _).
    assert (Hm : merge_sample ws_db r = [mkSampledObs r None]).
    { apply merge_sample_unmatched. intros w Hw.
      apply samples_of_elem in Hw as [_ Hw]. now apply Hno. }
    split.
    + apply flat_map_elem. exists r. split; [exact Hr|].
      rewrite Hm. left.
    + intros o Ho Hobs. apply flat_map_elem in Ho as [r' [Hr' Ho]].
      pose proof (merge_sample_obs _ _ _ Ho) as Heq.
      rewrite Hobs in Heq. subst r'. rewrite Hm in Ho.
      apply list_elem_of_singleton in Ho. now subst o.
  - intros r w Hr Hw Hk.
    apply flat_map_elem. exists r. split; [exact Hr|].
    apply merge_sample_matched; [|exact Hk].
    apply samples_of_elem. split; [|exact Hw].
    inversion Hk as [[Hs Hd]]. split; [rewrite Hs; now apply Hst|].
    apply station_ids_elem. eauto.
Qed.

End PersistenceProperties.

Lemma dry_run_writes_nothing_witness :
  upload_samples no_date_column [obs_pH (71 # 10) None] db_1 false
  = (db_1, Raise DatabaseError) /\
  exists db1 rows,
    upload_chemistry [sampled (Some 10268) (Some 7) (Some (71 # 10))]
      db_1 false = (db1, Ok rows) /\
    length (water_chemistry_values2 db1)
    = (length (water_chemistry_values2 db_1) + 1)%nat /\
    water_samples db1 = water_samples db_1.
Proof.
  destruct (dry_run_writes_nothing no_date_column [obs_pH (71 # 10) None]
              [sampled (Some 10268) (Some 7) (Some (71 # 10))] db_1)
    as [_ [_ [_ [_ [H5 H6]]]]].
  split.
  - apply H5; [reflexivity | discriminate].
  - apply H6. intros r Hr. apply list_elem_of_singleton in Hr. subst r.
    unfold complete. simpl. eauto.
Defined.

Lemma upload_chemistry_null_check_witness :
  upload_chemistry [sampled (Some 10268) None (Some (71 # 10))] db_1 false
  = (db_1, Raise (AssertionError "")) /\
  upload_chemistry [sampled (Some 10268) None (Some (71 # 10))] db_1 true
  = (db_1, Ok [mkChemRow (Some 10268) (Some (71 # 10)) None None]) /\
  upload_chemistry [sampled (Some 10268) (Some 7) (Some (71 # 10))] db_1 false
  = (mkDB (stations db_1) (water_samples db_1)
       [mkChemRow (Some 10268) (Some (71 # 10)) None (Some 7)],
     Ok [mkChemRow (Some 10268) (Some (71 # 10)) None (Some 7)]).
Proof.
  split; [|split].
  - apply (upload_chemistry_null_check
             [sampled (Some 10268) None (Some (71 # 10))] db_1).
    eexists. split; [left|]. right. left. reflexivity.
  - apply (upload_chemistry_null_check
             [sampled (Some 10268) None (Some (71 # 10))] db_1).
  - apply (upload_chemistry_null_check
             [sampled (Some 10268) (Some 7) (Some (71 # 10))] db_1).
    intros r Hr. apply list_elem_of_singleton in Hr. subst r.
    simpl. eauto.
Defined.

Lemma upload_samples_dry_run_join_witness :
  exists ws_df out,
    upload_samples serial_insert
      [obs_pH (71 # 10) None;
       mkLongObs (Some 1) (Some 18263) (Some 10268) (Some (73 # 10)) None]
      db_1 true = (db_1, Ok (ws_df, out)) /\
    mkSampledObs (obs_pH (71 # 10) None) (Some 7) ∈ out /\
    mkSampledObs
      (mkLongObs (Some 1) (Some 18263) (Some 10268) (Some (73 # 10)) None)
      None ∈ out.
Proof.
  destruct (upload_samples_dry_run_join serial_insert
              [obs_pH (71 # 10) None;
               mkLongObs (Some 1) (Some 18263) (Some 10268)
                 (Some (73 # 10)) None] db_1)
    as [ws_df [out [H1 [H2 H3]]]].
  - discriminate.
  - intros r Hr. apply elem_of_cons in Hr as [->|Hr]; [simpl; eauto|].
    apply list_elem_of_singleton in Hr. subst r. simpl. eauto.
  - exists ws_df, out. split; [exact H1|]. split.
    + apply (H3 (obs_pH (71 # 10) None)
                (mkSampleRow (Some 7) (Some 1) (Some 18262) 0 0)).
      * left.
      * left.
      * reflexivity.
    + apply H2.
      * right. left.
      * intros w Hw. apply list_elem_of_singleton in Hw. subst w.
        simpl. intros H. inversion H.
Defined.

(** * Further properties *)

(** ** The number pattern *)

Lemma star_digits_rejecting {A} (k : string -> option A) (s : string) :
  (forall c t, is_digit c = true -> k (String c t) = None) ->
  rmatch (Star (Chr is_digit)) s k = k (skip_digits s).
Proof.
  intros Hk. simpl. induction s as [|c t IH]; [reflexivity|].
  simpl. destruct (is_digit c) eqn:Hc.
  - replace (_ <? _)%nat with true by (symmetry; apply Nat.ltb_lt; lia).
    rewrite IH. destruct (k (skip_digits t)); [reflexivity|].
    now apply Hk.
  - reflexivity.
Qed.

Lemma star_digits_Some (s : string) :
  rmatch (Star (Chr is_digit)) s Some = Some (skip_digits s).
Proof.
  simpl. induction s as [|c t IH]; [reflexivity|].
  simpl. destruct (is_digit c) eqn:Hc; [|reflexivity].
  replace (_ <? _)%nat with true by (symmetry; apply Nat.ltb_lt; lia).
  now rewrite IH.
Qed.

Lemma rmatch_digits (s : string) :
  rmatch (Plus (Chr is_digit)) s Some = match_digits s.
Proof.
  destruct s as [|c t]; [reflexivity|].
  change (rmatch (Plus (Chr is_digit)) (String c t) Some)
    with (if is_digit c then rmatch (Star (Chr is_digit)) t Some else None).
  unfold match_digits. now rewrite star_digits_Some.
Qed.

Lemma rmatch_dot_digits (s : string) :
  rmatch (Seq (Chr (chr_in ".")) (Plus (Chr is_digit))) s Some
  = match_dot_digits s.
Proof.
  destruct s as [|c t]; [reflexivity|].
  change (rmatch (Seq (Chr (chr_in ".")) (Plus (Chr is_digit)))
            (String c t) Some)
    with (if chr_in "." c then rmatch (Plus (Chr is_digit)) t Some
          else None).
  unfold match_dot_digits. now rewrite rmatch_digits.
Qed.

Lemma rmatch_fraction (s : string) :
  rmatch (Seq (Star (Chr is_digit))
            (Seq (Chr (chr_in ".")) (Plus (Chr is_digit)))) s Some
  = match_fraction s.
Proof.
  change (rmatch (Star (Chr is_digit)) s
            (fun s' => rmatch (Seq (Chr (chr_in ".")) (Plus (Chr is_digit)))
                         s' Some) = match_fraction s).
  rewrite star_digits_rejecting.
  - apply rmatch_dot_digits.
  - intros c t Hc. rewrite rmatch_dot_digits. unfold match_dot_digits.
    now rewrite (proj2 (digit_not_sign_or_dot c Hc)).
Qed.

Lemma rmatch_number_pattern (s : string) :
  rmatch number_pattern s Some = match_number s.
Proof.
  change (rmatch number_pattern s Some)
    with (match
            match rmatch (Chr (chr_in "-+")) s
                    (fun s' => rmatch (Seq (Star (Chr is_digit))
                                 (Seq (Chr (chr_in "."))
                                    (Plus (Chr is_digit)))) s' Some) with
            | Some x => Some x
            | None => rmatch (Seq (Star (Chr is_digit))
                        (Seq (Chr (chr_in ".")) (Plus (Chr is_digit))))
                        s Some
            end with
          | Some x => Some x
          | None => rmatch (Plus (Chr is_digit)) s Some
          end).
  rewrite rmatch_fraction, rmatch_digits.
  unfold match_number, match_signed_fraction.
  destruct s as [|c t]; [reflexivity|].
  change (rmatch (Chr (chr_in "-+")) (String c t) _)
    with (if chr_in "-+" c
          then rmatch (Seq (Star (Chr is_digit))
                 (Seq (Chr (chr_in ".")) (Plus (Chr is_digit)))) t Some
          else None).
  now rewrite rmatch_fraction.
Qed.


Lemma take_skip_digits (s : string) :
  s = (take_digits s ++ skip_digits s)%string.
Proof.
  induction s as [|c t IH]; [reflexivity|]. simpl.
  destruct (is_digit c); [|reflexivity].
  change (String c t = String c (take_digits t ++ skip_digits t)%string).
  f_equal. exact IH.
Qed.

Lemma all_digits_take (s : string) : all_digits (take_digits s) = true.
Proof.
  induction s as [|c t IH]; [reflexivity|]. simpl.
  destruct (is_digit c) eqn:Hc; simpl; [now rewrite Hc, IH | reflexivity].
Qed.

Lemma skip_digits_all (s : string) :
  all_digits s = true -> skip_digits s = "".
Proof.
  induction s as [|c t IH]; [reflexivity|]. simpl. intros H.
  apply andb_prop in H as [Hc Ht]. rewrite Hc. now apply IH.
Qed.

Lemma append_cons (c : ascii) (a b : string) :
  (String c a ++ b)%string = String c (a ++ b)%string.
Proof. reflexivity. Qed.

Lemma append_nil (b : string) : ("" ++ b)%string = b.
Proof. reflexivity. Qed.

Lemma skip_digits_app (ds rest : string) (c : ascii) :
  all_digits ds = true -> is_digit c = false ->
  skip_digits (ds ++ String c rest) = String c rest.
Proof.
  intros Hd Hc. induction ds as [|d ds IH].
  - rewrite append_nil. simpl. now rewrite Hc.
  - simpl in Hd. apply andb_prop in Hd as [Hd1 Hd2].
    rewrite append_cons. simpl. rewrite Hd1. now apply IH.
Qed.

Lemma has_digit_skip (s : string) :
  has_digit (skip_digits s) = true -> has_digit s = true.
Proof.
  induction s as [|c t IH]; [easy|]. simpl.
  destruct (is_digit c) eqn:Hc; simpl; [easy|]. now rewrite Hc.
Qed.

Lemma append_assoc (a b c : string) :
  ((a ++ b) ++ c = a ++ b ++ c)%string.
Proof.
  induction a as [|x a IH]; [reflexivity|].
  rewrite !append_cons. now rewrite IH.
Qed.

Lemma append_length (a b : string) :
  String.length (a ++ b) = (String.length a + String.length b)%nat.
Proof.
  induction a as [|x a IH]; [reflexivity|].
  rewrite append_cons. simpl. now rewrite IH.
Qed.

Lemma substring_prefix (txt rest : string) :
  String.substring 0
    (String.length (txt ++ rest) - String.length rest) (txt ++ rest)
  = txt.
Proof.
  rewrite append_length.
  replace (_ + _ - _)%nat with (String.length txt) by lia.
  induction txt as [|c t IH].
  - rewrite append_nil. destruct rest; reflexivity.
  - rewrite append_cons. simpl. now rewrite IH.
Qed.

Lemma dot_is_dot (c : ascii) : chr_in "." c = true -> c = "."%char.
Proof.
  destruct c as [[] [] [] [] [] [] [] []]; vm_compute; intros H;
    (discriminate H || reflexivity).
Qed.

Lemma sign_is_sign (c : ascii) :
  chr_in "-+" c = true -> c = "-"%char \/ c = "+"%char.
Proof.
  destruct c as [[] [] [] [] [] [] [] []]; vm_compute; intros H;
    (discriminate H || (left; reflexivity) || (right; reflexivity)).
Qed.

Lemma read_sign_other (c : ascii) (t : string) :
  chr_in "-+" c = false -> read_sign (String c t) = (false, String c t).
Proof.
  destruct c as [[] [] [] [] [] [] [] []]; vm_compute; intros H;
    (discriminate H || reflexivity).
Qed.

(** The texts the two alternatives match. *)
Lemma match_digits_shape (s rest : string) :
  match_digits s = Some rest ->
  exists d ds,
    s = (String d ds ++ rest)%string /\ all_digits (String d ds) = true.
Proof.
  destruct s as [|d t]; [discriminate|]. simpl.
  destruct (is_digit d) eqn:Hd; [|discriminate].
  intros H. injection H as <-. exists d, (take_digits t).
  split.
  - change (String d t = String d (take_digits t ++ skip_digits t)%string).
    f_equal. apply take_skip_digits.
  - simpl. now rewrite Hd, all_digits_take.
Qed.

Lemma match_fraction_shape (s rest : string) :
  match_fraction s = Some rest ->
  exists ds fs,
    s = (ds ++ String "." fs ++ rest)%string /\
    all_digits ds = true /\ fs <> "" /\ all_digits fs = true.
Proof.
  unfold match_fraction, match_dot_digits.
  destruct (skip_digits s) as [|c t] eqn:Hs; [discriminate|].
  destruct (chr_in "." c) eqn:Hc; [|discriminate].
  apply dot_is_dot in Hc. subst c. intros H.
  apply match_digits_shape in H as [d [fs [Ht Hfs]]].
  exists (take_digits s), (String d fs).
  split; [|split; [apply all_digits_take | split; [discriminate | exact Hfs]]].
  rewrite (take_skip_digits s) at 1. now rewrite Hs, Ht.
Qed.

(** ** The conversion to a number of what the pattern matches *)

Lemma float_of_string_body (s : string) :
  float_of_string s = float_body (read_sign s).1 (read_sign s).2.
Proof. unfold float_of_string, float_body. now destruct (read_sign s). Qed.

Lemma read_digits_all (ds : string) (acc : Z) (n : nat) :
  all_digits ds = true ->
  exists acc', read_digits acc n ds = (acc', (n + String.length ds)%nat, "").
Proof.
  revert acc n. induction ds as [|d ds IH]; intros acc n Hd; simpl.
  - exists acc. now rewrite Nat.add_0_r.
  - simpl in Hd. apply andb_prop in Hd as [Hd1 Hd2]. rewrite Hd1.
    destruct (IH (acc * 10 + digit_val d) (S n) Hd2) as [acc' ->].
    exists acc'. do 2 f_equal. lia.
Qed.

Lemma read_digits_stop (ds rest : string) (c : ascii) (acc : Z) (n : nat) :
  all_digits ds = true -> is_digit c = false ->
  exists acc',
    read_digits acc n (ds ++ String c rest)
    = (acc', (n + String.length ds)%nat, String c rest).
Proof.
  revert acc n. induction ds as [|d ds IH]; intros acc n Hd Hc.
  - rewrite append_nil. simpl. rewrite Hc. exists acc. now rewrite Nat.add_0_r.
  - simpl in Hd. apply andb_prop in Hd as [Hd1 Hd2].
    rewrite append_cons. simpl. rewrite Hd1.
    destruct (IH (acc * 10 + digit_val d) (S n) Hd2 Hc) as [acc' ->].
    exists acc'. do 2 f_equal. lia.
Qed.

Lemma float_body_digits (neg : bool) (ds : string) :
  ds <> "" -> all_digits ds = true -> is_Some (float_body neg ds).
Proof.
  intros Hne Hd. unfold float_body.
  destruct (read_digits_all ds 0 0 Hd) as [ip ->].
  destruct ds as [|d ds]; [contradiction|]. simpl. eauto.
Qed.

Lemma float_body_fraction (neg : bool) (ds fs : string) :
  all_digits ds = true -> fs <> "" -> all_digits fs = true ->
  is_Some (float_body neg (ds ++ String "." fs)).
Proof.
  intros Hd Hne Hf. unfold float_body.
  destruct (read_digits_stop ds fs "." 0 0 Hd eq_refl) as [ip ->].
  destruct (read_digits_all fs 0 0 Hf) as [fp ->].
  destruct fs as [|f fs]; [contradiction|].
  replace (0 <? _)%nat with true; [eauto|].
  symmetry. apply Nat.ltb_lt. simpl. lia.
Qed.

Lemma read_sign_digits (s : string) :
  (exists c t, s = String c t /\ chr_in "-+" c = false) ->
  read_sign s = (false, s).
Proof. intros [c [t [-> Hc]]]. now apply read_sign_other. Qed.

(** Whatever the pattern matches at the head of a text is a decimal
    literal that [float] converts. *)
Lemma match_number_float (s rest : string) :
  match_number s = Some rest ->
  exists txt, s = (txt ++ rest)%string /\ is_Some (float_of_string txt).
Proof.
  unfold match_number, match_signed_fraction. intros H.
  assert (Hfrac : forall u, match_fraction u = Some rest ->
            exists txt, u = (txt ++ rest)%string /\
              (forall neg, is_Some (float_body neg txt)) /\
              exists c t, txt = String c t /\ chr_in "-+" c = false).
  { intros u Hu. apply match_fraction_shape in Hu
      as [ds [fs [-> [Hd [Hne Hf]]]]].
    exists (ds ++ String "." fs)%string. split; [|split].
    - now rewrite append_assoc, append_cons.
    - intros neg. now apply float_body_fraction.
    - destruct ds as [|d ds].
      + exists "."%char, fs. split; reflexivity.
      + exists d, (ds ++ String "." fs)%string. split; [reflexivity|].
        simpl in Hd. apply andb_prop in Hd as [Hd _].
        now apply digit_not_sign_or_dot. }
  destruct s as [|c t].
  - destruct (match_fraction "") eqn:E; [|discriminate].
    inversion H; subst. destruct (Hfrac "" E) as [txt [Htxt [Hb Hs]]].
    exists txt. split; [exact Htxt|].
    rewrite float_of_string_body, (read_sign_digits txt Hs). apply Hb.
  - destruct (chr_in "-+" c) eqn:Hc.
    + destruct (match_fraction t) as [r|] eqn:E.
      * inversion H; subst r.
        destruct (Hfrac t E) as [txt [Htxt [Hb _]]].
        exists (String c txt). split; [now rewrite append_cons, <- Htxt|].
        rewrite float_of_string_body.
        apply sign_is_sign in Hc as [-> | ->]; simpl; apply Hb.
      * destruct (match_fraction (String c t)) as [r|] eqn:E2.
        -- inversion H; subst r.
           destruct (Hfrac _ E2) as [txt [Htxt [Hb Hs]]].
           exists txt. split; [exact Htxt|].
           rewrite float_of_string_body, (read_sign_digits txt Hs). apply Hb.
        -- apply match_digits_shape in H as [d [ds [Hs Hd]]].
           exists (String d ds). split; [exact Hs|].
           rewrite float_of_string_body, read_sign_other.
           ++ apply float_body_digits; [discriminate | exact Hd].
           ++ simpl in Hd. apply andb_prop in Hd as [Hd _].
              now apply digit_not_sign_or_dot.
    + destruct (match_fraction (String c t)) as [r|] eqn:E2.
      * inversion H; subst r.
        destruct (Hfrac _ E2) as [txt [Htxt [Hb Hs]]].
        exists txt. split; [exact Htxt|].
        rewrite float_of_string_body, (read_sign_digits txt Hs). apply Hb.
      * apply match_digits_shape in H as [d [ds [Hs Hd]]].
        exists (String d ds). split; [exact Hs|].
        rewrite float_of_string_body, read_sign_other.
        -- apply float_body_digits; [discriminate | exact Hd].
        -- simpl in Hd. apply andb_prop in Hd as [Hd _].
           now apply digit_not_sign_or_dot.
Qed.

Lemma re_search_unfold (s : string) :
  re_search number_pattern s =
  match match_number s with
  | Some rest =>
      Some (String.substring 0 (String.length s - String.length rest) s)
  | None =>
      match s with
      | EmptyString => None
      | String _ s' => re_search number_pattern s'
      end
  end.
Proof. rewrite <- rmatch_number_pattern. destruct s; reflexivity. Qed.

Lemma re_search_float (s txt : string) :
  re_search number_pattern s = Some txt -> is_Some (float_of_string txt).
Proof.
  induction s as [|c t IH]; rewrite re_search_unfold.
  - remember "" as u eqn:Hu.
    destruct (match_number u) as [rest|] eqn:E; [|now subst u].
    clear Hu. apply match_number_float in E as [txt' [Hs Hf]]. intros H.
    injection H as <-. now rewrite Hs, substring_prefix.
  - remember (String c t) as u eqn:Hu.
    destruct (match_number u) as [rest|] eqn:E; [|subst u; exact IH].
    clear Hu. apply match_number_float in E as [txt' [Hs Hf]]. intros H.
    injection H as <-. now rewrite Hs, substring_prefix.
Qed.

Lemma match_number_has_digit (s rest : string) :
  match_number s = Some rest -> has_digit s = true.
Proof.
  assert (Hd : forall u r, match_digits u = Some r -> has_digit u = true).
  { intros [|d u] r; simpl; [discriminate|].
    destruct (is_digit d); [reflexivity | discriminate]. }
  assert (Hf : forall u r, match_fraction u = Some r -> has_digit u = true).
  { intros u r Hu. apply has_digit_skip. unfold match_fraction in Hu.
    destruct (skip_digits u) as [|c t]; [discriminate|]. simpl in Hu.
    destruct (chr_in "." c); [|discriminate].
    simpl. rewrite (Hd t r Hu). apply orb_true_r. }
  unfold match_number, match_signed_fraction. intros H.
  destruct (match_fraction s) as [r|] eqn:E; [now apply (Hf s r)|].
  destruct s as [|c t]; [discriminate|].
  destruct (chr_in "-+" c); [|now apply (Hd _ rest)].
  destruct (match_fraction t) as [r|] eqn:E2; [|now apply (Hd _ rest)].
  simpl. rewrite (Hf t r E2). apply orb_true_r.
Qed.

Lemma re_search_None (s : string) :
  re_search number_pattern s = None <-> has_digit s = false.
Proof.
  induction s as [|c t IH]; rewrite re_search_unfold.
  - split; [reflexivity|]. intros _.
    destruct (match_number "") eqn:E; [|reflexivity].
    apply match_number_has_digit in E. discriminate.
  - remember (String c t) as u eqn:Hu.
    destruct (match_number u) as [rest|] eqn:E.
    + apply match_number_has_digit in E. rewrite E.
      split; discriminate.
    + subst u. rewrite IH. simpl.
      destruct (is_digit c) eqn:Hc; [|reflexivity].
      unfold match_number in E. simpl in E. rewrite Hc in E.
      destruct (match_signed_fraction (String c t)); discriminate.
Qed.

Lemma extract_value_Ok (c : Cell) : exists v, extract_value c = Ok v.
Proof.
  unfold extract_value.
  destruct (re_search number_pattern (py_str c)) as [txt|] eqn:E; [|eauto].
  apply re_search_float in E as [q ->]. eauto.
Qed.

Lemma mapM_total {A B} (f : A -> Result B) (l : list A) :
  (forall a, a ∈ l -> exists b, f a = Ok b) ->
  exists bs, mapM f l = Ok bs.
Proof.
  induction l as [|a l IH]; intros H; simpl; [eauto|].
  destruct (H a) as [b ->]; [left|].
  destruct IH as [bs ->]; [intros a' Ha'; apply H; now right|].
  simpl. eauto.
Qed.

(** ** extract_lod_flags *)

(** X7: on a frame with at least one row [extract_lod_flags] never
    raises: what the pattern finds in a cell is always a text that the
    conversion to float accepts.  It gives one row for each row of its
    input, in the same order, with the same station, date and method and
    with the flag of the row's cell. *)
Theorem extract_lod_flags_never_raises (df : list (Melted Z)) :
  df <> [] ->
  exists out,
    extract_lod_flags df = Ok out /\
    Forall2
      (fun r o =>
         station_id o = m_station_id r /\ date o = m_date r /\
         method_id o = Some (m_method_id r) /\
         flag1 o = lod_flag (m_value r) /\
         extract_value (m_value r) = Ok (value o))
      df out.
Proof.
  intros _. unfold extract_lod_flags.
  destruct (mapM_total extract_row df) as [out Hout].
  { intros r _. unfold extract_row.
    destruct (extract_value_Ok (m_value r)) as [v ->]. simpl. eauto. }
  exists out. split; [exact Hout|].
  apply mapM_Ok in Hout. eapply Forall2_impl; [exact Hout|].
  intros r o Hr. unfold extract_row in Hr.
  destruct (extract_value (m_value r)) as [v|e]; simpl in Hr; [|discriminate].
  inversion Hr; subst o. simpl. auto.
Qed.

Lemma extract_lod_flags_never_raises_witness :
  exists out,
    extract_lod_flags [cell_row "<0.5"; cell_row "n.d."] = Ok out /\
    Forall2
      (fun r o =>
         station_id o = m_station_id r /\ date o = m_date r /\
         method_id o = Some (m_method_id r) /\
         flag1 o = lod_flag (m_value r) /\
         extract_value (m_value r) = Ok (value o))
      [cell_row "<0.5"; cell_row "n.d."] out.
Proof. apply extract_lod_flags_never_raises. discriminate. Defined.

(** X8: for a cell whose text is an ASCII text, the value is missing
    (NaN) exactly when the text has no decimal digit; a cell with a digit
    always has a value. *)
Theorem extract_value_missing_iff_no_digit (c : Cell) :
  ascii_text (py_str c) = true ->
  (extract_value c = Ok None <-> has_digit (py_str c) = false).
Proof.
  intros _. rewrite <- re_search_None. unfold extract_value.
  destruct (re_search number_pattern (py_str c)) as [txt|] eqn:E.
  - apply re_search_float in E as [q ->]. split; discriminate.
  - split; reflexivity.
Qed.

Lemma extract_value_missing_iff_no_digit_witness :
  extract_value (Some "n.d.") = Ok None.
Proof.
  apply (extract_value_missing_iff_no_digit (Some "n.d.")); reflexivity.
Defined.

(** X9: a leading character that is no digit, no sign and no point, such
    as the qualifier "<" or ">", does not change the value extracted. *)
Theorem extract_value_skips_qualifier (c : ascii) (t : string) :
  is_digit c = false -> chr_in "-+" c = false -> chr_in "." c = false ->
  extract_value (Some (String c t)) = extract_value (Some t).
Proof.
  intros Hd Hs Hp. unfold extract_value, py_str.
  rewrite (re_search_unfold (String c t)).
  assert (E : match_number (String c t) = None).
  { unfold match_number, match_signed_fraction, match_fraction. simpl.
    rewrite Hs, Hd. simpl. now rewrite Hp. }
  now rewrite E.
Qed.

Lemma extract_value_skips_qualifier_witness :
  extract_value (Some "<0.5") = extract_value (Some "0.5") /\
  extract_value (Some ">10") = extract_value (Some "10").
Proof.
  split.
  - apply (extract_value_skips_qualifier "<" "0.5"); reflexivity.
  - apply (extract_value_skips_qualifier ">" "10"); reflexivity.
Defined.

Lemma float_body_neg (u : string) :
  float_body true u = option_map Qopp (float_body false u).
Proof.
  unfold float_body. destruct (read_digits 0 0 u) as [[ip ni] s2].
  destruct s2 as [|c s3].
  - destruct (0 <? ni)%nat; simpl; [now rewrite Qred_opp | reflexivity].
  - destruct c as [[] [] [] [] [] [] [] []]; try reflexivity.
    destruct (read_digits 0 0 s3) as [[fp nf] s4].
    destruct s4; [|reflexivity].
    destruct (0 <? ni + nf)%nat; simpl; [now rewrite Qred_opp | reflexivity].
Qed.

Lemma match_fraction_whole (ds fs : string) :
  all_digits ds = true -> fs <> "" -> all_digits fs = true ->
  match_fraction (ds ++ String "." fs) = Some "".
Proof.
  intros Hd Hne Hf. unfold match_fraction.
  rewrite skip_digits_app by (exact Hd || reflexivity).
  destruct fs as [|f fs]; [contradiction|]. simpl in Hf.
  apply andb_prop in Hf as [Hf1 Hf2].
  simpl. rewrite Hf1. now rewrite skip_digits_all.
Qed.

Lemma head_of_fraction (ds fs : string) :
  all_digits ds = true ->
  exists c t, (ds ++ String "." fs)%string = String c t
              /\ chr_in "-+" c = false.
Proof.
  intros Hd. destruct ds as [|d ds].
  - exists "."%char, fs. split; reflexivity.
  - exists d, (ds ++ String "." fs)%string. split; [reflexivity|].
    simpl in Hd. apply andb_prop in Hd as [Hd _].
    now apply digit_not_sign_or_dot.
Qed.

Lemma re_search_fraction (ds fs : string) :
  all_digits ds = true -> fs <> "" -> all_digits fs = true ->
  re_search number_pattern (ds ++ String "." fs)
  = Some (ds ++ String "." fs)%string /\
  forall c, chr_in "-+" c = true ->
    re_search number_pattern (String c (ds ++ String "." fs))
    = Some (String c (ds ++ String "." fs)).
Proof.
  intros Hd Hne Hf.
  pose proof (match_fraction_whole ds fs Hd Hne Hf) as Hm.
  split.
  - rewrite re_search_unfold.
    assert (E : match_number (ds ++ String "." fs) = Some "").
    { unfold match_number, match_signed_fraction. rewrite Hm.
      destruct (head_of_fraction ds fs Hd) as [c [t [-> Hc]]].
      now rewrite Hc. }
    rewrite E. change (String.length "") with O.
    now rewrite Nat.sub_0_r, substring_all.
  - intros c Hc. rewrite re_search_unfold.
    assert (E : match_number (String c (ds ++ String "." fs)) = Some "").
    { unfold match_number, match_signed_fraction. now rewrite Hc, Hm. }
    rewrite E. change (String.length "") with O.
    now rewrite Nat.sub_0_r, substring_all.
Qed.

(** X10: a number with a fractional part is extracted whole and keeps its
    sign: the value of "-" followed by digits, a point and digits is the
    opposite of the value of the unsigned text, and "+" changes nothing. *)
Theorem extract_value_fraction_keeps_sign (ds fs : string) :
  all_digits ds = true -> fs <> "" -> all_digits fs = true ->
  exists q,
    extract_value (Some (ds ++ String "." fs)%string) = Ok (Some q) /\
    extract_value (Some (String "-" (ds ++ String "." fs))) = Ok (Some (- q)%Q)
    /\
    extract_value (Some (String "+" (ds ++ String "." fs))) = Ok (Some q).
Proof.
  intros Hd Hne Hf.
  destruct (re_search_fraction ds fs Hd Hne Hf) as [H0 Hs].
  destruct (float_body_fraction false ds fs Hd Hne Hf) as [q Hq].
  exists q. unfold extract_value, py_str.
  rewrite H0, (Hs "-"%char eq_refl), (Hs "+"%char eq_refl).
  rewrite !float_of_string_body.
  rewrite (read_sign_digits _ (head_of_fraction ds fs Hd)).
  change (read_sign (String "-" (ds ++ String "." fs)))
    with (true, (ds ++ String "." fs)%string).
  change (read_sign (String "+" (ds ++ String "." fs)))
    with (false, (ds ++ String "." fs)%string).
  simpl fst. simpl snd. rewrite float_body_neg, Hq. simpl. auto.
Qed.

Lemma extract_value_fraction_keeps_sign_witness :
  exists q,
    extract_value (Some "12.50") = Ok (Some q) /\
    extract_value (Some "-12.50") = Ok (Some (- q)%Q) /\
    extract_value (Some "+12.50") = Ok (Some q).
Proof.
  apply (extract_value_fraction_keeps_sign "12" "50");
    [reflexivity | discriminate | reflexivity].
Defined.

(** ** merge_multi_header *)

Lemma replace_cons_other (c : ascii) (s : string) :
  ~ (c = "_"%char /\ exists t, s = String "-" t) ->
  str_replace_underscore_dash (String c s)
  = String c (str_replace_underscore_dash s).
Proof.
  intros H. destruct (Ascii.ascii_dec c "_") as [->|Hc].
  - destruct s as [|d t]; [reflexivity|].
    destruct (Ascii.ascii_dec d "-") as [->|Hd]; [exfalso; eauto|].
    destruct d as [[] [] [] [] [] [] [] []]; try reflexivity.
    congruence.
  - destruct c as [[] [] [] [] [] [] [] []]; try reflexivity.
    congruence.
Qed.

Lemma prefix_underscore_dash (c : ascii) (s : string) :
  String.prefix "_-" (String c s) = false ->
  ~ (c = "_"%char /\ exists t, s = String "-" t).
Proof.
  intros H [-> [t ->]].
  assert (String.prefix "_-" (String "_" (String "-" t)) = true)
    by (apply prefix_spec; exists t; reflexivity).
  congruence.
Qed.

Lemma str_in_cons_false (n : string) (c : ascii) (s : string) :
  str_in n (String c s) = false ->
  String.prefix n (String c s) = false /\ str_in n s = false.
Proof.
  rewrite str_in_unfold. destruct (String.prefix n (String c s)); [easy|].
  auto.
Qed.

Lemma replace_without_marker (s : string) :
  str_in "_-" s = false -> str_replace_underscore_dash s = s.
Proof.
  induction s as [|c s IH]; [reflexivity|]. intros H.
  apply str_in_cons_false in H as [Hp Hs].
  rewrite replace_cons_other by now apply prefix_underscore_dash.
  now rewrite IH.
Qed.

Lemma replace_after_name (name s : string) :
  str_in "_-" name = false ->
  str_replace_underscore_dash (name ++ String "_" (String "-" s))
  = (name ++ str_replace_underscore_dash s)%string.
Proof.
  induction name as [|c n IH]; intros H; [reflexivity|].
  apply str_in_cons_false in H as [Hp Hs].
  rewrite !append_cons, replace_cons_other; [now rewrite IH|].
  intros [-> [t Ht]]. destruct n as [|d n].
  - rewrite append_nil in Ht. discriminate.
  - rewrite append_cons in Ht. inversion Ht; subst d.
    assert (String.prefix "_-" (String "_" (String "-" n)) = true)
      by (apply prefix_spec; exists n; reflexivity).
    congruence.
Qed.

Lemma append_nil_r (s : string) : (s ++ "")%string = s.
Proof.
  induction s as [|c s IH]; [reflexivity|]. now rewrite append_cons, IH.
Qed.

(** X1: for a parameter whose name holds no "_-", a column without a unit
    (unit "-") gets the bare name of the parameter as its header, and a
    column with a unit gets name, underscore, unit, as long as no "_-"
    arises in them. *)
Theorem merge_multi_header_spec (name unit : string) :
  str_in "_-" name = false ->
  merge_multi_header (name, "-") = name /\
  (str_in "_-" (name ++ "_" ++ unit) = false ->
   merge_multi_header (name, unit) = (name ++ "_" ++ unit)%string).
Proof.
  intros H. unfold merge_multi_header. simpl fst. simpl snd. split.
  - change (name ++ "_" ++ "-")%string
      with (name ++ String "_" (String "-" ""))%string.
    rewrite (replace_after_name name "" H). apply append_nil_r.
  - apply replace_without_marker.
Qed.

Lemma merge_multi_header_spec_witness :
  merge_multi_header ("pH", "-") = "pH" /\
  merge_multi_header ("Ca", "mg/L") = "Ca_mg/L".
Proof.
  split.
  - apply (merge_multi_header_spec "pH" "-"). reflexivity.
  - apply (merge_multi_header_spec "Ca" "mg/L"); reflexivity.
Defined.

(** ** map_method_ids *)

Lemma dict_get_elem {V} (d : list (string * V)) (k : string) (v : V) :
  dict_get d k = Some v -> (k, v) ∈ d.
Proof.
  induction d as [|[k' v'] d IH]; simpl; [discriminate|].
  destruct (String.eqb_spec k' k) as [->|Hne].
  - intros H. inversion H. left.
  - intros H. right. auto.
Qed.

Lemma meth_map_values_fixed :
  Forall (fun kv => rename_label meth_map kv.2 = kv.2) meth_map.
Proof. unfold meth_map. repeat (constructor; [reflexivity|]). constructor. Qed.

Lemma rename_label_idempotent (l : Label) :
  rename_label meth_map (rename_label meth_map l) = rename_label meth_map l.
Proof.
  destruct l as [z|s]; [reflexivity|].
  unfold rename_label at 2 3.
  destruct (dict_get meth_map s) as [v|] eqn:E.
  - apply dict_get_elem in E.
    pose proof meth_map_values_fixed as H. rewrite Forall_forall in H.
    apply (H (s, v) E).
  - unfold rename_label. now rewrite E.
Qed.

(** X2: renaming is idempotent: on a frame whose columns are renamed
    already, [map_method_ids] changes nothing (no method id and neither
    "code" nor "date" is a key of the method map). *)
Theorem map_method_ids_idempotent {I} (df : Wide I) :
  map_method_ids (map_method_ids df) = map_method_ids df.
Proof.
  unfold map_method_ids. simpl. f_equal. rewrite map_map.
  apply map_ext. intros l. apply rename_label_idempotent.
Qed.





(** ** map_station_ids *)

Lemma map_station_ids_Ok (df : Wide (option string)) (stn_df : Stations) :
  (forall r, r ∈ w_rows df -> has_match stn_df (w_id r)) ->
  map_station_ids df stn_df
  = Ok (mkWide (w_params df) (flat_map (merge_station stn_df) (w_rows df))).
Proof.
  intros H. unfold map_station_ids.
  assert (E : count_na w_id (flat_map (merge_station stn_df) (w_rows df))
              = O).
  { apply count_na_zero. intros r' Hr'.
    apply flat_map_elem in Hr' as [r [Hr Hr']].
    now apply (merge_station_matched stn_df r (H r Hr)). }
  now rewrite E.
Qed.

Lemma map_station_ids_Raise (df : Wide (option string))
  (stn_df : Stations) :
  (exists r, r ∈ w_rows df /\ ~ has_match stn_df (w_id r)) ->
  map_station_ids df stn_df = Raise (AssertionError unmatched_msg).
Proof.
  intros [r [Hr Hm]]. unfold map_station_ids.
  destruct (Nat.eqb_spec
              (count_na w_id (flat_map (merge_station stn_df) (w_rows df)))
              0) as [E|_]; [|reflexivity].
  exfalso. rewrite count_na_zero in E.
  destruct (E (mkWideRow None (w_date r) (w_cells r))) as [x Hx];
    [|discriminate].
  apply flat_map_elem. exists r. split; [exact Hr|].
  rewrite merge_station_unmatched by exact Hm. left.
Qed.

Lemma map_station_ids_Ok_inv (df : Wide (option string))
  (stn_df : Stations) (out : Wide (option Z)) :
  map_station_ids df stn_df = Ok out ->
  out = mkWide (w_params df) (flat_map (merge_station stn_df) (w_rows df))
  /\ forall r, r ∈ w_rows df -> has_match stn_df (w_id r).
Proof.
  unfold map_station_ids.
  destruct (Nat.eqb_spec
              (count_na w_id (flat_map (merge_station stn_df) (w_rows df)))
              0) as [E|_]; [|discriminate].
  intros H. inversion H. split; [reflexivity|].
  intros r Hr. rewrite count_na_zero in E.
  destruct (filter (fun st => code_matches (w_id r) st = true) stn_df)
    as [|st l] eqn:Hf.
  - destruct (E (mkWideRow None (w_date r) (w_cells r))) as [x Hx];
      [|discriminate].
    apply flat_map_elem. exists r. split; [exact Hr|].
    unfold merge_station. rewrite Hf. left.
  - assert (Hst : st ∈ filter (fun st => code_matches (w_id r) st = true)
                         stn_df) by (rewrite Hf; left).
    apply list_elem_of_filter in Hst as [Hm Hin].
    apply code_matches_spec in Hm. destruct st as [code id].
    exists code, id. eauto.
Qed.

Lemma filter_unique_code (stn_df : Stations) (code : string) (id : Z) :
  NoDup (map fst stn_df) -> (code, id) ∈ stn_df ->
  filter (fun st => code_matches (Some code) st = true) stn_df
  = [(code, id)].
Proof.
  unfold Stations in *.
  induction stn_df as [|[c i] l IH]; intros Hnd Hin; [inversion Hin|].
  simpl in Hnd. apply NoDup_cons in Hnd as [Hc Hnd].
  assert (Hout : forall i', (c, i') ∈ l -> False).
  { intros i' Hi'. apply Hc. rewrite map_fmap. apply list_elem_of_fmap.
    exists (c, i'). split; [reflexivity | exact Hi']. }
  apply elem_of_cons in Hin as [Heq|Hin].
  - inversion Heq; subst c i.
    rewrite filter_cons_True by now apply code_matches_spec.
    f_equal. apply elem_of_nil_inv. intros [c' i'] Hx.
    apply list_elem_of_filter in Hx as [Hm Hx].
    apply code_matches_spec in Hm. inversion Hm; subst c'. eauto.
  - rewrite filter_cons_False; [now apply IH|].
    intros Hm. apply code_matches_spec in Hm. inversion Hm; subst c. eauto.
Qed.

(** X4: when no station code is twice in the reference table, a mapping
    that succeeds gives exactly one row for each row of the template, in
    the same order, with the same date and cells and with the station_id
    the table has for the row's code; the parameter columns are kept. *)
Theorem map_station_ids_one_row_per_row (df : Wide (option string))
  (stn_df : Stations) (out : Wide (option Z)) :
  NoDup (map fst stn_df) ->
  map_station_ids df stn_df = Ok out ->
  w_params out = w_params df /\
  Forall2
    (fun r r' =>
       w_date r' = w_date r /\ w_cells r' = w_cells r /\
       exists code id,
         w_id r = Some code /\ (code, id) ∈ stn_df /\ w_id r' = Some id)
    (w_rows df) (w_rows out).
Proof.
  intros Hnd H. apply map_station_ids_Ok_inv in H as [-> Hm].
  split; [reflexivity|]. simpl.
  induction (w_rows df) as [|r rows IH]; simpl; [constructor|].
  destruct (Hm r) as [code [id [Hc Hin]]]; [left|].
  unfold merge_station at 1. rewrite Hc.
  rewrite (filter_unique_code stn_df code id Hnd Hin). simpl.
  constructor.
  - simpl. split; [reflexivity|]. split; [reflexivity|]. eauto.
  - apply IH. intros r' Hr'. apply Hm. now right.
Qed.

Lemma map_station_ids_one_row_per_row_witness :
  w_params (mkWide [LStr "pH"]
              [mkWideRow (Some 1) (Some 18262) [Some "7.1"]])
  = w_params (template_1 "NO01") /\
  Forall2
    (fun r r' =>
       w_date r' = w_date r /\ w_cells r' = w_cells r /\
       exists code id,
         w_id r = Some code /\ (code, id) ∈ [("NO01", 1); ("NO02", 2)]
         /\ w_id r' = Some id)
    (w_rows (template_1 "NO01"))
    (w_rows (mkWide [LStr "pH"]
               [mkWideRow (Some 1) (Some 18262) [Some "7.1"]])).
Proof.
  apply (map_station_ids_one_row_per_row (template_1 "NO01")
           [("NO01", 1); ("NO02", 2)]).
  - apply (bool_decide_unpack _). vm_compute. exact I.
  - reflexivity.
Defined.


(** ** wide_to_long *)

Lemma mapM_elem {A B} (f : A -> Result B) (l : list A) (bs : list B)
  (b : B) :
  mapM f l = Ok bs -> (b ∈ bs <-> exists a, a ∈ l /\ f a = Ok b).
Proof.
  revert bs. induction l as [|a l IH]; simpl; intros bs H.
  - inversion H. split; [intros Hb; inversion Hb|].
    intros [a [Ha _]]. inversion Ha.
  - destruct (f a) as [b'|e] eqn:E; simpl in H; [|discriminate].
    destruct (mapM f l) as [bs'|e]; simpl in H; [|discriminate].
    inversion H; subst bs. rewrite elem_of_cons, (IH bs' eq_refl). split.
    + intros [->|[a' [Ha' Hf]]].
      * exists a. split; [left | exact E].
      * exists a'. split; [now right | exact Hf].
    + intros [a' [Ha' Hf]]. apply elem_of_cons in Ha' as [->|Ha'].
      * left. congruence.
      * right. eauto.
Qed.

Lemma wide_to_long_elem (df : Wide (option Z)) (out : list (Melted Z)) :
  wide_to_long df = Ok out ->
  forall o,
    o ∈ out <->
    exists j l r c z,
      w_params df !! j = Some l /\ r ∈ w_rows df /\
      nth j (w_cells r) None = Some c /\ int_of_label l = Ok z /\
      o = mkMelted (w_id r) (w_date r) z (Some c).
Proof.
  unfold wide_to_long. intros H o. rewrite (mapM_elem _ _ _ o H). split.
  - intros [a [Ha Hf]]. apply list_elem_of_filter in Ha as [Hv Ha].
    apply melt_elem in Ha as [j [l [r [Hl [Hr ->]]]]]. simpl in Hv.
    destruct (nth j (w_cells r) None) as [c|] eqn:Hc; [|discriminate].
    unfold astype_int in Hf. simpl in Hf.
    destruct (int_of_label l) as [z|e] eqn:Hz; simpl in Hf; [|discriminate].
    inversion Hf; subst o. exists j, l, r, c, z. rewrite Hc. auto.
  - intros [j [l [r [c [z [Hl [Hr [Hc [Hz ->]]]]]]]]].
    exists (mkMelted (w_id r) (w_date r) l (Some c)). split.
    + apply list_elem_of_filter. split; [reflexivity|].
      apply melt_elem. exists j, l, r. rewrite Hc. auto.
    + unfold astype_int. simpl. now rewrite Hz.
Qed.

(** X5: when [wide_to_long] succeeds, its observations are the cells of
    the wide frame that are not empty: each observation carries the
    station, the date and the text of such a cell and, as method_id, the
    integer of the cell's column label; and each such cell gives an
    observation. *)
Theorem wide_to_long_cells (df : Wide (option Z)) (out : list (Melted Z)) :
  wide_to_long df = Ok out ->
  forall o,
    o ∈ out <->
    exists j l r c z,
      w_params df !! j = Some l /\ r ∈ w_rows df /\
      nth j (w_cells r) None = Some c /\ int_of_label l = Ok z /\
      o = mkMelted (w_id r) (w_date r) z (Some c).
Proof. apply wide_to_long_elem. Qed.

Lemma wide_to_long_cells_witness :
  mkMelted (Some 1) (Some 18263) 10251 (Some "3")
  ∈ [mkMelted (Some 1) (Some 18262) 10268 (Some "7.1");
     mkMelted (Some 1) (Some 18263) 10268 (Some "7.3");
     mkMelted (Some 1) (Some 18263) 10251 (Some "3")].
Proof.
  apply (wide_to_long_cells
           (mkWide [LInt 10268; LInt 10251]
              [mkWideRow (Some 1) (Some 18262) [Some "7.1"; None];
               mkWideRow (Some 1) (Some 18263) [Some "7.3"; Some "3"]])).
  - reflexivity.
  - exists 1%nat, (LInt 10251),
      (mkWideRow (Some 1) (Some 18263) [Some "7.3"; Some "3"]), "3", 10251.
    split; [reflexivity|]. split; [right; left|]. auto.
Defined.

(** X6: when every parameter header of the template is a key of the
    method map with a method id, and every station code has a match in
    the reference table, the first three stages ([map_method_ids],
    [map_station_ids], [wide_to_long]) succeed. *)
Theorem reshape_succeeds (df : Wide (option string)) (stn_df : Stations) :
  (forall l, l ∈ w_params df ->
     exists s z, l = LStr s /\ dict_get meth_map s = Some (LInt z)) ->
  (forall r, r ∈ w_rows df -> has_match stn_df (w_id r)) ->
  exists out, reshape df stn_df = Ok out.
Proof.
  intros Hp Hr. unfold reshape.
  rewrite (map_station_ids_Ok (map_method_ids df) stn_df Hr). simpl.
  unfold wide_to_long. apply mapM_total. intros a Ha.
  apply list_elem_of_filter in Ha as [_ Ha].
  apply melt_elem in Ha as [j [l [r [Hl [_ ->]]]]]. simpl in Hl.
  apply list_elem_of_lookup_2 in Hl. rewrite map_fmap in Hl.
  apply list_elem_of_fmap in Hl as [l0 [-> Hl0]].
  destruct (Hp l0 Hl0) as [s [z [-> Hs]]].
  assert (E : rename_label meth_map (LStr s) = LInt z)
    by (unfold rename_label; now rewrite Hs).
  unfold astype_int. cbn [m_method_id]. rewrite E. simpl. eauto.
Qed.

Lemma reshape_succeeds_witness :
  exists out, reshape (template_2 "Ca_mg/L" None (Some "3")) [("NO01", 1)]
              = Ok out.
Proof.
  apply reshape_succeeds.
  - intros l Hl. apply elem_of_cons in Hl as [->|Hl].
    + exists "pH", 10268. split; reflexivity.
    + apply list_elem_of_singleton in Hl. subst l.
      exists "Ca_mg/L", 10251. split; reflexivity.
  - intros r Hr. exists "NO01", 1.
    apply elem_of_cons in Hr as [->|Hr]; [split; [reflexivity | left]|].
    apply list_elem_of_singleton in Hr. subst r.
    split; [reflexivity | left].
Defined.

(** ** remove_duplicates, further *)

(** X11: [remove_duplicates] accepts the policies "mean" and "drop" and
    no other: with any other policy it raises an [AssertionError],
    whatever the table. *)
Theorem remove_duplicates_policy (df : list LongObs) (how : string) :
  ((exists out, remove_duplicates df how = Ok out)
   <-> how = "mean" \/ how = "drop") /\
  (how <> "mean" -> how <> "drop" ->
   remove_duplicates df how = Raise (AssertionError how_msg)).
Proof.
  unfold remove_duplicates.
  destruct (String.eqb_spec how "mean") as [->|Hm]; simpl.
  - split; [|congruence]. split; eauto.
  - destruct (String.eqb_spec how "drop") as [->|Hd]; simpl.
    + split; [|congruence]. split; eauto.
    + split; [|reflexivity]. split.
      * intros [out H]. discriminate.
      * intros [H|H]; congruence.
Qed.

Lemma remove_duplicates_policy_witness :
  remove_duplicates [obs_pH (71 # 10) None] "median"
  = Raise (AssertionError how_msg).
Proof.
  apply (remove_duplicates_policy [obs_pH (71 # 10) None] "median");
    discriminate.
Defined.

Section DropDuplicatesOrder.
Context {R K : Type} `{EqDecision K} (key : R -> K).

Lemma drop_duplicates_from_sublist_of (seen : list K) (df : list R) :
  drop_duplicates_from key seen df `sublist_of` df.
Proof.
  revert seen. induction df as [|r df IH]; intros seen; simpl.
  - constructor.
  - destruct (decide (key r ∈ seen)).
    + apply sublist_cons, IH.
    + apply sublist_skip, IH.
Qed.

Lemma drop_duplicates_from_first (seen : list K) (df : list R) (r : R) :
  r ∈ drop_duplicates_from key seen df <->
  exists pre post,
    df = pre ++ (r :: post) /\ (key r ∉ seen) /\ (key r ∉ map key pre).
Proof.
  revert seen. induction df as [|r' df IH]; intros seen; simpl.
  - split; [intros H; inversion H|].
    intros [pre [post [H _]]]. destruct pre; discriminate.
  - destruct (decide (key r' ∈ seen)) as [Hin|Hnin].
    + rewrite IH. split.
      * intros [pre [post [-> [Hs Hp]]]]. exists (r' :: pre), post.
        split; [reflexivity|]. split; [exact Hs|]. simpl.
        rewrite not_elem_of_cons. split; [congruence | exact Hp].
      * intros [pre [post [Hdf [Hs Hp]]]]. destruct pre as [|x pre].
        -- simpl in Hdf. inversion Hdf; subst. contradiction.
        -- simpl in Hdf. inversion Hdf; subst. exists pre, post.
           split; [reflexivity|]. split; [exact Hs|].
           simpl in Hp. rewrite not_elem_of_cons in Hp. tauto.
    + rewrite elem_of_cons, IH. split.
      * intros [->|[pre [post [-> [Hs Hp]]]]].
        -- exists [], df. split; [reflexivity|]. split; [exact Hnin|].
           apply not_elem_of_nil.
        -- rewrite not_elem_of_cons in Hs. destruct Hs as [Hne Hs].
           exists (r' :: pre), post. split; [reflexivity|].
           split; [exact Hs|]. simpl. rewrite not_elem_of_cons.
           split; [exact Hne | exact Hp].
      * intros [pre [post [Hdf [Hs Hp]]]]. destruct pre as [|x pre].
        -- simpl in Hdf. inversion Hdf; subst. now left.
        -- simpl in Hdf. inversion Hdf; subst. right. exists pre, post.
           split; [reflexivity|]. simpl in Hp.
           rewrite not_elem_of_cons in Hp. destruct Hp as [Hne Hp].
           split; [|exact Hp]. rewrite not_elem_of_cons. tauto.
Qed.
End DropDuplicatesOrder.

(** X12: the "drop" policy keeps the rows in the order of the input and
    changes none: its output is a sublist of the input, and a row is in
    it exactly when it is the first row of the input with its
    (station_id, date, method_id). *)
Theorem drop_policy_keeps_first (df : list LongObs) :
  exists out,
    remove_duplicates df "drop" = Ok out /\
    out `sublist_of` df /\
    forall r,
      r ∈ out <->
      exists pre post,
        df = pre ++ (r :: post) /\ key_of r ∉ map key_of pre.
Proof.
  exists (drop_duplicates key_of df). split; [reflexivity|]. split.
  - apply drop_duplicates_from_sublist_of.
  - intros r. unfold drop_duplicates. rewrite drop_duplicates_from_first.
    split.
    + intros [pre [post [H [_ Hp]]]]. eauto.
    + intros [pre [post [H Hp]]]. exists pre, post.
      split; [exact H|]. split; [apply not_elem_of_nil | exact Hp].
Qed.

#[global] Instance key_le_trans : Transitive key_le.
Proof.
  intros [[s1 d1] m1] [[s2 d2] m2] [[s3 d3] m3]. unfold key_le, key_leb.
  rewrite !orb_true_iff, !andb_true_iff, !orb_true_iff, !andb_true_iff,
    !Z.ltb_lt, !Z.eqb_eq, !Z.leb_le. lia.
Qed.

#[global] Instance key_le_total : Total key_le.
Proof.
  intros [[s1 d1] m1] [[s2 d2] m2]. unfold key_le, key_leb.
  rewrite !orb_true_iff, !andb_true_iff, !orb_true_iff, !andb_true_iff,
    !Z.ltb_lt, !Z.eqb_eq, !Z.leb_le. lia.
Qed.

(** X13: the "mean" policy gives its rows in the increasing order of
    (station_id, date, method_id), each key once, whatever the order of
    the input. *)
Theorem mean_policy_sorted (df : list LongObs) :
  exists out ks,
    remove_duplicates df "mean" = Ok out /\
    map key_of out = map lift_key ks /\
    StronglySorted key_le ks /\ NoDup ks.
Proof.
  exists (map (aggregate df) (group_keys df)), (group_keys df).
  split; [reflexivity|]. split; [apply mean_keys|]. split.
  - unfold group_keys. apply StronglySorted_merge_sort; apply _.
  - apply group_keys_NoDup.
Qed.

Lemma group_key_of_key (r r' : LongObs) :
  key_of r = key_of r' -> group_key r = group_key r'.
Proof.
  unfold key_of, group_key. intros H. inversion H. reflexivity.
Qed.

(** X14: a row with a missing station_id, date or method_id is left out
    by the "mean" policy, which has no row with its key, and is kept by
    the "drop" policy. *)
Theorem missing_key_mean_and_drop (df : list LongObs) (r : LongObs) :
  r ∈ df -> group_key r = None ->
  (exists out, remove_duplicates df "mean" = Ok out /\
               key_of r ∉ map key_of out) /\
  (exists out, remove_duplicates df "drop" = Ok out /\
               key_of r ∈ map key_of out).
Proof.
  intros Hr Hk. split.
  - exists (map (aggregate df) (group_keys df)). split; [reflexivity|].
    rewrite mean_key_set. intros [r' [_ [[gk Hgk] Heq]]].
    apply group_key_of_key in Heq. congruence.
  - exists (drop_duplicates key_of df). split; [reflexivity|].
    rewrite drop_duplicates_keys, map_fmap. now apply list_elem_of_fmap_2.
Qed.

Lemma missing_key_mean_and_drop_witness :
  (exists out,
     remove_duplicates
       [mkLongObs (Some 1) None (Some 10268) (Some (71 # 10)) None] "mean"
     = Ok out /\
     (Some 1, None, Some 10268) ∉ map key_of out) /\
  (exists out,
     remove_duplicates
       [mkLongObs (Some 1) None (Some 10268) (Some (71 # 10)) None] "drop"
     = Ok out /\
     (Some 1, None, Some 10268) ∈ map key_of out).
Proof.
  apply (missing_key_mean_and_drop
           [mkLongObs (Some 1) None (Some 10268) (Some (71 # 10)) None]
           (mkLongObs (Some 1) None (Some 10268) (Some (71 # 10)) None));
    [left | reflexivity].
Defined.


Lemma group_singleton (df : list LongObs) (r : LongObs) (k : GroupKey) :
  NoDup (map key_of df) -> r ∈ df -> group_key r = Some k ->
  group df k = [r].
Proof.
  unfold group. intros Hnd Hr Hk.
  assert (Hsame : forall r', group_key r' = Some k -> key_of r' = key_of r).
  { intros r' Hr'. apply group_key_lift in Hr', Hk. congruence. }
  induction df as [|x l IH]; [inversion Hr|].
  simpl in Hnd. apply NoDup_cons in Hnd as [Hx Hnd].
  assert (Hrest : forall r', r' ∈ l -> key_of r' ≠ key_of x).
  { intros r' Hr' Heq. apply Hx. rewrite <- Heq, map_fmap.
    now apply list_elem_of_fmap_2. }
  apply elem_of_cons in Hr as [->|Hr].
  - rewrite filter_cons_True by exact Hk. f_equal.
    apply elem_of_nil_inv. intros r' Hr'.
    apply list_elem_of_filter in Hr' as [Hk' Hr'].
    exact (Hrest r' Hr' (Hsame r' Hk')).
  - rewrite filter_cons_False; [now apply IH|].
    intros Hkx. apply (Hrest r Hr). symmetry. now apply Hsame.
Qed.

(** X15: on a table of long observations that has one row per
    (station_id, date, method_id) already, the "mean" policy keeps, for
    every row, a row with the same key, the same flag and the same
    value: the binary64 number that the value of the row is. *)
Theorem mean_policy_on_deduplicated (df : list LongObs) :
  NoDup (map key_of df) -> long_observations df ->
  exists out,
    remove_duplicates df "mean" = Ok out /\
    forall r, r ∈ df ->
      exists o, o ∈ out /\ key_of o = key_of r /\ flag1 o = flag1 r /\
                same_value (value o) (value r) /\
                value o = match value r with
                          | Some v => of_f64 (round v)
                          | None => None
                          end.
Proof.
  intros Hnd Hlo. exists (map (aggregate df) (group_keys df)).
  split; [reflexivity|]. intros r Hr.
  unfold long_observations in Hlo. rewrite Forall_forall in Hlo.
  destruct (long_observation_group_key r (Hlo r Hr)) as [k Hk].
  exists (aggregate df k). split; [|split; [|split; [|split]]].
  - rewrite map_fmap. apply list_elem_of_fmap_2, group_keys_elem. eauto.
  - rewrite aggregate_key. symmetry. now apply group_key_lift.
  - unfold aggregate. rewrite (group_singleton df r k Hnd Hr Hk).
    destruct k as [[s d] m]. simpl. unfold first. simpl.
    now destruct (flag1 r).
  - unfold aggregate. rewrite (group_singleton df r k Hnd Hr Hk).
    destruct k as [[s d] m]. apply mean_single.
  - unfold aggregate. rewrite (group_singleton df r k Hnd Hr Hk).
    destruct k as [[s d] m]. cbn [value map].
    destruct (value r) as [v|]; [apply mean_one | reflexivity].
Qed.

Lemma mean_policy_on_deduplicated_witness :
  exists out,
    remove_duplicates [obs_pH (71 # 10) (Some below_LOD); obs_Ca 3 None]
      "mean" = Ok out /\
    forall r, r ∈ [obs_pH (71 # 10) (Some below_LOD); obs_Ca 3 None] ->
      exists o, o ∈ out /\ key_of o = key_of r /\ flag1 o = flag1 r /\
                same_value (value o) (value r) /\
                value o = match value r with
                          | Some v => of_f64 (round v)
                          | None => None
                          end.
Proof.
  apply mean_policy_on_deduplicated.
  - apply (bool_decide_unpack _). vm_compute. exact I.
  - repeat constructor; simpl; eauto.
Defined.

(** ** upload_samples, further *)

Lemma merge_sample_elem (ws_df : list SampleRow) (r : LongObs)
  (o : SampledObs) :
  o ∈ merge_sample ws_df r ->
  (o = mkSampledObs r None /\
   forall w, w ∈ ws_df ->
     (ws_station_id w, ws_sample_date w) <> sample_key r) \/
  (exists w, w ∈ ws_df /\
     (ws_station_id w, ws_sample_date w) = sample_key r /\
     o = mkSampledObs r (ws_water_sample_id w)).
Proof.
  unfold merge_sample.
  destruct (filter _ ws_df) as [|w0 ms] eqn:E.
  - intros H. apply list_elem_of_singleton in H. left. split; [exact H|].
    intros w Hw Hk.
    exact (filter_nil_not_elem_of _ _ w E Hk Hw).
  - rewrite map_fmap. intros H.
    apply list_elem_of_fmap in H as [w [-> Hw]]. right.
    rewrite <- E in Hw. apply list_elem_of_filter in Hw as [Hk Hw]. eauto.
Qed.

Lemma merge_sample_nonempty (ws_df : list SampleRow) (r : LongObs) :
  exists o, o ∈ merge_sample ws_df r /\ s_obs o = r.
Proof.
  unfold merge_sample. destruct (filter _ ws_df) as [|w0 ms].
  - eexists. split; [left | reflexivity].
  - eexists. split; [left | reflexivity].
Qed.

Lemma filter_unique_pair {A K} `{EqDecision K} (f : A -> K)
  (P : A -> Prop) `{forall a, Decision (P a)} (l : list A) (k : K) :
  NoDup (map f l) ->
  (length (filter (fun w => f w = k) (filter P l)) <= 1)%nat.
Proof.
  induction l as [|a l IH]; intros Hnd; [simpl; lia|].
  simpl in Hnd. apply NoDup_cons in Hnd as [Ha Hnd].
  destruct (decide (P a)) as [HP|HP].
  - rewrite (filter_cons_True P) by exact HP.
    destruct (decide (f a = k)) as [Hk|Hk].
    + rewrite filter_cons_True by exact Hk.
      rewrite (elem_of_nil_inv (filter _ (filter P l))); [simpl; lia|].
      intros w Hw. apply list_elem_of_filter in Hw as [Hwk Hw].
      apply list_elem_of_filter in Hw as [_ Hw].
      apply Ha. rewrite Hk, <- Hwk, map_fmap.
      now apply list_elem_of_fmap_2.
    + rewrite filter_cons_False by exact Hk. now apply IH.
  - rewrite (filter_cons_False P) by exact HP. now apply IH.
Qed.

Lemma merge_sample_unique (P : SampleRow -> Prop)
  `{forall w, Decision (P w)} (tbl : list SampleRow) (l : list LongObs) :
  NoDup (map (fun w => (ws_station_id w, ws_sample_date w)) tbl) ->
  map s_obs (flat_map (merge_sample (filter P tbl)) l) = l.
Proof.
  intros Hnd. induction l as [|r l IH]; [reflexivity|].
  simpl. rewrite map_app, IH. f_equal. unfold merge_sample.
  pose proof (filter_unique_pair
                (fun w => (ws_station_id w, ws_sample_date w))
                P tbl (sample_key r) Hnd) as Hlen.
  destruct (filter _ (filter P tbl)) as [|w0 [|w1 ms]];
    [reflexivity | reflexivity | simpl in Hlen; lia].
Qed.

Lemma Forall2_elem_l {A B} (R : A -> B -> Prop) (l : list A)
  (k : list B) (a : A) :
  Forall2 R l k -> a ∈ l -> exists b, b ∈ k /\ R a b.
Proof.
  induction 1 as [|x y l k HR HF IH]; intros Ha; [inversion Ha|].
  apply elem_of_cons in Ha as [->|Ha].
  - exists y. split; [left | exact HR].
  - destruct (IH Ha) as [b [Hb Hab]]. exists b. split; [now right | exact Hab].
Qed.

Lemma Forall2_elem_r {A B} (R : A -> B -> Prop) (l : list A)
  (k : list B) (b : B) :
  Forall2 R l k -> b ∈ k -> exists a, a ∈ l /\ R a b.
Proof.
  induction 1 as [|x y l k HR HF IH]; intros Hb; [inversion Hb|].
  apply elem_of_cons in Hb as [->|Hb].
  - exists x. split; [left | exact HR].
  - destruct (IH Hb) as [a [Ha Hab]]. exists a. split; [now right | exact Hab].
Qed.

Lemma joined_nonempty (df : list LongObs) (tbl : list SampleRow)
  (r : LongObs) :
  r ∈ df -> exists o, o ∈ joined df tbl /\ s_obs o = r.
Proof.
  intros Hr.
  destruct (merge_sample_nonempty (samples_of (station_ids df) tbl) r)
    as [o [Ho Hobs]].
  exists o. split; [|exact Hobs]. apply flat_map_elem. eauto.
Qed.

Lemma joined_obs (df : list LongObs) (tbl : list SampleRow)
  (o : SampledObs) :
  o ∈ joined df tbl -> s_obs o ∈ df.
Proof.
  intros Ho. apply flat_map_elem in Ho as [r [Hr Ho]].
  now rewrite (merge_sample_obs _ _ _ Ho).
Qed.

Section UploadSamples.
Variable insert_sample :
  list SampleRow -> option Z * option Z -> Result (option Z * option Z).

Lemma to_sql_samples_total (ws_df : list (option Z * option Z))
  (tbl : list SampleRow) :
  (forall t p, exists x, insert_sample t p = Ok x) ->
  exists tbl', to_sql_samples insert_sample ws_df tbl = Ok tbl'.
Proof.
  intros Hins. revert tbl.
  induction ws_df as [|p ws IH]; intros tbl; simpl; [eauto|].
  destruct (Hins tbl p) as [x ->]. simpl. apply IH.
Qed.

(** X16: outside a dry run, when the database accepts the INSERT,
    [upload_samples] leaves water_samples with the rows it held and,
    after them, one row for each distinct (station_id, date) of the
    observations, in the order of their first occurrence, with the
    station_id of the observations and depth1 = depth2 = 0; the other
    tables are left as they are, whether the function then fails or
    not. *)
Theorem upload_samples_appends (df : list LongObs) (db : DB)
  (tbl : list SampleRow) :
  to_sql_samples insert_sample (drop_duplicates id (map sample_key df))
    (water_samples db) = Ok tbl ->
  exists news,
    water_samples (upload_samples insert_sample df db false).1
    = water_samples db ++ news /\
    map ws_station_id news
    = map fst (drop_duplicates id (map sample_key df)) /\
    Forall (fun w => ws_depth1 w = 0 /\ ws_depth2 w = 0) news /\
    stations (upload_samples insert_sample df db false).1 = stations db /\
    water_chemistry_values2 (upload_samples insert_sample df db false).1
    = water_chemistry_values2 db.
Proof.
  intros Ht.
  rewrite (upload_samples_accepted_db insert_sample df db tbl Ht). simpl.
  destruct (to_sql_samples_rows insert_sample _ _ _ Ht) as [news [-> HF]].
  exists news. split; [reflexivity|].
  destruct (inserted_rows insert_sample _ _ HF) as [H1 H2].
  split; [exact H1|]. split; [exact H2|]. split; reflexivity.
Qed.

(** X17: outside a dry run, for at least one observation, on a database
    that accepts every row it receives, gives it an identifier and
    stores the date of the row as its sample_date, when the rows that
    water_samples holds have an identifier and every observation has a
    station_id, [upload_samples] succeeds and every observation it
    returns has a water_sample_id. *)
Theorem upload_samples_assigns_ids (df : list LongObs) (db : DB) :
  df <> [] ->
  (forall tbl p, exists i, insert_sample tbl p = Ok (Some i, p.2)) ->
  (forall w, w ∈ water_samples db -> is_Some (ws_water_sample_id w)) ->
  (forall r, r ∈ df -> is_Some (station_id r)) ->
  exists db1 ws_df out,
    upload_samples insert_sample df db false = (db1, Ok (ws_df, out)) /\
    forall o, o ∈ out -> is_Some (water_sample_id o).
Proof.
  intros Hne Hins Hold Hst.
  destruct (to_sql_samples_total (new_samples df) (water_samples db))
    as [tbl Ht].
  { intros t p. destruct (Hins t p) as [i Hi]. eauto. }
  rewrite (upload_samples_accepted insert_sample df db tbl Hne Hst Ht).
  destruct (to_sql_samples_rows insert_sample _ _ _ Ht) as [news [-> HF]].
  set (tbl := water_samples db ++ news).
  assert (Hids : forall w, w ∈ tbl -> is_Some (ws_water_sample_id w)).
  { intros w Hw. apply elem_of_app in Hw as [Hw|Hw]; [now apply Hold|].
    destruct (Forall2_elem_r _ _ _ w HF Hw) as [p [_ [t [x [Hx ->]]]]].
    destruct (Hins t p) as [i Hi]. rewrite Hi in Hx.
    injection Hx as <-. simpl. eauto. }
  assert (Hout : forall o, o ∈ joined df tbl -> is_Some (water_sample_id o)).
  { intros o Ho. apply flat_map_elem in Ho as [r [Hr Ho]].
    apply merge_sample_elem in Ho as [[_ Hno]|[w [Hw [_ ->]]]].
    - exfalso.
      assert (Hp : sample_key r ∈ new_samples df).
      { apply drop_duplicates_id_elem. rewrite map_fmap.
        now apply list_elem_of_fmap_2. }
      destruct (Forall2_elem_l _ _ _ _ HF Hp) as [w [Hw [t [x [Hx ->]]]]].
      destruct (Hins t (sample_key r)) as [i Hi]. rewrite Hi in Hx.
      injection Hx as <-.
      apply (Hno (mkSampleRow (Some i) (sample_key r).1 (sample_key r).2
                    0 0)); [|reflexivity].
      apply samples_of_elem. split; [|apply elem_of_app; now right].
      simpl. split; [now apply Hst|]. apply station_ids_elem. eauto.
    - apply Hids. now apply samples_of_elem in Hw as [_ Hw]. }
  pose proof Hout as Hz. apply count_na_zero in Hz. rewrite Hz. simpl.
  eexists _, _, _. split; [reflexivity | exact Hout].
Qed.

(** X18: the join of [upload_samples] loses no observation and invents
    none: in a dry run on observations (at least one) that have a
    station_id, the observations returned are those of the input; and
    when water_samples holds no two rows of one (station_id, date), they
    are the observations of the input, one for one, in their order. *)
Theorem upload_samples_keeps_observations (df : list LongObs) (db : DB) :
  df <> [] ->
  (forall r, r ∈ df -> is_Some (station_id r)) ->
  exists ws_df out,
    upload_samples insert_sample df db true = (db, Ok (ws_df, out)) /\
    (forall r, r ∈ df <-> r ∈ map s_obs out) /\
    (NoDup (map (fun w => (ws_station_id w, ws_sample_date w))
              (water_samples db)) ->
     map s_obs out = df).
Proof.
  intros Hne Hst.
  rewrite (upload_samples_dry_run insert_sample df db Hne Hst).
  eexists _, _. split; [reflexivity|]. split.
  - intros r. rewrite map_fmap, list_elem_of_fmap. split.
    + intros Hr. destruct (joined_nonempty df (water_samples db) r Hr)
        as [o [Ho Hobs]]. eauto.
    + intros [o [-> Ho]]. now apply (joined_obs df (water_samples db)).
  - intros Hnd. unfold joined, samples_of.
    now apply merge_sample_unique.
Qed.

End UploadSamples.

Lemma upload_samples_appends_witness :
  exists news,
    water_samples
      (upload_samples serial_insert
         [obs_pH (71 # 10) None; obs_Ca 3 None;
          mkLongObs (Some 1) (Some 18263) (Some 10268) (Some (73 # 10)) None]
         db_1 false).1
    = water_samples db_1 ++ news /\
    map ws_station_id news = [Some 1; Some 1] /\
    Forall (fun w => ws_depth1 w = 0 /\ ws_depth2 w = 0) news.
Proof.
  destruct (upload_samples_appends serial_insert
              [obs_pH (71 # 10) None; obs_Ca 3 None;
               mkLongObs (Some 1) (Some 18263) (Some 10268) (Some (73 # 10))
                 None]
              db_1
              [mkSampleRow (Some 7) (Some 1) (Some 18262) 0 0;
               mkSampleRow (Some 2) (Some 1) (Some 18262) 0 0;
               mkSampleRow (Some 3) (Some 1) (Some 18263) 0 0] eq_refl)
    as [news [H1 [H2 [H3 _]]]].
  exists news. split; [exact H1|]. split; [exact H2 | exact H3].
Defined.

Lemma upload_samples_assigns_ids_witness :
  exists db1 ws_df out,
    upload_samples serial_insert [obs_pH (71 # 10) None; obs_Ca 3 None]
      db_1 false = (db1, Ok (ws_df, out)) /\
    forall o, o ∈ out -> is_Some (water_sample_id o).
Proof.
  apply upload_samples_assigns_ids.
  - discriminate.
  - intros tbl p. unfold serial_insert, serial_id. eauto.
  - intros w Hw. apply list_elem_of_singleton in Hw. subst w. simpl. eauto.
  - intros r Hr. apply elem_of_cons in Hr as [->|Hr]; [simpl; eauto|].
    apply list_elem_of_singleton in Hr. subst r. simpl. eauto.
Defined.

Lemma upload_samples_keeps_observations_witness :
  exists ws_df out,
    upload_samples serial_insert [obs_pH (71 # 10) None; obs_Ca 3 None]
      db_1 true = (db_1, Ok (ws_df, out)) /\
    map s_obs out = [obs_pH (71 # 10) None; obs_Ca 3 None].
Proof.
  destruct (upload_samples_keeps_observations serial_insert
              [obs_pH (71 # 10) None; obs_Ca 3 None] db_1)
    as [ws_df [out [H1 [_ H2]]]].
  - discriminate.
  - intros r Hr. apply elem_of_cons in Hr as [->|Hr]; [simpl; eauto|].
    apply list_elem_of_singleton in Hr. subst r. simpl. eauto.
  - exists ws_df, out. split; [exact H1|]. apply H2.
    apply (bool_decide_unpack _). vm_compute. exact I.
Defined.

(** ** The stages together *)

Lemma reshape_station (df : Wide (option string)) (stn_df : Stations)
  (out : list (Melted Z)) :
  reshape df stn_df = Ok out ->
  forall o, o ∈ out -> is_Some (m_station_id o).
Proof.
  unfold reshape.
  destruct (map_station_ids (map_method_ids df) stn_df) as [df1|e] eqn:E;
    simpl; [|discriminate].
  apply map_station_ids_Ok_inv in E as [-> Hm].
  intros H o Ho.
  apply (wide_to_long_elem _ _ H) in Ho
    as [j [l [r [c [z [_ [Hr [_ [_ ->]]]]]]]]].
  simpl in Hr. apply flat_map_elem in Hr as [r0 [Hr0 Hr]]. simpl.
  now apply (merge_station_matched stn_df r0 (Hm r0 Hr0)).
Qed.

Lemma extract_lod_flags_station (df : list (Melted Z))
  (out : list LongObs) :
  extract_lod_flags df = Ok out ->
  forall o, o ∈ out ->
    is_Some (method_id o) /\
    exists r, r ∈ df /\ station_id o = m_station_id r.
Proof.
  unfold extract_lod_flags. intros H o Ho.
  apply (mapM_elem _ _ _ o H) in Ho as [r [Hr Hf]].
  unfold extract_row in Hf.
  destruct (extract_value (m_value r)) as [v|e]; simpl in Hf; [|discriminate].
  inversion Hf; subst o. simpl. eauto.
Qed.

Lemma remove_duplicates_rows (df out : list LongObs) (how : string) :
  remove_duplicates df how = Ok out ->
  NoDup (map key_of out) /\
  forall o, o ∈ out ->
    (exists r, r ∈ df /\ key_of r = key_of o).
Proof.
  unfold remove_duplicates. destruct (negb _); [discriminate|].
  destruct (String.eqb how "mean"); intros H; inversion H; subst out.
  - split; [apply mean_NoDup|]. intros o Ho.
    assert (Hk : key_of o ∈ map key_of (map (aggregate df) (group_keys df)))
      by (rewrite (map_fmap key_of); now apply list_elem_of_fmap_2).
    apply mean_key_set in Hk as [r [Hr [_ Hk]]]. eauto.
  - split; [apply drop_duplicates_NoDup|]. intros o Ho.
    exists o. split; [|reflexivity].
    now apply (drop_duplicates_from_sublist key_of [] df).
Qed.

Lemma transform_rows (tpl : Wide (option string))
  (stn_df : Stations) (dups : string) (df : list LongObs) :
  transform tpl stn_df dups = Ok df ->
  NoDup (map key_of df) /\
  forall r, r ∈ df -> is_Some (station_id r) /\ is_Some (method_id r).
Proof.
  unfold transform.
  destruct (reshape tpl stn_df) as [df1|e] eqn:E1; simpl; [|discriminate].
  destruct (extract_lod_flags df1) as [df2|e] eqn:E2; simpl; [|discriminate].
  intros H. apply remove_duplicates_rows in H as [Hnd Hrows].
  split; [exact Hnd|]. intros o Ho.
  destruct (Hrows o Ho) as [r [Hr Hk]].
  destruct (extract_lod_flags_station df1 df2 E2 r Hr)
    as [Hm [r1 [Hr1 Hs]]].
  unfold key_of in Hk. injection Hk as H1 H2 H3.
  rewrite <- H1, <- H3. split; [|exact Hm].
  rewrite Hs. now apply (reshape_station tpl stn_df df1 E1).
Qed.

(** X22: whatever [transform] (the stages before the database) returns
    for either policy has one row per (station_id, date, method_id), and
    each of its rows has a station_id and a method_id. *)
Theorem transform_invariants (tpl : Wide (option string))
  (stn_df : Stations) (dups : string) (df : list LongObs) :
  transform tpl stn_df dups = Ok df ->
  NoDup (map key_of df) /\
  forall r, r ∈ df -> is_Some (station_id r) /\ is_Some (method_id r).
Proof. apply transform_rows. Qed.

Lemma transform_invariants_witness :
  NoDup (map key_of
           [obs_pH (71 # 10) None;
            mkLongObs (Some 1) (Some 18263) (Some 10268) (Some (73 # 10))
              None;
            mkLongObs (Some 1) (Some 18262) (Some 10251) (Some (3 # 1))
              (Some below_LOD)]) /\
  forall r,
    r ∈ [obs_pH (71 # 10) None;
         mkLongObs (Some 1) (Some 18263) (Some 10268) (Some (73 # 10))
           None;
         mkLongObs (Some 1) (Some 18262) (Some 10251) (Some (3 # 1))
           (Some below_LOD)] ->
    is_Some (station_id r) /\ is_Some (method_id r).
Proof.
  apply (transform_invariants (template_2 "Ca_mg/L" (Some "<3") None)
           [("NO01", 1)] "drop").
  reflexivity.
Defined.

(** ** process_template *)

Section ProcessTemplate.
Variable insert_sample :
  list SampleRow -> option Z * option Z -> Result (option Z * option Z).

(** X19: there is no rollback.  Outside a dry run, when the observations
    that reach the database stage include one without a value and the
    database accepts the INSERT into water_samples, [process_template]
    fails with an [AssertionError], the chemistry table is as it was,
    and the rows of the samples of the run, one for each distinct
    (station_id, date), stay in water_samples. *)
Theorem process_template_no_rollback (tpl : Wide (option string))
  (db : DB) (dups : string) (df : list LongObs) (tbl : list SampleRow) :
  transform tpl (stations db) dups = Ok df ->
  (exists r, r ∈ df /\ value r = None) ->
  to_sql_samples insert_sample (drop_duplicates id (map sample_key df))
    (water_samples db) = Ok tbl ->
  exists db1,
    process_template insert_sample tpl db dups false
    = (db1, Raise (AssertionError "")) /\
    water_samples db1 = tbl /\
    length (water_samples db1)
    = (length (water_samples db)
       + length (drop_duplicates id (map sample_key df)))%nat /\
    water_chemistry_values2 db1 = water_chemistry_values2 db.
Proof.
  intros Ht [r [Hr Hv]] Hsql.
  exists (mkDB (stations db) tbl (water_chemistry_values2 db)).
  split; [|split; [reflexivity|split; [|reflexivity]]].
  - assert (Hne : df <> []) by (intros ->; inversion Hr).
    assert (Hst : forall r, r ∈ df -> is_Some (station_id r)).
    { intros r' Hr'. now apply (transform_rows _ _ _ _ Ht). }
    unfold process_template. rewrite Ht.
    rewrite (upload_samples_accepted insert_sample df db tbl Hne Hst Hsql).
    destruct (_ =? _)%nat; [|reflexivity].
    rewrite upload_chemistry_fail; [reflexivity|].
    destruct (joined_nonempty df tbl r Hr) as [o [Ho Hobs]].
    exists o. split; [exact Ho|].
    intros [_ [_ [v Hval]]]. rewrite Hobs in Hval. congruence.
  - simpl. now apply (to_sql_samples_length insert_sample).
Qed.

(** X20: a station code without a match in the reference table stops
    [process_template] before anything is written, in a dry run or
    outside one: the database is returned as it was. *)
Theorem process_template_unmatched_station (tpl : Wide (option string))
  (db : DB) (dups : string) (dry_run : bool) :
  (exists r, r ∈ w_rows tpl /\ ~ has_match (stations db) (w_id r)) ->
  process_template insert_sample tpl db dups dry_run
  = (db, Raise (AssertionError unmatched_msg)).
Proof.
  intros H. unfold process_template, transform, reshape.
  now rewrite (map_station_ids_Raise (map_method_ids tpl) (stations db) H).
Qed.

(** X21: outside a dry run, a [process_template] that succeeds has
    appended to water_chemistry_values2 the rows it returns, and each of
    them has a method_id, a water_sample_id and a value; the rows that
    water_samples held are kept. *)
Theorem process_template_writes (tpl : Wide (option string)) (db db2 : DB)
  (dups : string) (ws_df : list (option Z * option Z * option Z))
  (rows : list ChemRow) :
  process_template insert_sample tpl db dups false
  = (db2, Ok (ws_df, rows)) ->
  water_chemistry_values2 db2 = water_chemistry_values2 db ++ rows /\
  (exists news, water_samples db2 = water_samples db ++ news) /\
  forall c, c ∈ rows ->
    is_Some (c_method_id c) /\ is_Some (c_water_sample_id c)
    /\ is_Some (c_value c).
Proof.
  unfold process_template.
  destruct (transform tpl (stations db) dups) as [df|e]; [|discriminate].
  destruct (upload_samples insert_sample df db false)
    as [db1 [[ws out]|e]] eqn:E; [|discriminate].
  apply upload_samples_Ok_inv in E as [tbl [Hsql [-> [_ _]]]].
  unfold upload_chemistry. simpl negb. simpl andb.
  destruct (_ && _ && _) eqn:E; simpl; [|discriminate].
  intros H. inversion H; subst db2 ws_df rows; clear H. simpl.
  split; [reflexivity|]. split.
  - destruct (to_sql_samples_rows insert_sample _ _ _ Hsql)
      as [news [Hn _]]. eauto.
  - apply andb_prop in E as [E E3]. apply andb_prop in E as [E1 E2].
    apply Nat.eqb_eq in E1, E2, E3.
    intros c Hc. rewrite map_fmap in Hc.
    apply list_elem_of_fmap in Hc as [o [-> Ho]]. simpl.
    rewrite count_na_zero in E1. rewrite count_na_zero in E2.
    rewrite count_na_zero in E3. auto.
Qed.

End ProcessTemplate.

Lemma process_template_no_rollback_witness :
  exists db1,
    process_template serial_insert
      (template_2 "Ca_mg/L" (Some "n.d.") None) db_1 "drop" false
    = (db1, Raise (AssertionError "")) /\
    water_samples db1
    = [mkSampleRow (Some 7) (Some 1) (Some 18262) 0 0;
       mkSampleRow (Some 2) (Some 1) (Some 18262) 0 0;
       mkSampleRow (Some 3) (Some 1) (Some 18263) 0 0] /\
    length (water_samples db1) = 3%nat /\
    water_chemistry_values2 db1 = [].
Proof.
  apply (process_template_no_rollback serial_insert
           (template_2 "Ca_mg/L" (Some "n.d.") None) db_1 "drop"
           [obs_pH (71 # 10) None;
            mkLongObs (Some 1) (Some 18263) (Some 10268) (Some (73 # 10)) None;
            mkLongObs (Some 1) (Some 18262) (Some 10251) None None]).
  - reflexivity.
  - eexists. split; [right; right; left | reflexivity].
  - reflexivity.
Defined.

Lemma process_template_unmatched_station_witness :
  process_template serial_insert (template_1 "XX99") db_1 "mean" false
  = (db_1, Raise (AssertionError unmatched_msg)).
Proof.
  apply process_template_unmatched_station.
  eexists. split; [left|]. simpl.
  intros [code [id [H1 H2]]]. inversion H1; subst code.
  apply list_elem_of_singleton in H2. discriminate.
Defined.

Lemma process_template_writes_witness :
  water_chemistry_values2
    (process_template serial_insert (template_1 "NO01") db_1 "drop" false).1
  = water_chemistry_values2 db_1
    ++ [mkChemRow (Some 10268) (Some (71 # 10)) None (Some 7);
        mkChemRow (Some 10268) (Some (71 # 10)) None (Some 2)] /\
  Forall (fun c => is_Some (c_method_id c) /\ is_Some (c_water_sample_id c)
                   /\ is_Some (c_value c))
    [mkChemRow (Some 10268) (Some (71 # 10)) None (Some 7);
     mkChemRow (Some 10268) (Some (71 # 10)) None (Some 2)].
Proof.
  destruct (process_template_writes serial_insert (template_1 "NO01") db_1
              (process_template serial_insert (template_1 "NO01") db_1
                 "drop" false).1
              "drop"
              [(Some 7, Some 1, Some 18262); (Some 2, Some 1, Some 18262)]
              [mkChemRow (Some 10268) (Some (71 # 10)) None (Some 7);
               mkChemRow (Some 10268) (Some (71 # 10)) None (Some 2)]
              eq_refl) as [H1 [_ H3]].
  split; [exact H1|]. apply Forall_forall. exact H3.
Defined.

(** ** A second import *)

Lemma filter_nonempty {A} (P : A -> Prop) `{forall a, Decision (P a)}
  (l : list A) (a : A) :
  a ∈ l -> P a -> exists x xs, filter P l = x :: xs.
Proof.
  intros Ha HP.
  assert (Hin : a ∈ filter P l) by (apply list_elem_of_filter; auto).
  destruct (filter P l) as [|x xs]; [inversion Hin | eauto].
Qed.

Section SecondImport.
Variable insert_sample :
  list SampleRow -> option Z * option Z -> Result (option Z * option Z).

(** X23: the samples are sent without a look at the table.  Outside a
    dry run, on a database that stores the date of a row it receives as
    its sample_date, an observation with a station_id whose
    (station_id, date) water_samples holds already is joined to the old
    row and to the new one: a call that succeeds returns this
    observation at least twice. *)
Theorem upload_samples_existing_sample (df : list LongObs) (db db1 : DB)
  (r : LongObs) (w : SampleRow)
  (ws_df : list (option Z * option Z * option Z))
  (out : list SampledObs) :
  (forall tbl p x, insert_sample tbl p = Ok x -> x.2 = p.2) ->
  r ∈ df -> w ∈ water_samples db -> is_Some (station_id r) ->
  (ws_station_id w, ws_sample_date w) = sample_key r ->
  upload_samples insert_sample df db false = (db1, Ok (ws_df, out)) ->
  exists l1 o1 l2 o2 l3,
    out = l1 ++ o1 :: l2 ++ o2 :: l3 /\ s_obs o1 = r /\ s_obs o2 = r.
Proof.
  intros Hdate Hr Hw Hst Hk Hup.
  apply upload_samples_Ok_inv in Hup as [tbl [Hsql [_ [-> _]]]].
  destruct (to_sql_samples_rows insert_sample _ _ _ Hsql) as [news [-> HF]].
  assert (Hstn : station_id r ∈ station_ids df)
    by (apply station_ids_elem; eauto).
  assert (Hsel : forall w', (ws_station_id w', ws_sample_date w')
                            = sample_key r ->
                 is_Some (ws_station_id w')
                 /\ ws_station_id w' ∈ station_ids df).
  { intros w' Hk'. unfold sample_key in Hk'. injection Hk' as Hs _.
    rewrite Hs. auto. }
  assert (Hp : sample_key r ∈ new_samples df).
  { apply drop_duplicates_id_elem. rewrite map_fmap.
    now apply list_elem_of_fmap_2. }
  destruct (Forall2_elem_l _ _ _ _ HF Hp) as [w' [Hw' [t [x [Hx Hrow]]]]].
  assert (Hk' : (ws_station_id w', ws_sample_date w') = sample_key r).
  { rewrite Hrow. simpl. rewrite (Hdate _ _ _ Hx). now destruct r. }
  apply list_elem_of_split in Hr as [pre [post ->]].
  unfold joined. rewrite flat_map_app. simpl.
  unfold merge_sample at 2. unfold samples_of.
  rewrite !filter_app.
  destruct (filter_nonempty
              (fun w => (ws_station_id w, ws_sample_date w) = sample_key r)
              (filter (fun w => is_Some (ws_station_id w)
                                /\ ws_station_id w
                                   ∈ station_ids (pre ++ r :: post))
                 (water_samples db)) w) as [y [ys ->]];
    [apply list_elem_of_filter; auto | exact Hk |].
  destruct (filter_nonempty
              (fun w => (ws_station_id w, ws_sample_date w) = sample_key r)
              (filter (fun w => is_Some (ws_station_id w)
                                /\ ws_station_id w
                                   ∈ station_ids (pre ++ r :: post)) news)
              w')
    as [z [zs ->]];
    [apply list_elem_of_filter; auto | exact Hk' |].
  simpl. rewrite map_app. simpl. rewrite <- app_assoc. simpl.
  eexists _, _, _, _, _. split; [reflexivity|]. split; reflexivity.
Qed.

End SecondImport.

Lemma upload_samples_existing_sample_witness :
  exists l1 o1 l2 o2 l3,
    [mkSampledObs (obs_pH (71 # 10) None) (Some 7);
     mkSampledObs (obs_pH (71 # 10) None) (Some 2)]
    = l1 ++ o1 :: l2 ++ o2 :: l3 /\
    s_obs o1 = obs_pH (71 # 10) None /\ s_obs o2 = obs_pH (71 # 10) None.
Proof.
  apply (upload_samples_existing_sample serial_insert
           [obs_pH (71 # 10) None] db_1
           (mkDB [("NO01", 1)]
              [mkSampleRow (Some 7) (Some 1) (Some 18262) 0 0;
               mkSampleRow (Some 2) (Some 1) (Some 18262) 0 0] [])
           (obs_pH (71 # 10) None)
           (mkSampleRow (Some 7) (Some 1) (Some 18262) 0 0)
           [(Some 7, Some 1, Some 18262); (Some 2, Some 1, Some 18262)]).
  - intros tbl p x H. unfold serial_insert in H. now injection H as <-.
  - left.
  - left.
  - simpl. eauto.
  - reflexivity.
  - reflexivity.
Defined.
